(** * Imagine GLTexture: a shallow embedding of the texture resource

    The development follows [imagine/src/gfx/opengl/GLTexture.cc]
    (namespace [IG::Gfx]).  Integers of the C++ code are [Z] with the
    conversions the code performs written out; the texture object, the
    renderer task's queue, the host heap and the error log are threaded
    through a state-and-failure monad. *)

From Stdlib Require Import ZArith List Bool String Lia.
Import ListNotations.
Local Open Scope string_scope.
Local Open Scope list_scope.
Local Open Scope Z_scope.

(** ** Machine integers *)

Definition INT_MAX : Z := 2147483647.
Definition INT_MIN : Z := - INT_MAX - 1.

(** the result of an [int] operation: the mathematical result reduced to
    32 bits, two's complement. *)
Definition to_int (x : Z) : Z := (x + 2 ^ 31) mod 2 ^ 32 - 2 ^ 31.

(** [static_cast<unsigned>(x)] and the implicit conversion to [uint32_t]. *)
Definition to_unsigned (x : Z) : Z := x mod 2 ^ 32.

(** conversion to [uintptr_t] (64-bit address space). *)
Definition to_uintptr (x : Z) : Z := x mod 2 ^ 64.

(** conversion to [int8_t] (two's complement wrap-around). *)
Definition to_int8 (x : Z) : Z := (x + 128) mod 256 - 128.

(** ** Helpers of [imagine/util] used by the texture code *)

(** Modelled from the spec: [fls] of [imagine/util/bit.hh] (find last set)
    is not among the sources; it is the 1-based index of the most
    significant set bit of an unsigned value and 0 for 0, so that
    [fls(w | h)] is the number of halvings down to 1 plus one. *)
Fixpoint fls_scan (bits : nat) (x : Z) : Z :=
  match bits with
  | O => 0
  | S bits' => if x =? 0 then 0 else 1 + fls_scan bits' (Z.shiftr x 1)
  end.

Definition fls (x : Z) : Z := fls_scan 32 x.

(** Modelled from the spec: [IG::isPowerOf2] of [imagine/util/math/int.hh]
    is not among the sources; a value is a power of two when it is nonzero
    and has a single bit set. *)
Definition isPowerOf2 (x : Z) : bool :=
  negb (x =? 0) && (Z.land x (x - 1) =? 0).

(** Modelled from the spec: [iotaCount(n)] of [imagine/util/ranges.hh]
    is the range 0, 1, ..., n-1 (empty when n <= 0). *)
Definition iotaCount (n : Z) : list Z :=
  map Z.of_nat (seq 0 (Z.to_nat n)).

(** ** OpenGL enumerants *)

Definition GLenum := Z.
Definition GLuint := Z.

Definition GL_TEXTURE_SWIZZLE_R : GLenum := 0x8E42.
Definition GL_TEXTURE_SWIZZLE_G : GLenum := 0x8E43.
Definition GL_TEXTURE_SWIZZLE_B : GLenum := 0x8E44.
Definition GL_TEXTURE_SWIZZLE_A : GLenum := 0x8E45.
Definition GL_TEXTURE_SWIZZLE_RGBA : GLenum := 0x8E46.
Definition GL_UNPACK_ROW_LENGTH : GLenum := 0x0CF2.
Definition GL_PIXEL_UNPACK_BUFFER : GLenum := 0x88EC.
Definition GL_TEXTURE_EXTERNAL_OES : GLenum := 0x8D65.
Definition GL_UNSIGNED_INT_8_8_8_8_REV : GLenum := 0x8367.
Definition GL_RGB5 : GLenum := 0x8050.
(* the remaining values are those of the OpenGL headers *)
Definition GL_TEXTURE_2D : GLenum := 0x0DE1.
Definition GL_UNPACK_ALIGNMENT : GLenum := 0x0CF5.
Definition GL_UNSIGNED_BYTE : GLenum := 0x1401.
Definition GL_UNSIGNED_SHORT_5_6_5 : GLenum := 0x8363.
Definition GL_UNSIGNED_SHORT_5_5_5_1 : GLenum := 0x8034.
Definition GL_UNSIGNED_SHORT_4_4_4_4 : GLenum := 0x8033.
Definition GL_RGB : GLenum := 0x1907.
Definition GL_RGBA : GLenum := 0x1908.
Definition GL_BGRA : GLenum := 0x80E1.
Definition GL_SRGB8_ALPHA8 : GLenum := 0x8C43.
Definition GL_RGBA8 : GLenum := 0x8058.
Definition GL_RGB565 : GLenum := 0x8D62.
Definition GL_RGB5_A1 : GLenum := 0x8057.
Definition GL_RGBA4 : GLenum := 0x8056.
Definition GL_RED : GLenum := 0x1903.
Definition GL_GREEN : GLenum := 0x1904.
Definition GL_BLUE : GLenum := 0x1905.
Definition GL_ALPHA : GLenum := 0x1906.
Definition GL_ONE : GLenum := 1.

(** ** Pixel formats, pixmaps and rectangles ([imagine/pixmap], [imagine/util/rectangle2.h]) *)

(** The pixel format ids the switches of this file handle; ids outside this
    set reach the [default: bug_unreachable] arms and are excluded by type. *)
Inductive PixelFormatID :=
| PIXEL_RGBA8888 | PIXEL_BGRA8888 | PIXEL_RGB888 | PIXEL_I8 | PIXEL_IA88
| PIXEL_A8 | PIXEL_RGB565 | PIXEL_RGBA5551 | PIXEL_RGBA4444.

Definition PixelFormatID_eqb (a b : PixelFormatID) : bool :=
  match a, b with
  | PIXEL_RGBA8888, PIXEL_RGBA8888 | PIXEL_BGRA8888, PIXEL_BGRA8888
  | PIXEL_RGB888, PIXEL_RGB888 | PIXEL_I8, PIXEL_I8 | PIXEL_IA88, PIXEL_IA88
  | PIXEL_A8, PIXEL_A8 | PIXEL_RGB565, PIXEL_RGB565
  | PIXEL_RGBA5551, PIXEL_RGBA5551 | PIXEL_RGBA4444, PIXEL_RGBA4444 => true
  | _, _ => false
  end.

(** Modelled from the spec: [PixelFormat::bytesPerPixel] (PixelDesc.hh is not
    among the sources) is the storage size of one pixel, the sum of the
    channel bit widths in the format's name divided by 8. *)
Definition bytesPerPixel (f : PixelFormatID) : Z :=
  match f with
  | PIXEL_RGBA8888 | PIXEL_BGRA8888 => 4
  | PIXEL_RGB888 => 3
  | PIXEL_IA88 | PIXEL_RGB565 | PIXEL_RGBA5551 | PIXEL_RGBA4444 => 2
  | PIXEL_I8 | PIXEL_A8 => 1
  end.

(** Modelled from the spec: [PixelFormat::pixelBytes(n)], the byte extent of
    [n] pixels in the format. *)
Definition pixelBytes (f : PixelFormatID) (pixels : Z) : Z :=
  pixels * bytesPerPixel f.

(** [IG::WP], a point of window coordinates. *)
Record WP := mkWP { px : Z; py : Z }.

(** [IG::WindowRect], corners (x, y) and (x2, y2). *)
Record WindowRect := mkRect { rx : Z; ry : Z; rx2 : Z; ry2 : Z }.

Definition xSize (r : WindowRect) : Z := rx2 r - rx r.
Definition ySize (r : WindowRect) : Z := ry2 r - ry r.
Definition rectSize (r : WindowRect) : WP := mkWP (xSize r) (ySize r).

(** [WindowRect{{}, size}]: origin corner (0,0), opposite corner [size]. *)
Definition rectOfSize (s : WP) : WindowRect := mkRect 0 0 (px s) (py s).

(** [rect += pos]. *)
Definition rectOffset (r : WindowRect) (p : WP) : WindowRect :=
  mkRect (rx r + px p) (ry r + py p) (rx2 r + px p) (ry2 r + py p).

Record PixmapDesc := mkDesc { w : Z; h : Z; format : PixelFormatID }.

(** [PixmapView] / [MutablePixmapView]: a descriptor, the address of the
    first pixel and the distance in bytes between rows. *)
Record PixmapView := mkPixmap { desc : PixmapDesc; data : Z; pitchBytes : Z }.

(** [MutablePixmapView{desc, data}]: rows are contiguous. *)
Definition pixmapOf (d : PixmapDesc) (p : Z) : PixmapView :=
  mkPixmap d p (pixelBytes (format d) (w d)).

Definition pixmapSize (p : PixmapView) : WP := mkWP (w (desc p)) (h (desc p)).

(** Modelled from the spec: [PixmapView::pitchPixels], the row distance in
    pixels. *)
Definition pitchPixels (p : PixmapView) : Z :=
  Z.quot (pitchBytes p) (bytesPerPixel (format (desc p))).

(** Modelled from the spec: [PixmapView::isPadded]; a buffer has no
    inter-row padding when stride == width x bytesPerPixel. *)
Definition isPadded (p : PixmapView) : bool :=
  negb (pitchBytes p =? w (desc p) * bytesPerPixel (format (desc p))).

(** Modelled from the spec: [PixmapView::bytes], the extent of all rows. *)
Definition pixmapBytes (p : PixmapView) : Z := pitchBytes p * h (desc p).

(** [(bool)pix]: a view is valid when it has data. *)
Definition pixmapBool (p : PixmapView) : bool := negb (data p =? 0).

(** ** Renderer capabilities ([Renderer::support]) *)

Record TextureSizeSupport := mkSizeSupport { nonPow2CanMipmap : bool }.

Inductive ColorSpace := LINEAR | SRGB.

Definition ColorSpace_eqb (a b : ColorSpace) : bool :=
  match a, b with
  | LINEAR, LINEAR | SRGB, SRGB => true
  | _, _ => false
  end.

(** [SamplerParams]; a zero [magFilter] marks default-constructed parameters. *)
Record SamplerParams := mkSamplerParams
  { minFilter : Z; magFilter : Z; xWrapMode : Z; yWrapMode : Z }.

Definition defaultSamplerParams : SamplerParams := mkSamplerParams 0 0 0 0.

Record DrawContextSupport := mkSupport
  { hasImmutableTexStorage : bool;
    hasUnpackRowLength : bool;
    hasPBOFuncs : bool;
    hasBGRPixels : bool;
    hasSamplerObjects : bool;
    hasTextureSwizzle : bool;
    useFixedFunctionPipeline : bool;
    luminanceFormat : GLenum;
    luminanceAlphaFormat : GLenum;
    alphaFormat : GLenum;
    luminanceInternalFormat : GLenum;
    luminanceAlphaInternalFormat : GLenum;
    alphaInternalFormat : GLenum;
    textureSizeSupport : TextureSizeSupport }.

(** The renderer: its capability surface and [Renderer::supportedColorSpace],
    whose body is outside this unit and is taken as given. *)
Record Renderer := mkRenderer
  { support : DrawContextSupport;
    supportedColorSpace : PixelFormatID -> ColorSpace -> ColorSpace }.

(** ** The texture object, locked buffers and device calls *)

Inductive TextureType := T2D_1 | T2D_2 | T2D_4 | T2D_EXTERNAL.

Definition TextureType_eqb (a b : TextureType) : bool :=
  match a, b with
  | T2D_1, T2D_1 | T2D_2, T2D_2 | T2D_4, T2D_4 | T2D_EXTERNAL, T2D_EXTERNAL => true
  | _, _ => false
  end.

(** Data members of [GLTexture]; a zero [texName_] is "no device handle". *)
Record GLTexture := mkTexture
  { texName_ : GLuint;
    pixDesc : PixmapDesc;
    levels_ : Z;
    type_ : TextureType }.

(** A default-constructed (unformatted) texture. *)
Definition emptyTexture : GLTexture :=
  mkTexture 0 (mkDesc 0 0 PIXEL_RGBA8888) 0 T2D_4.

(** [LockedTextureBuffer], in the order of its constructor
    [{bufferOffset, pix, srcDirtyRect, lockedLevel, shouldFreeBuffer, pbo}]. *)
Record LockedTextureBuffer := mkLocked
  { bufferOffset : Z;
    pix : PixmapView;
    srcDirtyRect : WindowRect;
    lockedLevel : Z;
    shouldFreeBuffer : bool;
    pbo : GLuint }.

(** [LockedTextureBuffer{}] *)
Definition emptyLockedBuffer : LockedTextureBuffer :=
  mkLocked 0 (mkPixmap (mkDesc 0 0 PIXEL_RGBA8888) 0 0) (mkRect 0 0 0 0) 0 false 0.

(** [LockedTextureBuffer::operator bool] *)
Definition lockedBool (b : LockedTextureBuffer) : bool := pixmapBool (pix b).

(** Calls made on the renderer thread, with the arguments that vary. *)
Inductive GLCall :=
| glDeleteTextures (name : GLuint)
| glGenTextures (name : GLuint)
| notifySemaphore
| glBindTexture (target : GLenum) (name : GLuint)
| glPixelStorei (pname : GLenum) (param : Z)
| glTexStorage2D (target : GLenum) (levels : Z) (internalFormat : GLenum) (width height : Z)
| glTexImage2D (target : GLenum) (level : Z) (internalFormat : GLenum) (width height : Z)
    (fmt dataType : GLenum)
| glTexSubImage2D (target : GLenum) (level xoffset yoffset width height : Z)
    (fmt dataType : GLenum) (pixels : Z)
| glTexParameteri (target pname : GLenum) (param : GLenum)
| glTexParameteriv (target pname : GLenum) (params : list GLenum)
| glGenerateMipmap (target : GLenum)
| glBindBuffer (target : GLenum) (buffer : GLuint)
| glFlushMappedBufferRange (target : GLenum) (offset length : Z)
| setTexParamsInGL (target : GLenum) (params : SamplerParams)
| stdFree (ptr : Z).

(** One closure handed to the renderer task: whether the caller waits for
    it, and the calls it makes when it runs. *)
Record GLCommand := mkCommand { awaitReply : bool; calls : list GLCall }.

(** ** The host heap

    [std::malloc], [std::calloc] and [std::free] belong to the C library.
    The heap is a bounded region handed out front to back: a request
    succeeds when it fits and fails (null) otherwise; [mem] gives the byte
    stored at each address. *)
Record HostHeap := mkHeap
  { mem : Z -> Z;
    brk : Z;
    heapEnd : Z;
    blocks : list (Z * Z) }.

Definition heapFits (n : Z) (hp : HostHeap) : bool :=
  (0 <? brk hp) && (0 <=? n) && (brk hp + n <=? heapEnd hp).

(** returns the block's address (0 on failure) and the heap afterwards *)
Definition malloc (n : Z) (hp : HostHeap) : Z * HostHeap :=
  if heapFits n hp
  then (brk hp, mkHeap (mem hp) (brk hp + n) (heapEnd hp) ((brk hp, n) :: blocks hp))
  else (0, hp).

Definition zeroFill (p n : Z) (m : Z -> Z) : Z -> Z :=
  fun a => if (p <=? a) && (a <? p + n) then 0 else m a.

Definition calloc (count n : Z) (hp : HostHeap) : Z * HostHeap :=
  if heapFits (count * n) hp
  then (brk hp, mkHeap (zeroFill (brk hp) (count * n) (mem hp)) (brk hp + count * n)
                  (heapEnd hp) ((brk hp, count * n) :: blocks hp))
  else (0, hp).

(** [memcpy(dst, src, n)] *)
Definition memcpy (dst src n : Z) (m : Z -> Z) : Z -> Z :=
  fun a => if (dst <=? a) && (a <? dst + n) then m (src + (a - dst)) else m a.

(** one row of a pixmap copy: [memcpy] of [rowBytes] bytes from row [y] of
    the source (rows [srcPitch] apart) to row [y] of the destination *)
Definition copyRow (dstData dstPitch srcData srcPitch rowBytes : Z) (m : Z -> Z) (y : Z)
  : Z -> Z :=
  memcpy (dstData + y * dstPitch) (srcData + y * srcPitch) rowBytes m.

(** Modelled from the spec: [MutablePixmapView::write(pixmap)] copies the
    source's pixels row by row, [pixelBytes(w)] bytes per row, leaving the
    source's padding behind. *)
Definition writePixmap (dst src : PixmapView) (m : Z -> Z) : Z -> Z :=
  fold_left
    (copyRow (data dst) (pitchBytes dst) (data src) (pitchBytes src)
       (pixelBytes (format (desc src)) (w (desc src))))
    (iotaCount (h (desc src))) m.

(** ** Program state and the monad of texture operations *)

Record World := mkWorld
  { renderer : Renderer;          (* capabilities, never written *)
    tex : GLTexture;              (* the texture object *)
    queue : list GLCommand;       (* commands given to the renderer task, oldest first *)
    pending : list GLCall;        (* calls of the closure being run *)
    nextTexName : GLuint;         (* the name glGenTextures hands out next *)
    boundTex2D : GLuint;          (* the device's GL_TEXTURE_BINDING_2D *)
    heap : HostHeap;
    drawCmds : list GLCall;       (* the RendererCommands stream passed to bindTex *)
    errLog : list string }.       (* lines written by logErr *)

Definition set_tex (t : GLTexture) (s : World) : World :=
  mkWorld (renderer s) t (queue s) (pending s) (nextTexName s) (boundTex2D s) (heap s)
    (drawCmds s) (errLog s).
Definition set_queue (q : list GLCommand) (s : World) : World :=
  mkWorld (renderer s) (tex s) q (pending s) (nextTexName s) (boundTex2D s) (heap s)
    (drawCmds s) (errLog s).
Definition set_pending (c : list GLCall) (s : World) : World :=
  mkWorld (renderer s) (tex s) (queue s) c (nextTexName s) (boundTex2D s) (heap s)
    (drawCmds s) (errLog s).
Definition set_nextTexName (n : GLuint) (s : World) : World :=
  mkWorld (renderer s) (tex s) (queue s) (pending s) n (boundTex2D s) (heap s)
    (drawCmds s) (errLog s).
Definition set_boundTex2D (n : GLuint) (s : World) : World :=
  mkWorld (renderer s) (tex s) (queue s) (pending s) (nextTexName s) n (heap s)
    (drawCmds s) (errLog s).
Definition set_heap (hp : HostHeap) (s : World) : World :=
  mkWorld (renderer s) (tex s) (queue s) (pending s) (nextTexName s) (boundTex2D s) hp
    (drawCmds s) (errLog s).
Definition set_drawCmds (c : list GLCall) (s : World) : World :=
  mkWorld (renderer s) (tex s) (queue s) (pending s) (nextTexName s) (boundTex2D s) (heap s)
    c (errLog s).
Definition set_errLog (l : list string) (s : World) : World :=
  mkWorld (renderer s) (tex s) (queue s) (pending s) (nextTexName s) (boundTex2D s) (heap s)
    (drawCmds s) l.

(** How a call ends: it returns; an [assert] or [assumeExpr] does not hold
    (the caller broke the contract); or [bug_unreachable] is reached. *)
Inductive Outcome (A : Type) :=
| Done (a : A) (s : World)
| ContractViolation (what : string)
| BugUnreachable (what : string).

Arguments Done {A} a s.
Arguments ContractViolation {A} what.
Arguments BugUnreachable {A} what.

Definition M (A : Type) := World -> Outcome A.

Definition ret {A} (a : A) : M A := fun s => Done a s.

Definition bind {A B} (c : M A) (k : A -> M B) : M B :=
  fun s => match c s with
           | Done a s' => k a s'
           | ContractViolation m => ContractViolation m
           | BugUnreachable m => BugUnreachable m
           end.

Notation "x <- c1 ;; c2" := (bind c1 (fun x => c2))
  (at level 61, c1 at next level, right associativity).
Notation "c1 ;; c2" := (bind c1 (fun _ => c2))
  (at level 61, right associativity).

Definition getTex : M GLTexture := fun s => Done (tex s) s.
Definition getRenderer : M Renderer := fun s => Done (renderer s) s.
Definition putTex (t : GLTexture) : M unit := fun s => Done tt (set_tex t s).

Definition logErr (msg : string) : M unit :=
  fun s => Done tt (set_errLog (errLog s ++ [msg]) s).

(** [assert(e)] and [assumeExpr(e)] *)
Definition assumeExpr (b : bool) (what : string) : M unit :=
  fun s => if b then Done tt s else ContractViolation what.

Definition bug_unreachable {A} (what : string) : M A :=
  fun _ => BugUnreachable what.

Definition when (b : bool) (c : M unit) : M unit := if b then c else ret tt.

(** a device call made by the running closure *)
Definition emit (c : GLCall) : M unit :=
  fun s => Done tt (set_pending (pending s ++ [c]) s).

(** [glBindTexture(GL_TEXTURE_2D, name)] *)
Definition bindTexture2D (name : GLuint) : M unit :=
  fun s => Done tt (set_boundTex2D name
                      (set_pending (pending s ++ [glBindTexture GL_TEXTURE_2D name]) s)).

(** [glGenTextures(1, &name)] *)
Definition genTextureName : M GLuint :=
  fun s => Done (nextTexName s)
             (set_nextTexName (nextTexName s + 1)
                (set_pending (pending s ++ [glGenTextures (nextTexName s)]) s)).

(** [glGetIntegerv(GL_TEXTURE_BINDING_2D, &realTexture)] *)
Definition getTextureBinding2D : M GLuint := fun s => Done (boundTex2D s) s.

(** [RendererCommands::glcBindTexture] *)
Definition glcBindTexture (target : GLenum) (name : GLuint) : M unit :=
  fun s => Done tt (set_drawCmds (drawCmds s ++ [glBindTexture target name]) s).

(** [std::calloc(1, n)] when [cleared], else [std::malloc(n)] *)
Definition hostAlloc (cleared : bool) (n : Z) : M Z :=
  fun s => let r := if cleared then calloc 1 n (heap s) else malloc n (heap s) in
           Done (fst r) (set_heap (snd r) s).

Definition modifyMem (f : (Z -> Z) -> Z -> Z) : M unit :=
  fun s => Done tt (set_heap (mkHeap (f (mem (heap s))) (brk (heap s)) (heapEnd (heap s))
                                (blocks (heap s))) s).

(** [task().run(closure, awaitReply)]: the renderer task runs its commands
    one at a time in the order they were given, so the closure's calls are
    those it makes when run right after the commands already queued; the
    command is recorded with the calls it made. *)
Definition run (await : bool) (closure : M unit) : M unit :=
  fun s => match closure (set_pending [] s) with
           | Done _ s' =>
               Done tt (set_pending (pending s)
                          (set_queue (queue s' ++ [mkCommand await (pending s')]) s'))
           | ContractViolation m => ContractViolation m
           | BugUnreachable m => BugUnreachable m
           end.

(** ** Build configuration ([Config], [Config::Gfx]) *)

Record BuildConfig := mkConfig
  { OPENGL_ES : bool;
    envIsIOS : bool;
    DEBUG_BUILD : bool;
    OPENGL_TEXTURE_TARGET_EXTERNAL : bool;
    OPENGL_SHADER_PIPELINE : bool }.

Section GLTextureCode.

(** compile-time constants of the build *)
Variable Config : BuildConfig.

(** [Texture::WRITE_FLAG_ASYNC], [Texture::WRITE_FLAG_MAKE_MIPMAPS] and
    [Texture::BUFFER_FLAG_CLEARED] are declared in Texture.hh; the code only
    tests them with [&]. *)
Variables WRITE_FLAG_ASYNC WRITE_FLAG_MAKE_MIPMAPS BUFFER_FLAG_CLEARED : Z.

(** [flags & FLAG] used as a condition *)
Definition flagSet (flags flag : Z) : bool := negb (Z.land flags flag =? 0).

Definition makeUnpackAlignment (addr : Z) : Z :=
  (* find best alignment with lower 3 bits *)
  nth (Z.to_nat (Z.land addr 7)) [8; 1; 2; 1; 4; 1; 2; 1] 0.

Definition unpackAlignForAddrAndPitch (srcAddr : Z) (pitch : Z) : Z :=
  let alignmentForAddr := makeUnpackAlignment srcAddr in
  let alignmentForPitch := makeUnpackAlignment (to_unsigned pitch) in
  Z.min alignmentForPitch alignmentForAddr.

Definition makeGLDataType (fmt : PixelFormatID) : GLenum :=
  match fmt with
  | PIXEL_RGBA8888 | PIXEL_BGRA8888 =>
      if negb (OPENGL_ES Config) then GL_UNSIGNED_INT_8_8_8_8_REV
      else GL_UNSIGNED_BYTE
  | PIXEL_RGB888 | PIXEL_I8 | PIXEL_IA88 | PIXEL_A8 => GL_UNSIGNED_BYTE
  | PIXEL_RGB565 => GL_UNSIGNED_SHORT_5_6_5
  | PIXEL_RGBA5551 => GL_UNSIGNED_SHORT_5_5_5_1
  | PIXEL_RGBA4444 => GL_UNSIGNED_SHORT_4_4_4_4
  end.

Definition makeGLFormat (r : Renderer) (fmt : PixelFormatID) : M GLenum :=
  match fmt with
  | PIXEL_I8 => ret (luminanceFormat (support r))
  | PIXEL_IA88 => ret (luminanceAlphaFormat (support r))
  | PIXEL_A8 => ret (alphaFormat (support r))
  | PIXEL_RGB888 | PIXEL_RGB565 => ret GL_RGB
  | PIXEL_RGBA8888 | PIXEL_RGBA5551 | PIXEL_RGBA4444 => ret GL_RGBA
  | PIXEL_BGRA8888 =>
      assumeExpr (hasBGRPixels (support r)) "r.support.hasBGRPixels" ;;
      ret GL_BGRA
  end.

Definition makeGLESInternalFormat (r : Renderer) (fmt : PixelFormatID) : M GLenum :=
  if envIsIOS Config && PixelFormatID_eqb fmt PIXEL_BGRA8888
  then ret GL_RGBA
  else makeGLFormat r fmt.

Definition makeGLSizedInternalFormat (r : Renderer) (fmt : PixelFormatID) (isSrgb : bool)
  : M GLenum :=
  match fmt with
  | PIXEL_BGRA8888 | PIXEL_RGBA8888 => ret (if isSrgb then GL_SRGB8_ALPHA8 else GL_RGBA8)
  | PIXEL_RGB565 => ret (if OPENGL_ES Config then GL_RGB565 else GL_RGB5)
  | PIXEL_RGBA5551 => ret GL_RGB5_A1
  | PIXEL_RGBA4444 => ret GL_RGBA4
  | PIXEL_I8 => ret (luminanceInternalFormat (support r))
  | PIXEL_IA88 => ret (luminanceAlphaInternalFormat (support r))
  | PIXEL_A8 => ret (alphaInternalFormat (support r))
  | PIXEL_RGB888 => bug_unreachable "format == %d"   (* no case: the default arm *)
  end.

Definition makeGLInternalFormat (r : Renderer) (fmt : PixelFormatID) (isSrgb : bool)
  : M GLenum :=
  if OPENGL_ES Config then makeGLESInternalFormat r fmt
  else makeGLSizedInternalFormat r fmt isSrgb.

Definition typeForPixelFormat (fmt : PixelFormatID) : TextureType :=
  if PixelFormatID_eqb fmt PIXEL_A8 then T2D_1
  else if PixelFormatID_eqb fmt PIXEL_IA88 then T2D_2
  else T2D_4.

(** [TextureConfig]: the descriptor, the level hint, the colour space, the
    compatibility sampler (absent, or its parameters) and whether mipmaps
    will be generated. *)
Record TextureConfig := mkTextureConfig
  { pixmapDesc : PixmapDesc;
    levels : Z;
    colorSpace : ColorSpace;
    compatSampler : option SamplerParams;
    willGenerateMipmaps : bool }.

Definition setLevels (n : Z) (c : TextureConfig) : TextureConfig :=
  mkTextureConfig (pixmapDesc c) n (colorSpace c) (compatSampler c) (willGenerateMipmaps c).

Definition baseInit (config : TextureConfig) : M TextureConfig :=
  r <- getRenderer ;;
  if willGenerateMipmaps config && negb (hasImmutableTexStorage (support r))
  then
    (* when using glGenerateMipmaps exclusively, there is no need to define
       all texture levels with glTexImage2D beforehand *)
    ret (setLevels 1 config)
  else ret config.

Definition bestAlignment (p : PixmapView) : Z :=
  unpackAlignForAddrAndPitch (data p) (pitchBytes p).

Definition supportsMipmaps (ss : TextureSizeSupport) (imageX imageY : Z) : bool :=
  negb (imageX =? 0) && negb (imageY =? 0) &&
  (nonPow2CanMipmap ss || (isPowerOf2 imageX && isPowerOf2 imageY)).

Definition canUseMipmaps : M bool :=
  r <- getRenderer ;;
  t <- getTex ;;
  ret (supportsMipmaps (textureSizeSupport (support r)) (w (pixDesc t)) (h (pixDesc t))).

Definition target : M GLenum :=
  t <- getTex ;;
  ret (if OPENGL_TEXTURE_TARGET_EXTERNAL Config && TextureType_eqb (type_ t) T2D_EXTERNAL
       then GL_TEXTURE_EXTERNAL_OES else GL_TEXTURE_2D).

(** Modelled from the spec: [makeGLTextureName] of utils.hh re-creates the
    handle: the old name, if any, is deleted and a new one generated. *)
Definition makeGLTextureName (oldName : GLuint) : M GLuint :=
  when (negb (oldName =? 0)) (emit (glDeleteTextures oldName)) ;;
  genTextureName.

(** [texNameRef = texName] *)
Definition setTexNameRef (name : GLuint) : M unit :=
  t <- getTex ;;
  putTex (mkTexture name (pixDesc t) (levels_ t) (type_ t)).

Definition verifyCurrentTexture2D (name : GLuint) : M unit :=
  if negb (DEBUG_BUILD Config) then ret tt
  else
    realTexture <- getTextureBinding2D ;;
    if negb (name =? realTexture)
    then bug_unreachable "out of sync, expected %u but got %u, TEXTURE_2D"
    else ret tt.

Definition swizzleMaskRGBA : list GLenum := [GL_RED; GL_GREEN; GL_BLUE; GL_ALPHA].
Definition swizzleMaskIA88 : list GLenum := [GL_RED; GL_RED; GL_RED; GL_GREEN].
Definition swizzleMaskA8 : list GLenum := [GL_ONE; GL_ONE; GL_ONE; GL_RED].

Definition setSwizzleForFormatInGL (r : Renderer) (fmt : PixelFormatID) (name : GLuint)
  : M unit :=
  if useFixedFunctionPipeline (support r) || negb (hasTextureSwizzle (support r))
  then ret tt
  else
    verifyCurrentTexture2D name ;;
    let swizzleMask :=
      if PixelFormatID_eqb fmt PIXEL_IA88 then swizzleMaskIA88
      else if PixelFormatID_eqb fmt PIXEL_A8 then swizzleMaskA8
      else swizzleMaskRGBA in
    if OPENGL_ES Config
    then
      emit (glTexParameteri GL_TEXTURE_2D GL_TEXTURE_SWIZZLE_R (nth 0 swizzleMask 0)) ;;
      emit (glTexParameteri GL_TEXTURE_2D GL_TEXTURE_SWIZZLE_G (nth 1 swizzleMask 0)) ;;
      emit (glTexParameteri GL_TEXTURE_2D GL_TEXTURE_SWIZZLE_B (nth 2 swizzleMask 0)) ;;
      emit (glTexParameteri GL_TEXTURE_2D GL_TEXTURE_SWIZZLE_A (nth 3 swizzleMask 0))
    else
      emit (glTexParameteriv GL_TEXTURE_2D GL_TEXTURE_SWIZZLE_RGBA swizzleMask).

Definition setSamplerParamsInGL (r : Renderer) (params : SamplerParams) (tgt : GLenum)
  : M unit :=
  if hasSamplerObjects (support r) || (magFilter params =? 0)
  then ret tt
  else emit (setTexParamsInGL tgt params).

Definition updateFormatInfo (desc : PixmapDesc) (levels : Z) (target : GLenum) : M unit :=
  assumeExpr (negb (levels =? 0)) "levels" ;;
  t <- getTex ;;
  putTex (mkTexture (texName_ t) desc levels
            (if OPENGL_SHADER_PIPELINE Config
             then if OPENGL_TEXTURE_TARGET_EXTERNAL Config && (target =? GL_TEXTURE_EXTERNAL_OES)
                  then T2D_EXTERNAL
                  else typeForPixelFormat (format desc)
             else type_ t)).

Definition updateLevelsForMipmapGeneration : M unit :=
  r <- getRenderer ;;
  if negb (hasImmutableTexStorage (support r))
  then
    (* all possible levels generated by glGenerateMipmap *)
    t <- getTex ;;
    putTex (mkTexture (texName_ t) (pixDesc t)
              (to_int8 (fls (to_unsigned (Z.lor (w (pixDesc t)) (h (pixDesc t))))))
              (type_ t))
  else ret tt.

Definition generateMipmaps : M bool :=
  t <- getTex ;;
  if texName_ t =? 0
  then
    logErr "called generateMipmaps() on uninitialized texture" ;;
    ret false
  else
    can <- canUseMipmaps ;;
    if negb can then ret false
    else
      run false
        (bindTexture2D (texName_ t) ;;
         emit (glGenerateMipmap GL_TEXTURE_2D)) ;;
      updateLevelsForMipmapGeneration ;;
      ret true.

(** the loop of [setFormat]'s second closure: one [glTexImage2D] per level *)
Fixpoint defineLevels (internalFormat fmt dataType : GLenum) (wd ht : Z) (ls : list Z)
  : M unit :=
  match ls with
  | [] => ret tt
  | i :: rest =>
      emit (glTexImage2D GL_TEXTURE_2D i internalFormat wd ht fmt dataType) ;;
      defineLevels internalFormat fmt dataType
        (Z.max 1 (Z.quot wd 2)) (Z.max 1 (Z.quot ht 2)) rest
  end.

Definition setFormat (desc : PixmapDesc) (levels : Z) (colorSpace : ColorSpace)
    (compatSampler : option SamplerParams) : M unit :=
  assumeExpr (negb (w desc =? 0)) "desc.w()" ;;
  assumeExpr (negb (h desc =? 0)) "desc.h()" ;;
  r <- getRenderer ;;
  let levels :=
    if supportsMipmaps (textureSizeSupport (support r)) (w desc) (h desc)
    then if levels =? 0 then fls (to_unsigned (Z.lor (w desc) (h desc))) else levels
    else 1 in
  let samplerParams :=
    match compatSampler with Some p => p | None => defaultSamplerParams end in
  (if hasImmutableTexStorage (support r)
   then
     let isSrgb := ColorSpace_eqb (supportedColorSpace r (format desc) colorSpace) SRGB in
     run true
       (t <- getTex ;;
        texName <- makeGLTextureName (texName_ t) ;;
        setTexNameRef texName ;;
        emit notifySemaphore ;;
        bindTexture2D texName ;;
        internalFormat <- makeGLSizedInternalFormat r (format desc) isSrgb ;;
        emit (glTexStorage2D GL_TEXTURE_2D levels internalFormat (w desc) (h desc)) ;;
        setSwizzleForFormatInGL r (format desc) texName ;;
        setSamplerParamsInGL r samplerParams GL_TEXTURE_2D)
   else
     t <- getTex ;;
     (* make new texture name whenever number of levels changes *)
     let remakeTexName := negb (levels =? levels_ t) in
     let currTexName := texName_ t in
     run remakeTexName
       (texName <- (if remakeTexName
                    then
                      texName <- makeGLTextureName currTexName ;;
                      setTexNameRef texName ;;
                      emit notifySemaphore ;;
                      ret texName
                    else ret currTexName) ;;
        bindTexture2D texName ;;
        fmt <- makeGLFormat r (format desc) ;;
        let dataType := makeGLDataType (format desc) in
        internalFormat <- makeGLInternalFormat r (format desc) false ;;
        defineLevels internalFormat fmt dataType (w desc) (h desc) (iotaCount levels) ;;
        setSwizzleForFormatInGL r (format desc) texName ;;
        when remakeTexName (setSamplerParamsInGL r samplerParams GL_TEXTURE_2D))) ;;
  updateFormatInfo desc (to_int8 levels) GL_TEXTURE_2D.

Definition init (config : TextureConfig) : M unit :=
  config <- baseInit config ;;
  setFormat (pixmapDesc config) (levels config) (colorSpace config) (compatSampler config).

Definition bindTex : M unit :=
  t <- getTex ;;
  if texName_ t =? 0
  then logErr "called bindTex() on uninitialized texture"
  else
    tgt <- target ;;
    glcBindTexture tgt (texName_ t).

Definition size (level : Z) : M WP :=
  t <- getTex ;;
  assumeExpr (negb (levels_ t =? 0)) "levels_" ;;
  let wh :=
    fold_left (fun wh _ => (Z.max 1 (Z.quot (fst wh) 2), Z.max 1 (Z.quot (snd wh) 2)))
      (iotaCount level) (w (pixDesc t), h (pixDesc t)) in
  ret (mkWP (fst wh) (snd wh)).

Definition lock (level : Z) (rect : WindowRect) (bufferFlags : Z) : M LockedTextureBuffer :=
  t <- getTex ;;
  if texName_ t =? 0
  then
    logErr "called lock() on uninitialized texture" ;;
    ret emptyLockedBuffer
  else
    sz <- size level ;;
    assumeExpr (rx2 rect <=? px sz) "rect.x2 <= size(level).x" ;;
    sz <- size level ;;
    assumeExpr (ry2 rect <=? py sz) "rect.y2 <= size(level).y" ;;
    (* [rect.xSize() * rect.ySize()] is a product of two [int]s *)
    let bufferBytes :=
      pixelBytes (format (pixDesc t)) (to_int (xSize rect * ySize rect)) in
    p <- hostAlloc (flagSet bufferFlags BUFFER_FLAG_CLEARED) bufferBytes ;;
    if p =? 0
    then
      logErr "failed allocating %u bytes for pixel buffer" ;;
      ret emptyLockedBuffer
    else
      let pix := pixmapOf (mkDesc (xSize rect) (ySize rect) (format (pixDesc t))) p in
      ret (mkLocked p pix rect level true 0).

(** [lock(level, bufferFlags)]: the whole level *)
Definition lockLevel (level : Z) (bufferFlags : Z) : M LockedTextureBuffer :=
  sz <- size level ;;
  lock level (rectOfSize sz) bufferFlags.

Definition unlock (lockBuff : LockedTextureBuffer) (writeFlags : Z) : M unit :=
  if negb (lockedBool lockBuff) then ret tt
  else
    r <- getRenderer ;;
    when (negb (pbo lockBuff =? 0))
      (assumeExpr (hasPBOFuncs (support r)) "renderer().support.hasPBOFuncs") ;;
    can <- canUseMipmaps ;;
    let makeMipmaps := flagSet writeFlags WRITE_FLAG_MAKE_MIPMAPS && can in
    when makeMipmaps updateLevelsForMipmapGeneration ;;
    t <- getTex ;;
    let pix := pix lockBuff in
    let bufferOffset := bufferOffset lockBuff in
    let texName := texName_ t in
    let destPos := mkWP (rx (srcDirtyRect lockBuff)) (ry (srcDirtyRect lockBuff)) in
    let pbo := pbo lockBuff in
    let level := lockedLevel lockBuff in
    let shouldFreeBuffer := shouldFreeBuffer lockBuff in
    run false
      (bindTexture2D texName ;;
       emit (glPixelStorei GL_UNPACK_ALIGNMENT (unpackAlignForAddrAndPitch 0 (pitchBytes pix))) ;;
       (if negb (pbo =? 0)
        then
          assumeExpr (hasUnpackRowLength (support r)) "r.support.hasUnpackRowLength" ;;
          emit (glPixelStorei GL_UNPACK_ROW_LENGTH 0) ;;
          emit (glBindBuffer GL_PIXEL_UNPACK_BUFFER pbo) ;;
          emit (glFlushMappedBufferRange GL_PIXEL_UNPACK_BUFFER bufferOffset (pixmapBytes pix))
        else
          when (hasUnpackRowLength (support r)) (emit (glPixelStorei GL_UNPACK_ROW_LENGTH 0))) ;;
       fmt <- makeGLFormat r (format (desc pix)) ;;
       let dataType := makeGLDataType (format (desc pix)) in
       emit (glTexSubImage2D GL_TEXTURE_2D level (px destPos) (py destPos)
               (w (desc pix)) (h (desc pix)) fmt dataType bufferOffset) ;;
       (if negb (pbo =? 0)
        then emit (glBindBuffer GL_PIXEL_UNPACK_BUFFER 0)
        else when shouldFreeBuffer (emit (stdFree (data pix)))) ;;
       when makeMipmaps (emit (glGenerateMipmap GL_TEXTURE_2D))).

Definition writeAligned (level : Z) (pixmap : PixmapView) (destPos : WP) (assumeAlign : Z)
    (writeFlags : Z) : M unit :=
  t <- getTex ;;
  if texName_ t =? 0
  then logErr "called writeAligned() on uninitialized texture"
  else
    r <- getRenderer ;;
    (* the sums of the two guards are sums of [int]s, the same in Z while
       they are in the range of [int] *)
    sz <- size level ;;
    assumeExpr (px destPos + w (desc pixmap) <=? px sz)
      "destPos.x + pixmap.w() <= size(level).x" ;;
    sz <- size level ;;
    assumeExpr (py destPos + h (desc pixmap) <=? py sz)
      "destPos.y + pixmap.h() <= size(level).y" ;;
    assumeExpr (bytesPerPixel (format (desc pixmap)) =? bytesPerPixel (format (pixDesc t)))
      "pixmap.format().bytesPerPixel() == pixDesc.format().bytesPerPixel()" ;;
    let assumeAlign :=
      if assumeAlign =? 0
      then unpackAlignForAddrAndPitch (data pixmap) (pitchBytes pixmap)
      else assumeAlign in
    if negb (data pixmap mod to_uintptr assumeAlign =? 0)
    then bug_unreachable "expected data from address %p to be aligned to %u bytes"
    else
      let hasUnpackRowLength := hasUnpackRowLength (support r) in
      can <- canUseMipmaps ;;
      let makeMipmaps := flagSet writeFlags WRITE_FLAG_MAKE_MIPMAPS && can in
      if hasUnpackRowLength || negb (isPadded pixmap)
      then
        run (negb (flagSet writeFlags WRITE_FLAG_ASYNC))
          (bindTexture2D (texName_ t) ;;
           emit (glPixelStorei GL_UNPACK_ALIGNMENT assumeAlign) ;;
           when hasUnpackRowLength
             (emit (glPixelStorei GL_UNPACK_ROW_LENGTH (pitchPixels pixmap))) ;;
           fmt <- makeGLFormat r (format (desc pixmap)) ;;
           let dataType := makeGLDataType (format (desc pixmap)) in
           emit (glTexSubImage2D GL_TEXTURE_2D level (px destPos) (py destPos)
                   (w (desc pixmap)) (h (desc pixmap)) fmt dataType (data pixmap)) ;;
           when makeMipmaps (emit (glGenerateMipmap GL_TEXTURE_2D))) ;;
        when makeMipmaps updateLevelsForMipmapGeneration
      else
        (* must copy to buffer without extra pitch pixels *)
        let lockRect := rectOffset (rectOfSize (pixmapSize pixmap)) destPos in
        lockBuff <- lock level lockRect 0 ;;
        if negb (lockedBool lockBuff)
        then logErr "error getting buffer for writeAligned()"
        else
          assumeExpr (bytesPerPixel (format (desc pixmap))
                      =? bytesPerPixel (format (desc (pix lockBuff))))
            "pixmap.format().bytesPerPixel() == lockBuff.pixmap().format().bytesPerPixel()" ;;
          modifyMem (writePixmap (pix lockBuff) pixmap) ;;
          unlock lockBuff writeFlags.

Definition write (level : Z) (pixmap : PixmapView) (destPos : WP) (commitFlags : Z) : M unit :=
  writeAligned level pixmap destPos (bestAlignment pixmap) commitFlags.

Definition clear (level : Z) : M unit :=
  lockBuff <- lockLevel level BUFFER_FLAG_CLEARED ;;
  if negb (lockedBool lockBuff)
  then logErr "error getting buffer for clear()"
  else unlock lockBuff 0.

(** *** Loading images and caller-owned buffers *)

(** [ErrorCode]: 0 is "no error"; [ENOMEM] has its value of errno.h. *)
Definition ErrorCode := Z.
Definition noError : ErrorCode := 0.
Definition ENOMEM : ErrorCode := 12.

(** [Data::PixmapSource]: a readable view of the image when it has one (a
    null view otherwise), and its [write] into a pixmap it is given, whose
    body is outside this unit and is taken as given. *)
Record PixmapSource := mkPixmapSource
  { pixmapView : PixmapView;
    sourceWrite : PixmapView -> (Z -> Z) -> Z -> Z }.

(** [MutablePixmapView::clear], outside this unit, taken as given *)
Variable clearPixmap : PixmapView -> (Z -> Z) -> Z -> Z.

Definition loadImageSource (img : PixmapSource) (makeMipmaps : bool) : M ErrorCode :=
  let imgPix := pixmapView img in
  let writeFlags := if makeMipmaps then WRITE_FLAG_MAKE_MIPMAPS else 0 in
  if pixmapBool imgPix
  then
    write 0 imgPix (mkWP 0 0) writeFlags ;;
    ret noError
  else
    lockBuff <- lockLevel 0 0 ;;
    if negb (lockedBool lockBuff)
    then ret ENOMEM
    else
      modifyMem (sourceWrite img (pix lockBuff)) ;;
      unlock lockBuff writeFlags ;;
      ret noError.

Definition lockedBuffer (dataPtr : Z) (pitch : Z) (bufferFlags : Z)
  : M LockedTextureBuffer :=
  fullSize <- size 0 ;;
  t <- getTex ;;
  let pix := mkPixmap (pixDesc t) dataPtr pitch in
  when (flagSet bufferFlags BUFFER_FLAG_CLEARED) (modifyMem (clearPixmap pix)) ;;
  ret (mkLocked 0 pix (rectOfSize fullSize) 0 false 0).

(** ** Reference definitions, in the words of the specification *)

(** the largest power of two, at most 8, that divides [x] *)
Definition largestPow2UpTo8 (x : Z) : Z :=
  if x mod 8 =? 0 then 8
  else if x mod 4 =? 0 then 4
  else if x mod 2 =? 0 then 2
  else 1.

(** [floor(log2(max(w,h))) + 1], the length of the full mip chain *)
Definition fullChainLevels (wd ht : Z) : Z := Z.log2 (Z.max wd ht) + 1.

(** [max(1, floor(d / 2^level))], a dimension at a mip level *)
Definition levelDim (d level : Z) : Z := Z.max 1 (d / 2 ^ level).

(** a call never reaches [bug_unreachable] *)
Definition noBug {A} (o : Outcome A) : Prop := forall what, o <> BugUnreachable what.

(** a call ends in an abort: a failed assertion or [bug_unreachable] *)
Definition aborts {A} (o : Outcome A) : Prop :=
  match o with
  | Done _ _ => False
  | ContractViolation _ | BugUnreachable _ => True
  end.

(** the closure of [setFormat] maps the format without reaching a failed
    assertion or a [default] arm *)
Definition formatStorable (r : Renderer) (fmt : PixelFormatID) : bool :=
  if hasImmutableTexStorage (support r)
  then negb (PixelFormatID_eqb fmt PIXEL_RGB888)
  else (negb (PixelFormatID_eqb fmt PIXEL_BGRA8888) || hasBGRPixels (support r))
       && (OPENGL_ES Config || negb (PixelFormatID_eqb fmt PIXEL_RGB888)).

(** the upload closures map the format ([makeGLFormat]'s assertion holds) *)
Definition formatWritable (r : Renderer) (fmt : PixelFormatID) : bool :=
  negb (PixelFormatID_eqb fmt PIXEL_BGRA8888) || hasBGRPixels (support r).

(** the dimensions fail the mipmap eligibility rule, in the specification's
    words: a dimension is zero, or a dimension is not a power of two while
    the backend cannot mipmap such sizes *)
Definition mipmapIneligible (ss : TextureSizeSupport) (wd ht : Z) : Prop :=
  wd = 0 \/ ht = 0 \/
  (nonPow2CanMipmap ss = false /\ (isPowerOf2 wd = false \/ isPowerOf2 ht = false)).

(** *** Sample states *)

Definition sampleSupport (immutableStorage unpackRowLength npotMipmaps : bool)
  : DrawContextSupport :=
  mkSupport immutableStorage unpackRowLength false true false true false
    0x1909 0x190A 0x1906 0x8040 0x8045 0x803C (mkSizeSupport npotMipmaps).

Definition sampleRenderer (immutableStorage unpackRowLength npotMipmaps : bool) : Renderer :=
  mkRenderer (sampleSupport immutableStorage unpackRowLength npotMipmaps) (fun _ cs => cs).

Definition sampleHeap : HostHeap := mkHeap (fun a => a mod 251) 4096 65536 [].

(** a host heap with no room left *)
Definition exhaustedHeap : HostHeap := mkHeap (fun a => a mod 251) 4096 4096 [].

(** an OpenGL ES debug build with the shader pipeline *)
Definition sampleConfig : BuildConfig := mkConfig true false true false true.

(** a fresh program: the texture has not been formatted *)
Definition unformattedWorld (r : Renderer) : World :=
  mkWorld r emptyTexture [] [] 1 0 sampleHeap [] [].

(** a program whose texture has handle 1, descriptor [d] and [n] levels *)
Definition formattedWorld (r : Renderer) (d : PixmapDesc) (n : Z) : World :=
  mkWorld r (mkTexture 1 d n T2D_4) [] [] 2 1 sampleHeap [] [].

(** the same program when the host heap is exhausted *)
Definition starvedWorld (r : Renderer) (d : PixmapDesc) (n : Z) : World :=
  mkWorld r (mkTexture 1 d n T2D_4) [] [] 2 1 exhaustedHeap [] [].

(** a 2x2 RGBA pixmap at address 64 whose rows are 16 bytes apart *)
Definition paddedPixmap : PixmapView := mkPixmap (mkDesc 2 2 PIXEL_RGBA8888) 64 16.

(** a locked 4x2 buffer of a formatted texture, as [lock] returns it *)
Definition sampleLockedBuffer : LockedTextureBuffer :=
  mkLocked 4096 (pixmapOf (mkDesc 4 2 PIXEL_RGBA8888) 4096) (mkRect 0 0 4 2) 0 true 0.

(** recognisers of device calls *)
Definition isTexImage2D (c : GLCall) : bool :=
  match c with glTexImage2D _ _ _ _ _ _ _ => true | _ => false end.

Definition isTexSubImage2D (c : GLCall) : bool :=
  match c with glTexSubImage2D _ _ _ _ _ _ _ _ _ => true | _ => false end.

Definition isGenTextures (c : GLCall) : bool :=
  match c with glGenTextures _ => true | _ => false end.

Definition isTexStorage2D (c : GLCall) : bool :=
  match c with glTexStorage2D _ _ _ _ _ => true | _ => false end.

(** calls that only set texture parameters *)
Definition isParamCall (c : GLCall) : bool :=
  match c with
  | glTexParameteri _ _ _ | glTexParameteriv _ _ _ | setTexParamsInGL _ _ => true
  | _ => false
  end.

(** the direct path of a write, seen from outside: host memory and the
    error log are as before, and one command was queued whose single upload
    call reads the caller's buffer in place *)
Definition directUpload (level : Z) (pixmap : PixmapView) (destPos : WP) (s s' : World)
  : Prop :=
  heap s' = heap s /\ errLog s' = errLog s /\
  exists cmd fmt dataType,
    queue s' = queue s ++ [cmd] /\
    filter isTexSubImage2D (calls cmd) =
      [glTexSubImage2D GL_TEXTURE_2D level (px destPos) (py destPos)
         (w (desc pixmap)) (h (desc pixmap)) fmt dataType (data pixmap)].

(** the staged path of a write when the buffer is obtained: a block the size
    of the destination rectangle was taken from the host heap at [p], it
    holds the caller's rows without their padding, and the one command
    queued uploads it and then frees it *)
Definition stagedUpload (level : Z) (pixmap : PixmapView) (destPos : WP) (p : Z)
    (s s' : World) : Prop :=
  let rowBytes := w (desc pixmap) * bytesPerPixel (format (desc pixmap)) in
  blocks (heap s') = (p, rowBytes * h (desc pixmap)) :: blocks (heap s) /\
  errLog s' = errLog s /\
  (forall y x, 0 <= y < h (desc pixmap) -> 0 <= x < rowBytes ->
     mem (heap s') (p + y * rowBytes + x)
     = mem (heap s) (data pixmap + y * pitchBytes pixmap + x)) /\
  exists cmd fmt dataType,
    queue s' = queue s ++ [cmd] /\
    filter isTexSubImage2D (calls cmd) =
      [glTexSubImage2D GL_TEXTURE_2D level (px destPos) (py destPos)
         (w (desc pixmap)) (h (desc pixmap)) fmt dataType p] /\
    In (stdFree p) (calls cmd).

(** the caller's pixel rows lie outside the block [p, p + n) *)
Definition rowsOutside (pixmap : PixmapView) (p n : Z) : Prop :=
  forall y x, 0 <= y < h (desc pixmap) ->
    0 <= x < w (desc pixmap) * bytesPerPixel (format (desc pixmap)) ->
    ~ (p <= data pixmap + y * pitchBytes pixmap + x < p + n).

(** an operation never reaches [bug_unreachable], whatever the state *)
Definition NoBug {A} (c : M A) : Prop := forall s, noBug (c s).

(** *** Further recognisers and relations between states *)

Definition isStdFree (c : GLCall) : bool :=
  match c with stdFree _ => true | _ => false end.

Definition isDeleteTextures (c : GLCall) : bool :=
  match c with glDeleteTextures _ => true | _ => false end.

Definition isPixelStore (c : GLCall) : bool :=
  match c with glPixelStorei _ _ => true | _ => false end.

(** the level count [fls(w | h)] that mipmap generation stores *)
Definition generatedLevels (t : GLTexture) : Z :=
  to_int8 (fls (to_unsigned (Z.lor (w (pixDesc t)) (h (pixDesc t))))).

(** what an operation other than formatting may change of the texture
    object: nothing but the level count, and that only to the count mipmap
    generation stores; the renderer and the device's name counter stay *)
Definition sameTexture (s s' : World) : Prop :=
  renderer s' = renderer s /\ nextTexName s' = nextTexName s /\
  texName_ (tex s') = texName_ (tex s) /\
  pixDesc (tex s') = pixDesc (tex s) /\
  type_ (tex s') = type_ (tex s) /\
  (levels_ (tex s') = levels_ (tex s) \/ levels_ (tex s') = generatedLevels (tex s)).

(** every return of [c] relates the state before to the state after *)
Definition Relates (R : World -> World -> Prop) {A} (c : M A) : Prop :=
  forall s a s', c s = Done a s' -> R s s'.

(** a formatted texture: a handle, at least one level, dimensions of an
    [int] and at least 1 *)
Definition formatted (s : World) : Prop :=
  texName_ (tex s) <> 0 /\ 1 <= levels_ (tex s) <= 127 /\
  1 <= w (pixDesc (tex s)) <= INT_MAX /\ 1 <= h (pixDesc (tex s)) <= INT_MAX.

(** a texture that was never formatted, on a device whose names are positive *)
Definition pristine (s : World) : Prop :=
  texName_ (tex s) = 0 /\ levels_ (tex s) = 0.

(** the calls of [unlock]'s closure for a buffer without a PBO *)
Definition unlockCalls (r : Renderer) (texName : GLuint) (lockBuff : LockedTextureBuffer)
    (fmt : GLenum) (makeMipmaps : bool) : list GLCall :=
  [glBindTexture GL_TEXTURE_2D texName;
   glPixelStorei GL_UNPACK_ALIGNMENT
     (unpackAlignForAddrAndPitch 0 (pitchBytes (pix lockBuff)))]
  ++ (if hasUnpackRowLength (support r) then [glPixelStorei GL_UNPACK_ROW_LENGTH 0] else [])
  ++ [glTexSubImage2D GL_TEXTURE_2D (lockedLevel lockBuff)
        (rx (srcDirtyRect lockBuff)) (ry (srcDirtyRect lockBuff))
        (w (desc (pix lockBuff))) (h (desc (pix lockBuff))) fmt
        (makeGLDataType (format (desc (pix lockBuff)))) (bufferOffset lockBuff)]
  ++ (if shouldFreeBuffer lockBuff then [stdFree (data (pix lockBuff))] else [])
  ++ (if makeMipmaps then [glGenerateMipmap GL_TEXTURE_2D] else []).

(** the calls of [writeAligned]'s closure on the direct path *)
Definition directWriteCalls (r : Renderer) (texName : GLuint) (level : Z)
    (pixmap : PixmapView) (destPos : WP) (align : Z) (fmt : GLenum) (makeMipmaps : bool)
  : list GLCall :=
  [glBindTexture GL_TEXTURE_2D texName; glPixelStorei GL_UNPACK_ALIGNMENT align]
  ++ (if hasUnpackRowLength (support r)
      then [glPixelStorei GL_UNPACK_ROW_LENGTH (pitchPixels pixmap)] else [])
  ++ [glTexSubImage2D GL_TEXTURE_2D level (px destPos) (py destPos)
        (w (desc pixmap)) (h (desc pixmap)) fmt
        (makeGLDataType (format (desc pixmap))) (data pixmap)]
  ++ (if makeMipmaps then [glGenerateMipmap GL_TEXTURE_2D] else []).

(** the formats [setFormat] can store: the cases of
    [makeGLSizedInternalFormat] with immutable storage; with mutable storage
    the cases of [makeGLFormat], BGRA8888 only with BGR pixel support, and
    RGB888 only under OpenGL ES, where the internal format is the format *)
Definition mappedFormats (r : Renderer) : list PixelFormatID :=
  if hasImmutableTexStorage (support r)
  then [PIXEL_RGBA8888; PIXEL_BGRA8888; PIXEL_RGB565; PIXEL_RGBA5551; PIXEL_RGBA4444;
        PIXEL_I8; PIXEL_IA88; PIXEL_A8]
  else [PIXEL_RGBA8888; PIXEL_RGB565; PIXEL_RGBA5551; PIXEL_RGBA4444;
        PIXEL_I8; PIXEL_IA88; PIXEL_A8]
       ++ (if hasBGRPixels (support r) then [PIXEL_BGRA8888] else [])
       ++ (if OPENGL_ES Config then [PIXEL_RGB888] else []).

(** the swizzle mask of a pixel format: luminance-alpha and alpha-only
    formats are stored in the red (and green) channel *)
Definition swizzleMaskFor (fmt : PixelFormatID) : list GLenum :=
  match fmt with
  | PIXEL_IA88 => [GL_RED; GL_RED; GL_RED; GL_GREEN]
  | PIXEL_A8 => [GL_ONE; GL_ONE; GL_ONE; GL_RED]
  | _ => [GL_RED; GL_GREEN; GL_BLUE; GL_ALPHA]
  end.

(** the calls that set a swizzle mask: one per channel under OpenGL ES, one
    for the four channels otherwise; none on the fixed-function pipeline or
    without swizzle support *)
Definition swizzleCalls (r : Renderer) (mask : list GLenum) : list GLCall :=
  if useFixedFunctionPipeline (support r) || negb (hasTextureSwizzle (support r))
  then []
  else if OPENGL_ES Config
       then map (fun pc => glTexParameteri GL_TEXTURE_2D (fst pc) (snd pc))
              (combine [GL_TEXTURE_SWIZZLE_R; GL_TEXTURE_SWIZZLE_G;
                        GL_TEXTURE_SWIZZLE_B; GL_TEXTURE_SWIZZLE_A] mask)
       else [glTexParameteriv GL_TEXTURE_2D GL_TEXTURE_SWIZZLE_RGBA mask].

(** the call that applies sampler parameters to the texture itself: none
    when the backend has sampler objects or the parameters are the empty
    default *)
Definition samplerCalls (r : Renderer) (params : SamplerParams) : list GLCall :=
  if hasSamplerObjects (support r) || (magFilter params =? 0)
  then [] else [setTexParamsInGL GL_TEXTURE_2D params].

(** the level count after an upload that may regenerate mipmaps *)
Definition levelsAfterUpload (s : World) (makeMipmaps : bool) : GLTexture :=
  if makeMipmaps && negb (hasImmutableTexStorage (support (renderer s)))
  then mkTexture (texName_ (tex s)) (pixDesc (tex s)) (generatedLevels (tex s))
         (type_ (tex s))
  else tex s.

(** ** Properties *)

Lemma land7_mod8 x : Z.land x 7 = x mod 8.
Proof. change 7 with (Z.ones 3). rewrite Z.land_ones by lia. reflexivity. Qed.

Lemma mod8_cases x :
  x mod 8 = 0 \/ x mod 8 = 1 \/ x mod 8 = 2 \/ x mod 8 = 3 \/
  x mod 8 = 4 \/ x mod 8 = 5 \/ x mod 8 = 6 \/ x mod 8 = 7.
Proof. pose proof (Z.mod_pos_bound x 8). lia. Qed.

Lemma makeUnpackAlignment_largest x : makeUnpackAlignment x = largestPow2UpTo8 x.
Proof.
  unfold makeUnpackAlignment, largestPow2UpTo8. rewrite land7_mod8.
  assert (H4 : x mod 4 = (x mod 8) mod 4)
    by (symmetry; apply Z.mod_mod_divide; exists 2; lia).
  assert (H2 : x mod 2 = (x mod 8) mod 2)
    by (symmetry; apply Z.mod_mod_divide; exists 4; lia).
  rewrite H4, H2.
  destruct (mod8_cases x) as [E | [E | [E | [E | [E | [E | [E | E]]]]]]];
    rewrite E; reflexivity.
Qed.

Lemma to_unsigned_mod8 x : to_unsigned x mod 8 = x mod 8.
Proof.
  unfold to_unsigned. apply Z.mod_mod_divide. exists (2 ^ 29). reflexivity.
Qed.

Lemma makeUnpackAlignment_to_unsigned x :
  makeUnpackAlignment (to_unsigned x) = makeUnpackAlignment x.
Proof. unfold makeUnpackAlignment. rewrite !land7_mod8, to_unsigned_mod8. reflexivity. Qed.

Lemma largestPow2UpTo8_range x : In (largestPow2UpTo8 x) [1; 2; 4; 8].
Proof.
  unfold largestPow2UpTo8.
  repeat match goal with |- context [if ?b then _ else _] => destruct b end;
    simpl; auto.
Qed.

Lemma largestPow2UpTo8_divides x : (largestPow2UpTo8 x | x).
Proof.
  unfold largestPow2UpTo8.
  destruct (x mod 8 =? 0) eqn:E8; [apply Z.mod_divide; lia|].
  destruct (x mod 4 =? 0) eqn:E4; [apply Z.mod_divide; lia|].
  destruct (x mod 2 =? 0) eqn:E2; [apply Z.mod_divide; lia|].
  apply Z.divide_1_l.
Qed.

Lemma pow2UpTo8_min_divides a b x :
  In a [1; 2; 4; 8] -> In b [1; 2; 4; 8] -> (b | x) -> (Z.min a b | x).
Proof.
  intros Ha Hb Hx.
  assert (Hd : (Z.min a b | b)).
  { simpl in Ha, Hb.
    destruct Ha as [<- | [<- | [<- | [<- | []]]]];
      destruct Hb as [<- | [<- | [<- | [<- | []]]]];
      cbn; solve [ apply Z.divide_refl | apply Z.divide_1_l
                 | exists 2; reflexivity | exists 4; reflexivity ]. }
  eapply Z.divide_trans; eassumption.
Qed.

(** *** Operations that cannot reach [bug_unreachable] *)

Lemma NoBug_ret {A} (a : A) : NoBug (ret a).
Proof. intros s what; discriminate. Qed.

Lemma NoBug_bind {A B} (c : M A) (k : A -> M B) :
  NoBug c -> (forall a, NoBug (k a)) -> NoBug (bind c k).
Proof.
  intros Hc Hk s what. unfold bind.
  destruct (c s) as [a s' | m | m] eqn:E.
  - apply Hk.
  - discriminate.
  - exfalso. apply (Hc s m). exact E.
Qed.

Lemma NoBug_state {A} (f : World -> A * World) :
  NoBug (fun s => Done (fst (f s)) (snd (f s))).
Proof. intros s what; discriminate. Qed.

Lemma NoBug_assumeExpr b what : NoBug (assumeExpr b what).
Proof. intros s m. unfold assumeExpr. destruct b; discriminate. Qed.

Lemma NoBug_when b c : NoBug c -> NoBug (when b c).
Proof. intros Hc. destruct b; [exact Hc | apply NoBug_ret]. Qed.

Lemma NoBug_run b c : NoBug c -> NoBug (run b c).
Proof.
  intros Hc s what. unfold run.
  destruct (c (set_pending [] s)) as [a s' | m | m] eqn:E; try discriminate.
  exfalso. apply (Hc (set_pending [] s) m). exact E.
Qed.

Lemma NoBug_getTex : NoBug getTex.
Proof. intros s what; discriminate. Qed.
Lemma NoBug_getRenderer : NoBug getRenderer.
Proof. intros s what; discriminate. Qed.
Lemma NoBug_putTex t : NoBug (putTex t).
Proof. intros s what; discriminate. Qed.
Lemma NoBug_logErr m : NoBug (logErr m).
Proof. intros s what; discriminate. Qed.
Lemma NoBug_emit c : NoBug (emit c).
Proof. intros s what; discriminate. Qed.
Lemma NoBug_bindTexture2D n : NoBug (bindTexture2D n).
Proof. intros s what; discriminate. Qed.
Lemma NoBug_hostAlloc b n : NoBug (hostAlloc b n).
Proof. intros s what; discriminate. Qed.
Lemma NoBug_modifyMem f : NoBug (modifyMem f).
Proof. intros s what; discriminate. Qed.

Create HintDb nobug.
#[local] Hint Resolve NoBug_ret NoBug_assumeExpr NoBug_getTex NoBug_getRenderer
  NoBug_putTex NoBug_logErr NoBug_emit NoBug_bindTexture2D NoBug_hostAlloc
  NoBug_modifyMem : nobug.

Ltac nobug :=
  repeat first
    [ solve [auto with nobug]
    | apply NoBug_bind; [ | intros ? ]
    | apply NoBug_when
    | apply NoBug_run
    | match goal with
      | |- NoBug (if ?b then _ else _) => destruct b
      | |- NoBug (match ?x with _ => _ end) => destruct x
      end
    | progress cbv zeta ].

Lemma NoBug_canUseMipmaps : NoBug canUseMipmaps.
Proof. unfold canUseMipmaps. nobug. Qed.

Lemma NoBug_size level : NoBug (size level).
Proof. unfold size. nobug. Qed.

Lemma NoBug_makeGLFormat r fmt : NoBug (makeGLFormat r fmt).
Proof. unfold makeGLFormat. nobug. Qed.

Lemma NoBug_updateLevelsForMipmapGeneration : NoBug updateLevelsForMipmapGeneration.
Proof. unfold updateLevelsForMipmapGeneration. nobug. Qed.

#[local] Hint Resolve NoBug_canUseMipmaps NoBug_size NoBug_makeGLFormat
  NoBug_updateLevelsForMipmapGeneration : nobug.

Lemma NoBug_lock level rect flags : NoBug (lock level rect flags).
Proof. unfold lock. nobug. Qed.

Lemma NoBug_unlock lockBuff flags : NoBug (unlock lockBuff flags).
Proof. unfold unlock. nobug. Qed.

#[local] Hint Resolve NoBug_lock NoBug_unlock : nobug.

Lemma NoBug_writeAligned level p destPos assumeAlign flags :
  data p mod to_uintptr
             (if assumeAlign =? 0
              then unpackAlignForAddrAndPitch (data p) (pitchBytes p)
              else assumeAlign) = 0 ->
  NoBug (writeAligned level p destPos assumeAlign flags).
Proof.
  intros Halign. unfold writeAligned.
  apply NoBug_bind; [auto with nobug | intros t].
  destruct (texName_ t =? 0); [auto with nobug|].
  do 6 (apply NoBug_bind; [auto with nobug | intros ?]).
  cbv zeta. rewrite Halign. cbn [Z.eqb negb].
  nobug.
Qed.

Lemma bestAlignment_largest p :
  bestAlignment p =
  Z.min (largestPow2UpTo8 (pitchBytes p)) (largestPow2UpTo8 (data p)).
Proof.
  unfold bestAlignment, unpackAlignForAddrAndPitch.
  rewrite makeUnpackAlignment_to_unsigned, !makeUnpackAlignment_largest. reflexivity.
Qed.

Lemma bestAlignment_range p : In (bestAlignment p) [1; 2; 4; 8].
Proof.
  rewrite bestAlignment_largest.
  pose proof (largestPow2UpTo8_range (pitchBytes p)) as Hp.
  pose proof (largestPow2UpTo8_range (data p)) as Hd.
  destruct (Z.min_spec (largestPow2UpTo8 (pitchBytes p)) (largestPow2UpTo8 (data p)))
    as [[_ ->] | [_ ->]]; assumption.
Qed.

Lemma bestAlignment_divides_data p : (bestAlignment p | data p).
Proof.
  rewrite bestAlignment_largest.
  apply pow2UpTo8_min_divides;
    auto using largestPow2UpTo8_range, largestPow2UpTo8_divides.
Qed.

Lemma bestAlignment_divides_pitch p : (bestAlignment p | pitchBytes p).
Proof.
  rewrite bestAlignment_largest, Z.min_comm.
  apply pow2UpTo8_min_divides;
    auto using largestPow2UpTo8_range, largestPow2UpTo8_divides.
Qed.

Lemma bestAlignment_check p : data p mod to_uintptr (bestAlignment p) = 0.
Proof.
  pose proof (bestAlignment_range p) as Hr.
  pose proof (bestAlignment_divides_data p) as Hd.
  assert (E : to_uintptr (bestAlignment p) = bestAlignment p).
  { simpl in Hr. destruct Hr as [<- | [<- | [<- | [<- | []]]]]; reflexivity. }
  rewrite E. apply Z.mod_divide in Hd; [exact Hd|].
  simpl in Hr. lia.
Qed.

(** C9: [bestAlignment] returns 1, 2, 4 or 8, a divisor of both the pixmap's
    data address and its pitch in bytes, namely the smaller of the largest
    powers of two (at most 8) dividing each; so the alignment check of
    [writeAligned] holds for it and no [write] reaches [bug_unreachable]. *)
Theorem C9_bestAlignment_divides_and_write_never_bug (p : PixmapView) :
  In (bestAlignment p) [1; 2; 4; 8] /\
  (bestAlignment p | data p) /\
  (bestAlignment p | pitchBytes p) /\
  bestAlignment p = Z.min (largestPow2UpTo8 (pitchBytes p)) (largestPow2UpTo8 (data p)) /\
  data p mod to_uintptr (bestAlignment p) = 0 /\
  forall level destPos flags s, noBug (write level p destPos flags s).
Proof.
  repeat split.
  - apply bestAlignment_range.
  - apply bestAlignment_divides_data.
  - apply bestAlignment_divides_pitch.
  - apply bestAlignment_largest.
  - apply bestAlignment_check.
  - intros level destPos flags. unfold write. apply NoBug_writeAligned.
    pose proof (bestAlignment_range p) as Hr.
    destruct (bestAlignment p =? 0) eqn:E.
    + apply Z.eqb_eq in E. simpl in Hr. lia.
    + apply bestAlignment_check.
Qed.

(** *** Evaluating operations on a symbolic state *)

Ltac mrun :=
  cbv beta iota zeta delta
    [bind ret getTex getRenderer putTex logErr assumeExpr bug_unreachable when emit
     bindTexture2D genTextureName getTextureBinding2D glcBindTexture hostAlloc modifyMem
     run set_tex set_queue set_pending set_nextTexName set_boundTex2D set_heap
     set_drawCmds set_errLog canUseMipmaps target
     setTexNameRef updateFormatInfo updateLevelsForMipmapGeneration];
  cbn [renderer tex queue pending nextTexName boundTex2D heap drawCmds errLog
       texName_ pixDesc levels_ type_ fst snd].

(** C4: on a formatted texture whose dimensions fail the eligibility rule
    (a dimension is zero, or one is not a power of two while the backend
    cannot mipmap such sizes), [generateMipmaps] returns false and leaves
    the whole state as it was: no command is queued and the level count is
    unchanged. *)
Theorem C4_generateMipmaps_ineligible (s : World) :
  texName_ (tex s) <> 0 ->
  mipmapIneligible (textureSizeSupport (support (renderer s)))
    (w (pixDesc (tex s))) (h (pixDesc (tex s))) ->
  generateMipmaps s = Done false s.
Proof.
  intros Hname Hrule.
  assert (Hs : supportsMipmaps (textureSizeSupport (support (renderer s)))
                 (w (pixDesc (tex s))) (h (pixDesc (tex s))) = false).
  { unfold supportsMipmaps.
    destruct Hrule as [H | [H | [Hn [H | H]]]]; rewrite ?Hn, H; cbn.
    - reflexivity.
    - destruct (negb (w (pixDesc (tex s)) =? 0)); reflexivity.
    - destruct (negb (w (pixDesc (tex s)) =? 0)), (negb (h (pixDesc (tex s)) =? 0));
        reflexivity.
    - destruct (negb (w (pixDesc (tex s)) =? 0)), (negb (h (pixDesc (tex s)) =? 0)),
        (isPowerOf2 (w (pixDesc (tex s)))); reflexivity. }
  apply Z.eqb_neq in Hname.
  unfold generateMipmaps. mrun. rewrite Hname, Hs. reflexivity.
Qed.

(** C10: [unlock] of an empty [LockedTextureBuffer] returns at once: the
    state it returns is the state it was given, so nothing is queued, freed
    or written, whatever the texture and the write flags. *)
Theorem C10_unlock_empty_is_noop (s : World) (lockBuff : LockedTextureBuffer) (writeFlags : Z) :
  lockedBool lockBuff = false ->
  unlock lockBuff writeFlags s = Done tt s.
Proof.
  intros Hempty. unfold unlock. rewrite Hempty. reflexivity.
Qed.

(** *** Level counts: [fls] against the logarithm *)

Lemma fls_scan_zero n : fls_scan n 0 = 0.
Proof. destruct n; reflexivity. Qed.

Lemma fls_scan_log2 n : forall x, 0 < x < 2 ^ Z.of_nat n -> fls_scan n x = Z.log2 x + 1.
Proof.
  induction n as [|n IH]; intros x Hx.
  - cbn in Hx. lia.
  - cbn [fls_scan].
    destruct (x =? 0) eqn:E; [apply Z.eqb_eq in E; lia|].
    destruct (Z.eq_dec x 1) as [-> | Hne].
    + cbn [Z.shiftr Z.shiftl Z.opp Z.div2 Pos.iter Pos.div2]. rewrite fls_scan_zero.
      reflexivity.
    + assert (Hl : 1 <= Z.log2 x)
        by (change 1 with (Z.log2 2) at 1; apply Z.log2_le_mono; lia).
      rewrite IH.
      * rewrite Z.log2_shiftr by lia. lia.
      * rewrite Z.shiftr_div_pow2 by lia. change (2 ^ 1) with 2.
        rewrite Nat2Z.inj_succ, Z.pow_succ_r in Hx by lia.
        split.
        -- apply Z.div_str_pos. lia.
        -- apply Z.div_lt_upper_bound; lia.
Qed.

Lemma log2_max a b :
  Z.log2 (Z.max a b) = Z.max (Z.log2 a) (Z.log2 b).
Proof.
  destruct (Z.le_ge_cases a b) as [H | H].
  - rewrite Z.max_r by exact H. pose proof (Z.log2_le_mono _ _ H). lia.
  - rewrite Z.max_l by exact H. pose proof (Z.log2_le_mono _ _ H). lia.
Qed.

Lemma fls_lor_fullChain wd ht :
  1 <= wd <= INT_MAX -> 1 <= ht <= INT_MAX ->
  fls (to_unsigned (Z.lor wd ht)) = fullChainLevels wd ht /\
  1 <= fullChainLevels wd ht <= 31.
Proof.
  unfold INT_MAX. intros Hw Hh.
  assert (Hlog : Z.log2 (Z.lor wd ht) = Z.log2 (Z.max wd ht))
    by (rewrite Z.log2_lor, log2_max by lia; reflexivity).
  assert (Hpos : 0 < Z.lor wd ht).
  { assert (0 <= Z.lor wd ht) by (apply Z.lor_nonneg; lia).
    assert (Z.lor wd ht <> 0) by (rewrite Z.lor_eq_0_iff; lia). lia. }
  assert (Hmax : Z.log2 (Z.max wd ht) < 31)
    by (apply Z.log2_lt_pow2; lia).
  assert (Hlt : Z.lor wd ht < 2 ^ 31)
    by (apply Z.log2_lt_pow2; lia).
  pose proof (Z.log2_nonneg (Z.max wd ht)).
  unfold fullChainLevels. split; [| lia].
  unfold to_unsigned. rewrite Z.mod_small by lia.
  unfold fls. rewrite fls_scan_log2.
  - rewrite Hlog. reflexivity.
  - change (2 ^ Z.of_nat 32) with (2 ^ 32). lia.
Qed.

Lemma to_int8_small x : -128 <= x <= 127 -> to_int8 x = x.
Proof. intros H. unfold to_int8. rewrite Z.mod_small by lia. lia. Qed.

(** *** Mip level sizes *)

Lemma levelDim_zero d : 1 <= d -> levelDim d 0 = d.
Proof. intros H. unfold levelDim. rewrite Z.pow_0_r, Z.div_1_r. lia. Qed.

(** one more halving step of the loops is one more level of the formula *)
Lemma levelDim_step d k :
  0 <= d -> 0 <= k -> Z.max 1 (Z.quot (levelDim d k) 2) = levelDim d (k + 1).
Proof.
  intros Hd Hk. unfold levelDim.
  assert (Hp : 0 < 2 ^ k) by (apply Z.pow_pos_nonneg; lia).
  assert (Hq : 0 <= d / 2 ^ k) by (apply Z.div_pos; lia).
  replace (2 ^ (k + 1)) with (2 ^ k * 2) by (rewrite Z.pow_add_r by lia; reflexivity).
  rewrite <- Z.div_div by lia.
  rewrite Z.quot_div_nonneg by lia.
  destruct (Z.eq_dec (d / 2 ^ k) 0) as [E | E].
  - rewrite E. reflexivity.
  - rewrite (Z.max_r 1 (d / 2 ^ k)) by lia. reflexivity.
Qed.

Lemma levelDim_pos d k : 1 <= levelDim d k.
Proof. unfold levelDim. lia. Qed.

Lemma levelDim_noninc d k : 0 <= d -> 0 <= k -> levelDim d (k + 1) <= levelDim d k.
Proof.
  intros Hd Hk. unfold levelDim.
  assert (Hp : 0 < 2 ^ k) by (apply Z.pow_pos_nonneg; lia).
  assert (d / 2 ^ (k + 1) <= d / 2 ^ k).
  { apply Z.div_le_compat_l; [lia|]. rewrite Z.pow_add_r by lia. lia. }
  lia.
Qed.

Lemma levelDim_bottom d k : 1 <= d -> Z.log2 d <= k -> levelDim d k = 1.
Proof.
  intros Hd Hk. unfold levelDim.
  pose proof (Z.log2_nonneg d).
  assert (Hp : 0 < 2 ^ k) by (apply Z.pow_pos_nonneg; lia).
  assert (d / 2 ^ k < 2).
  { apply Z.div_lt_upper_bound; [lia|].
    pose proof (Z.log2_spec d ltac:(lia)) as [_ Hu].
    rewrite Z.pow_succ_r in Hu by lia.
    assert (2 ^ Z.log2 d <= 2 ^ k) by (apply Z.pow_le_mono_r; lia).
    lia. }
  lia.
Qed.

Lemma sizeLoop_levelDim (ls : list Z) : forall k wd ht,
  0 <= wd -> 0 <= ht -> 0 <= k ->
  fold_left (fun (wh : Z * Z) (_ : Z) =>
               (Z.max 1 (Z.quot (fst wh) 2), Z.max 1 (Z.quot (snd wh) 2)))
    ls (levelDim wd k, levelDim ht k)
  = (levelDim wd (k + Z.of_nat (List.length ls)), levelDim ht (k + Z.of_nat (List.length ls))).
Proof.
  induction ls as [|i ls IH]; intros k wd ht Hw Hh Hk.
  - cbn. rewrite Z.add_0_r. reflexivity.
  - cbn [fold_left fst snd List.length]. rewrite !levelDim_step by lia.
    rewrite IH by lia. rewrite Nat2Z.inj_succ.
    replace (k + 1 + Z.of_nat (List.length ls)) with (k + Z.succ (Z.of_nat (List.length ls))) by lia.
    reflexivity.
Qed.

Lemma iotaCount_length n : 0 <= n -> Z.of_nat (List.length (iotaCount n)) = n.
Proof.
  intros H. unfold iotaCount. rewrite List.length_map, List.length_seq. apply Z2Nat.id. exact H.
Qed.

Lemma size_levelDim (s : World) (level : Z) :
  levels_ (tex s) <> 0 ->
  1 <= w (pixDesc (tex s)) -> 1 <= h (pixDesc (tex s)) -> 0 <= level ->
  size level s =
  Done (mkWP (levelDim (w (pixDesc (tex s))) level) (levelDim (h (pixDesc (tex s))) level)) s.
Proof.
  intros Hl Hw Hh Hlevel. apply Z.eqb_neq in Hl.
  unfold size. mrun. rewrite Hl. cbn [negb].
  pose proof (sizeLoop_levelDim (iotaCount level) 0
                (w (pixDesc (tex s))) (h (pixDesc (tex s)))) as E.
  rewrite !levelDim_zero, iotaCount_length, Z.add_0_l in E by lia.
  rewrite E by lia. reflexivity.
Qed.

(** C2: on a formatted texture [size(level)] is
    (max(1, floor(w / 2^level)), max(1, floor(h / 2^level))), computed from
    the stored descriptor with the state left as it was; hence it never
    grows from one level to the next, never falls below 1, and is (1,1)
    from the last level of the full chain on. *)
Theorem C2_size_halves_and_floors (s : World) :
  levels_ (tex s) <> 0 ->
  1 <= w (pixDesc (tex s)) -> 1 <= h (pixDesc (tex s)) ->
  (forall level, 0 <= level ->
     size level s =
     Done (mkWP (levelDim (w (pixDesc (tex s))) level)
                (levelDim (h (pixDesc (tex s))) level)) s) /\
  (forall level, 0 <= level ->
     exists a b, size level s = Done a s /\ size (level + 1) s = Done b s /\
                 1 <= px b <= px a /\ 1 <= py b <= py a) /\
  (forall level,
     fullChainLevels (w (pixDesc (tex s))) (h (pixDesc (tex s))) - 1 <= level ->
     size level s = Done (mkWP 1 1) s).
Proof.
  intros Hl Hw Hh. repeat split.
  - intros level Hlevel. apply size_levelDim; assumption.
  - intros level Hlevel.
    eexists; eexists. split; [apply size_levelDim; assumption|].
    split; [apply size_levelDim; try assumption; lia|].
    cbn [px py].
    split; (split; [apply levelDim_pos | apply levelDim_noninc; lia]).
  - intros level Hlevel. unfold fullChainLevels in Hlevel.
    pose proof (Z.log2_nonneg (w (pixDesc (tex s)))).
    pose proof (Z.log2_nonneg (h (pixDesc (tex s)))).
    rewrite log2_max in Hlevel.
    rewrite size_levelDim by (try assumption; lia).
    rewrite !levelDim_bottom by lia. reflexivity.
Qed.

(** *** Mipmap generation *)

Lemma generateMipmaps_succeeds (s : World) :
  texName_ (tex s) <> 0 ->
  supportsMipmaps (textureSizeSupport (support (renderer s)))
    (w (pixDesc (tex s))) (h (pixDesc (tex s))) = true ->
  exists s', generateMipmaps s = Done true s'.
Proof.
  intros Hname Hs. apply Z.eqb_neq in Hname.
  unfold generateMipmaps. mrun. rewrite Hname, Hs. cbn [negb].
  destruct (hasImmutableTexStorage (support (renderer s))); cbn [negb];
    eexists; reflexivity.
Qed.

(** C5 (amended): when [generateMipmaps] succeeds, it has queued one
    generation command, and the stored level count is
    floor(log2(max(w,h))) + 1 on a backend without immutable texture
    storage, whatever count was requested at formatting time; on a backend
    with immutable storage the stored count is the one it was. *)
Theorem C5_generateMipmaps_level_count (s s' : World) :
  1 <= w (pixDesc (tex s)) <= INT_MAX ->
  1 <= h (pixDesc (tex s)) <= INT_MAX ->
  generateMipmaps s = Done true s' ->
  levels_ (tex s') =
    (if hasImmutableTexStorage (support (renderer s))
     then levels_ (tex s)
     else fullChainLevels (w (pixDesc (tex s))) (h (pixDesc (tex s)))) /\
  pixDesc (tex s') = pixDesc (tex s) /\
  queue s' = queue s ++ [mkCommand false [glBindTexture GL_TEXTURE_2D (texName_ (tex s));
                                          glGenerateMipmap GL_TEXTURE_2D]].
Proof.
  intros Hw Hh. unfold generateMipmaps. mrun.
  destruct (texName_ (tex s) =? 0); [discriminate|].
  destruct (supportsMipmaps _ _ _); cbn [negb]; [|discriminate].
  destruct (fls_lor_fullChain _ _ Hw Hh) as [Hfls Hrange].
  destruct (hasImmutableTexStorage (support (renderer s))); cbn [negb];
    intros H; injection H as <-; mrun.
  - repeat split.
  - rewrite Hfls, to_int8_small by lia. repeat split.
Qed.

(** *** Operations on an unformatted texture *)

(** C7 (amended): on a texture without a device handle,
    [generateMipmaps], [write], [lock] and [bindTex] write a line to the
    error log and return (false, nothing, an empty buffer, nothing) with the
    rest of the state as it was; none of them aborts. *)
Theorem C7_unformatted_operations_return (s : World) :
  texName_ (tex s) = 0 ->
  generateMipmaps s =
    Done false
      (set_errLog (errLog s ++ ["called generateMipmaps() on uninitialized texture"]) s) /\
  (forall level pixmap destPos flags,
     write level pixmap destPos flags s =
       Done tt
         (set_errLog (errLog s ++ ["called writeAligned() on uninitialized texture"]) s)) /\
  (forall level rect flags,
     lock level rect flags s =
       Done emptyLockedBuffer
         (set_errLog (errLog s ++ ["called lock() on uninitialized texture"]) s)) /\
  bindTex s =
    Done tt (set_errLog (errLog s ++ ["called bindTex() on uninitialized texture"]) s).
Proof.
  intros Hname.
  repeat split; intros;
    unfold generateMipmaps, write, writeAligned, lock, bindTex; mrun;
    rewrite Hname; reflexivity.
Qed.

(** *** Locking *)

Lemma zeroFill_inside p n m a : p <= a < p + n -> zeroFill p n m a = 0.
Proof.
  intros H. unfold zeroFill.
  replace (p <=? a) with true by (symmetry; apply Z.leb_le; lia).
  replace (a <? p + n) with true by (symmetry; apply Z.ltb_lt; lia).
  reflexivity.
Qed.

Lemma to_int_small x : INT_MIN <= x <= INT_MAX -> to_int x = x.
Proof.
  unfold to_int, INT_MIN, INT_MAX. intros H.
  rewrite Z.mod_small by lia. lia.
Qed.

Lemma bytesPerPixel_pos f : 1 <= bytesPerPixel f.
Proof. destruct f; cbn; lia. Qed.

(** a non-negative pixel count whose byte count fits an [int] fits one too *)
Lemma pixels_fit_int (pixels : Z) (f : PixelFormatID) :
  0 <= pixels -> pixels * bytesPerPixel f <= INT_MAX ->
  INT_MIN <= pixels <= INT_MAX.
Proof.
  intros Hp Hb. pose proof (bytesPerPixel_pos f). unfold INT_MIN, INT_MAX in *. nia.
Qed.

(** a rectangle with ordered corners whose byte count fits an [int] has a
    pixel count that fits one *)
Lemma rect_pixels_fit_int (rect : WindowRect) (f : PixelFormatID) :
  rx rect <= rx2 rect -> ry rect <= ry2 rect ->
  xSize rect * ySize rect * bytesPerPixel f <= INT_MAX ->
  INT_MIN <= xSize rect * ySize rect <= INT_MAX.
Proof.
  intros Hx Hy Hn. apply (pixels_fit_int _ f); [|exact Hn].
  unfold xSize, ySize. nia.
Qed.

Lemma heapFits_brk_nonzero n hp : heapFits n hp = true -> (brk hp =? 0) = false.
Proof.
  unfold heapFits. intros H.
  apply andb_prop in H. destruct H as [H _].
  apply andb_prop in H. destruct H as [H _].
  apply Z.ltb_lt in H. apply Z.eqb_neq. lia.
Qed.

(** what [lock] returns and leaves behind, by whether the request fits the
    host heap *)
Lemma lock_outcome (s : World) (level : Z) (rect : WindowRect) (bufferFlags : Z) :
  texName_ (tex s) <> 0 -> levels_ (tex s) <> 0 ->
  1 <= w (pixDesc (tex s)) -> 1 <= h (pixDesc (tex s)) -> 0 <= level ->
  rx2 rect <= levelDim (w (pixDesc (tex s))) level ->
  ry2 rect <= levelDim (h (pixDesc (tex s))) level ->
  INT_MIN <= xSize rect * ySize rect <= INT_MAX ->
  let n := pixelBytes (format (pixDesc (tex s))) (xSize rect * ySize rect) in
  let p := brk (heap s) in
  lock level rect bufferFlags s =
  if heapFits n (heap s)
  then Done (mkLocked p (pixmapOf (mkDesc (xSize rect) (ySize rect)
                                     (format (pixDesc (tex s)))) p) rect level true 0)
         (set_heap (mkHeap (if flagSet bufferFlags BUFFER_FLAG_CLEARED
                            then zeroFill p n (mem (heap s)) else mem (heap s))
                      (p + n) (heapEnd (heap s)) ((p, n) :: blocks (heap s))) s)
  else Done emptyLockedBuffer
         (set_errLog (errLog s ++ ["failed allocating %u bytes for pixel buffer"]) s).
Proof.
  intros Hname Hl Hw Hh Hlevel Hx Hy Hint n p.
  apply Z.eqb_neq in Hname.
  unfold lock. mrun. rewrite Hname.
  apply Z.leb_le in Hx, Hy.
  rewrite size_levelDim by assumption. cbn [px py]. rewrite Hx.
  rewrite size_levelDim by assumption. cbn [px py]. rewrite Hy.
  rewrite (to_int_small _ Hint). fold n. unfold calloc, malloc. rewrite Z.mul_1_l.
  destruct (heapFits n (heap s)) eqn:Hfit.
  - pose proof (heapFits_brk_nonzero _ _ Hfit) as Hp.
    destruct (flagSet bufferFlags BUFFER_FLAG_CLEARED); cbn [fst snd brk];
      rewrite Hp; destruct s; reflexivity.
  - destruct (flagSet bufferFlags BUFFER_FLAG_CLEARED); cbn [fst snd];
      rewrite Z.eqb_refl; destruct s as [? ? ? ? ? ? [? ? ? ?] ? ?]; reflexivity.
Qed.


(** *** Formatting *)

Lemma makeGLFormat_returns r fmt :
  formatWritable r fmt = true ->
  exists v, forall s, makeGLFormat r fmt s = Done v s.
Proof.
  unfold formatWritable, makeGLFormat. intros H.
  destruct fmt; cbn in H; try (eexists; intros; reflexivity).
  rewrite H. eexists; intros; reflexivity.
Qed.

Lemma makeGLInternalFormat_returns r fmt isSrgb :
  formatWritable r fmt = true ->
  OPENGL_ES Config || negb (PixelFormatID_eqb fmt PIXEL_RGB888) = true ->
  exists v, forall s, makeGLInternalFormat r fmt isSrgb s = Done v s.
Proof.
  unfold makeGLInternalFormat, makeGLESInternalFormat. intros Hw Hes.
  destruct (OPENGL_ES Config) eqn:Ees.
  - destruct (envIsIOS Config && PixelFormatID_eqb fmt PIXEL_BGRA8888).
    + eexists; intros; reflexivity.
    + apply makeGLFormat_returns. exact Hw.
  - unfold makeGLSizedInternalFormat.
    destruct fmt; cbn in Hes; try discriminate; eexists; intros; reflexivity.
Qed.

Lemma makeGLSizedInternalFormat_returns r fmt isSrgb :
  PixelFormatID_eqb fmt PIXEL_RGB888 = false ->
  exists v, forall s, makeGLSizedInternalFormat r fmt isSrgb s = Done v s.
Proof.
  unfold makeGLSizedInternalFormat. intros H.
  destruct fmt; cbn in H; try discriminate; eexists; intros; reflexivity.
Qed.

Lemma setSwizzleForFormatInGL_emits r fmt :
  exists cs, forallb isParamCall cs = true /\
    forall s, setSwizzleForFormatInGL r fmt (boundTex2D s) s
              = Done tt (set_pending (pending s ++ cs) s).
Proof.
  unfold setSwizzleForFormatInGL, verifyCurrentTexture2D.
  destruct (useFixedFunctionPipeline (support r) || negb (hasTextureSwizzle (support r))).
  { exists []. split; [reflexivity|]. intros s. mrun. rewrite app_nil_r.
    destruct s; reflexivity. }
  destruct (OPENGL_ES Config).
  - eexists. split; cycle 1.
    + intros s. mrun.
      destruct (negb (DEBUG_BUILD Config)); mrun;
        rewrite ?Z.eqb_refl; cbn [negb]; mrun;
        rewrite <- ?app_assoc; reflexivity.
    + reflexivity.
  - eexists. split; cycle 1.
    + intros s. mrun.
      destruct (negb (DEBUG_BUILD Config)); mrun;
        rewrite ?Z.eqb_refl; cbn [negb]; mrun; reflexivity.
    + reflexivity.
Qed.

Lemma setSamplerParamsInGL_emits r params tgt :
  exists cs, forallb isParamCall cs = true /\
    forall s, setSamplerParamsInGL r params tgt s = Done tt (set_pending (pending s ++ cs) s).
Proof.
  unfold setSamplerParamsInGL.
  destruct (hasSamplerObjects (support r) || (magFilter params =? 0)).
  - exists []. split; [reflexivity|]. intros s. mrun. rewrite app_nil_r.
    destruct s; reflexivity.
  - eexists. split; [|intros s; reflexivity]. reflexivity.
Qed.

(** the [glTexImage2D] calls of the level loop, with the sizes of the formula *)
Lemma defineLevels_emits internalFormat fmt dataType wd ht (len : nat) :
  forall (k : nat) s, 0 <= wd -> 0 <= ht ->
  defineLevels internalFormat fmt dataType
    (levelDim wd (Z.of_nat k)) (levelDim ht (Z.of_nat k)) (map Z.of_nat (seq k len)) s =
  Done tt
    (set_pending
       (pending s ++
        map (fun i => glTexImage2D GL_TEXTURE_2D i internalFormat
                        (levelDim wd i) (levelDim ht i) fmt dataType)
          (map Z.of_nat (seq k len))) s).
Proof.
  induction len as [|len IH]; intros k s Hw Hh.
  - cbn. unfold ret. rewrite app_nil_r. destruct s; reflexivity.
  - cbn [seq map defineLevels]. mrun.
    rewrite !levelDim_step by lia.
    replace (Z.of_nat k + 1) with (Z.of_nat (S k)) by lia.
    rewrite IH by assumption. mrun.
    rewrite <- app_assoc. reflexivity.
Qed.

Lemma paramCalls_filter cs :
  forallb isParamCall cs = true ->
  filter isTexImage2D cs = [] /\ filter isTexStorage2D cs = [] /\
  existsb isGenTextures cs = false.
Proof.
  induction cs as [|c cs IH]; [repeat split; reflexivity|].
  cbn [forallb filter existsb]. intros H.
  apply andb_prop in H. destruct H as [Hc Hcs].
  destruct (IH Hcs) as [IH1 [IH2 IH3]].
  destruct c; cbn in Hc; try discriminate; cbn; repeat split; assumption.
Qed.

Lemma texImageCalls_filter (f g : Z -> Z) internalFormat fmt dataType (ls : list Z) :
  let cs := map (fun i => glTexImage2D GL_TEXTURE_2D i internalFormat (f i) (g i)
                            fmt dataType) ls in
  filter isTexImage2D cs = cs /\ existsb isGenTextures cs = false.
Proof.
  induction ls as [|i ls [IH1 IH2]]; [split; reflexivity|].
  cbn. split; [f_equal; exact IH1 | exact IH2].
Qed.

Ltac mstep_swizzle E :=
  match goal with
  | |- context [setSwizzleForFormatInGL _ _ _ ?st] =>
      let H := fresh in
      pose proof (E st) as H; cbn [boundTex2D] in H; rewrite H; clear H; mrun
  end.

(** [setFormat] on a backend without immutable storage: the command it
    queues and the texture it leaves *)
Lemma setFormat_mutable_outcome (s : World) (d : PixmapDesc) (hint : Z) (cs : ColorSpace)
    (sampler : option SamplerParams) :
  hasImmutableTexStorage (support (renderer s)) = false ->
  1 <= w d -> 1 <= h d ->
  formatStorable (renderer s) (format d) = true ->
  let lvls :=
    if supportsMipmaps (textureSizeSupport (support (renderer s))) (w d) (h d)
    then if hint =? 0 then fls (to_unsigned (Z.lor (w d) (h d))) else hint
    else 1 in
  let remake := negb (lvls =? levels_ (tex s)) in
  to_int8 lvls <> 0 ->
  exists s' cmd internalFormat fmt dataType,
    setFormat d hint cs sampler s = Done tt s' /\
    levels_ (tex s') = to_int8 lvls /\ pixDesc (tex s') = d /\
    queue s' = queue s ++ [cmd] /\
    awaitReply cmd = remake /\
    existsb isGenTextures (calls cmd) = remake /\
    texName_ (tex s') = (if remake then nextTexName s else texName_ (tex s)) /\
    filter isTexImage2D (calls cmd) =
      map (fun i => glTexImage2D GL_TEXTURE_2D i internalFormat
                      (levelDim (w d) i) (levelDim (h d) i) fmt dataType)
        (iotaCount lvls).
Proof.
  intros Himm Hw Hh Hfmt lvls remake Hlv.
  assert (Hw0 : (w d =? 0) = false) by (apply Z.eqb_neq; lia).
  assert (Hh0 : (h d =? 0) = false) by (apply Z.eqb_neq; lia).
  apply Z.eqb_neq in Hlv.
  unfold formatStorable in Hfmt. rewrite Himm in Hfmt.
  apply andb_prop in Hfmt. destruct Hfmt as [Hwr Hes].
  destruct (makeGLFormat_returns (renderer s) (format d) Hwr) as [fmt Efmt].
  destruct (makeGLInternalFormat_returns (renderer s) (format d) false Hwr Hes)
    as [ifmt Eifmt].
  destruct (setSwizzleForFormatInGL_emits (renderer s) (format d)) as [swz [Hswz Eswz]].
  destruct (setSamplerParamsInGL_emits (renderer s)
              (match sampler with Some p => p | None => defaultSamplerParams end)
              GL_TEXTURE_2D) as [smp [Hsmp Esmp]].
  destruct (paramCalls_filter swz Hswz) as [Fswz [_ Gswz]].
  destruct (paramCalls_filter smp Hsmp) as [Fsmp [_ Gsmp]].
  destruct (texImageCalls_filter (levelDim (w d)) (levelDim (h d))
              ifmt fmt (makeGLDataType (format d)) (iotaCount lvls)) as [Fimg Gimg].
  assert (Elv : forall st,
    defineLevels ifmt fmt (makeGLDataType (format d)) (w d) (h d) (iotaCount lvls) st =
    Done tt (set_pending
               (pending st ++
                map (fun i => glTexImage2D GL_TEXTURE_2D i ifmt
                                (levelDim (w d) i) (levelDim (h d) i) fmt
                                (makeGLDataType (format d)))
                  (iotaCount lvls)) st)).
  { intros st.
    pose proof (defineLevels_emits ifmt fmt (makeGLDataType (format d)) (w d) (h d)
                  (Z.to_nat lvls) 0%nat st) as H.
    change (Z.of_nat 0) with 0 in H. rewrite !levelDim_zero in H by lia.
    apply H; lia. }
  unfold setFormat. mrun. rewrite Hw0, Hh0. cbn [negb]. rewrite Himm.
  fold lvls. fold remake.
  destruct remake eqn:Hremake.
  - unfold makeGLTextureName. mrun.
    destruct (negb (texName_ (tex s) =? 0)); mrun;
      rewrite Efmt, Eifmt, Elv; mrun; mstep_swizzle Eswz; rewrite Esmp; mrun;
      rewrite Hlv; cbn [negb];
      do 5 eexists; (split; [reflexivity|]); cbn [tex levels_ pixDesc queue texName_];
      repeat (split; [reflexivity|]); cbn [awaitReply calls];
      rewrite !filter_app, Fswz, Fsmp, Fimg; cbn; rewrite !app_nil_r; reflexivity.
  - rewrite Efmt, Eifmt, Elv; mrun. mstep_swizzle Eswz.
    rewrite Hlv; cbn [negb].
    do 5 eexists. (split; [reflexivity|]). cbn [tex levels_ pixDesc queue texName_].
    do 4 (split; [reflexivity|]). cbn [awaitReply calls].
    split; [|split; [reflexivity|]].
    + rewrite !existsb_app, Gswz, Gimg. reflexivity.
    + rewrite !filter_app, Fswz, Fimg; cbn; rewrite !app_nil_r; reflexivity.
Qed.

(** [setFormat] on a backend with immutable storage: a new handle and one
    sized allocation covering all levels *)
Lemma setFormat_immutable_outcome (s : World) (d : PixmapDesc) (hint : Z) (cs : ColorSpace)
    (sampler : option SamplerParams) :
  hasImmutableTexStorage (support (renderer s)) = true ->
  1 <= w d -> 1 <= h d ->
  formatStorable (renderer s) (format d) = true ->
  let lvls :=
    if supportsMipmaps (textureSizeSupport (support (renderer s))) (w d) (h d)
    then if hint =? 0 then fls (to_unsigned (Z.lor (w d) (h d))) else hint
    else 1 in
  to_int8 lvls <> 0 ->
  exists s' cmd internalFormat,
    setFormat d hint cs sampler s = Done tt s' /\
    levels_ (tex s') = to_int8 lvls /\ pixDesc (tex s') = d /\
    queue s' = queue s ++ [cmd] /\
    awaitReply cmd = true /\
    texName_ (tex s') = nextTexName s /\
    filter isTexStorage2D (calls cmd) =
      [glTexStorage2D GL_TEXTURE_2D lvls internalFormat (w d) (h d)].
Proof.
  intros Himm Hw Hh Hfmt lvls Hlv.
  assert (Hw0 : (w d =? 0) = false) by (apply Z.eqb_neq; lia).
  assert (Hh0 : (h d =? 0) = false) by (apply Z.eqb_neq; lia).
  apply Z.eqb_neq in Hlv.
  unfold formatStorable in Hfmt. rewrite Himm in Hfmt.
  apply negb_true_iff in Hfmt.
  destruct (makeGLSizedInternalFormat_returns (renderer s) (format d)
              (ColorSpace_eqb (supportedColorSpace (renderer s) (format d) cs) SRGB) Hfmt)
    as [ifmt Eifmt].
  destruct (setSwizzleForFormatInGL_emits (renderer s) (format d)) as [swz [Hswz Eswz]].
  destruct (setSamplerParamsInGL_emits (renderer s)
              (match sampler with Some p => p | None => defaultSamplerParams end)
              GL_TEXTURE_2D) as [smp [Hsmp Esmp]].
  destruct (paramCalls_filter swz Hswz) as [_ [Fswz _]].
  destruct (paramCalls_filter smp Hsmp) as [_ [Fsmp _]].
  unfold setFormat. mrun. rewrite Hw0, Hh0. cbn [negb]. rewrite Himm.
  fold lvls. unfold makeGLTextureName. mrun.
  destruct (negb (texName_ (tex s) =? 0)); mrun;
    rewrite Eifmt; mrun; mstep_swizzle Eswz; rewrite Esmp; mrun;
    rewrite Hlv; cbn [negb];
    do 3 eexists; (split; [reflexivity|]); cbn [tex levels_ pixDesc queue texName_];
    repeat (split; [reflexivity|]); cbn [awaitReply calls];
    rewrite !filter_app, Fswz, Fsmp; reflexivity.
Qed.

(** C1: formatting a descriptor of width and height at least 1, on a
    backend that can mipmap those dimensions and with no level hint, stores
    the level count floor(log2(max(w,h))) + 1, which the code computes as
    fls(w | h). *)
Theorem C1_setFormat_full_chain_level_count
    (s : World) (d : PixmapDesc) (cs : ColorSpace) (sampler : option SamplerParams) :
  1 <= w d <= INT_MAX -> 1 <= h d <= INT_MAX ->
  supportsMipmaps (textureSizeSupport (support (renderer s))) (w d) (h d) = true ->
  formatStorable (renderer s) (format d) = true ->
  exists s',
    setFormat d 0 cs sampler s = Done tt s' /\
    levels_ (tex s') = fullChainLevels (w d) (h d) /\
    levels_ (tex s') = fls (to_unsigned (Z.lor (w d) (h d))) /\
    pixDesc (tex s') = d.
Proof.
  intros Hw Hh Hmip Hfmt.
  destruct (fls_lor_fullChain _ _ Hw Hh) as [Hfls Hrange].
  assert (Hlv : to_int8 (fls (to_unsigned (Z.lor (w d) (h d)))) = fullChainLevels (w d) (h d))
    by (rewrite Hfls; apply to_int8_small; lia).
  destruct (hasImmutableTexStorage (support (renderer s))) eqn:Himm.
  - destruct (setFormat_immutable_outcome s d 0 cs sampler Himm) as (s' & cmd & ifmt & H);
      try assumption; try lia.
    + rewrite Hmip. cbn [Z.eqb]. rewrite Hlv. lia.
    + rewrite Hmip in H. cbn [Z.eqb] in H. destruct H as (E & El & Ed & _).
      exists s'. rewrite El, Hlv. repeat split; try assumption. symmetry. exact Hfls.
  - destruct (setFormat_mutable_outcome s d 0 cs sampler Himm)
      as (s' & cmd & ifmt & fmt & dt & H); try assumption; try lia.
    + rewrite Hmip. cbn [Z.eqb]. rewrite Hlv. lia.
    + rewrite Hmip in H. cbn [Z.eqb] in H. destruct H as (E & El & Ed & _).
      exists s'. rewrite El, Hlv. repeat split; try assumption. symmetry. exact Hfls.
Qed.

(** C8: on a backend without immutable storage, [setFormat] queues one
    command; that command generates a new texture name exactly when the
    level count just computed differs from the texture's current one (else
    the handle is kept), and it makes one glTexImage2D call per level, level
    i with the dimensions halved and floored i times and clamped at 1, which
    are those [size(i)] returns afterwards. *)
Theorem C8_setFormat_mutable_handle_and_level_calls
    (s : World) (d : PixmapDesc) (hint : Z) (cs : ColorSpace)
    (sampler : option SamplerParams) :
  hasImmutableTexStorage (support (renderer s)) = false ->
  1 <= w d -> 1 <= h d ->
  formatStorable (renderer s) (format d) = true ->
  let lvls :=
    if supportsMipmaps (textureSizeSupport (support (renderer s))) (w d) (h d)
    then if hint =? 0 then fls (to_unsigned (Z.lor (w d) (h d))) else hint
    else 1 in
  1 <= lvls <= 127 ->
  exists s' cmd internalFormat fmt dataType,
    setFormat d hint cs sampler s = Done tt s' /\
    queue s' = queue s ++ [cmd] /\
    levels_ (tex s') = lvls /\
    (existsb isGenTextures (calls cmd) = true <-> lvls <> levels_ (tex s)) /\
    (lvls <> levels_ (tex s) -> texName_ (tex s') = nextTexName s) /\
    (lvls = levels_ (tex s) -> texName_ (tex s') = texName_ (tex s)) /\
    filter isTexImage2D (calls cmd) =
      map (fun i => glTexImage2D GL_TEXTURE_2D i internalFormat
                      (levelDim (w d) i) (levelDim (h d) i) fmt dataType)
        (iotaCount lvls) /\
    List.length (filter isTexImage2D (calls cmd)) = Z.to_nat lvls /\
    (forall i, 0 <= i ->
       size i s' = Done (mkWP (levelDim (w d) i) (levelDim (h d) i)) s').
Proof.
  intros Himm Hw Hh Hfmt lvls Hlv.
  assert (Hi8 : to_int8 lvls = lvls) by (apply to_int8_small; lia).
  destruct (setFormat_mutable_outcome s d hint cs sampler Himm Hw Hh Hfmt)
    as (s' & cmd & ifmt & fmt & dt & E & El & Ed & Eq & _ & Egen & Ename & Eimg).
  { fold lvls. lia. }
  fold lvls in El, Egen, Ename, Eimg. rewrite Hi8 in El.
  exists s', cmd, ifmt, fmt, dt.
  split; [exact E|]. split; [exact Eq|]. split; [exact El|].
  split.
  { rewrite Egen, negb_true_iff, Z.eqb_neq. reflexivity. }
  split.
  { intros Hne. apply Z.eqb_neq in Hne. rewrite Hne in Ename. exact Ename. }
  split.
  { intros Heq. apply Z.eqb_eq in Heq. rewrite Heq in Ename. exact Ename. }
  split; [exact Eimg|].
  split.
  { rewrite Eimg, List.length_map. unfold iotaCount.
    rewrite List.length_map, List.length_seq. reflexivity. }
  intros i Hi.
  rewrite size_levelDim; rewrite ?Ed, ?El; try assumption; try lia.
  reflexivity.
Qed.

(** *** Writing *)

Lemma unlock_outcome (s : World) (lockBuff : LockedTextureBuffer) (writeFlags : Z) :
  lockedBool lockBuff = true -> pbo lockBuff = 0 ->
  formatWritable (renderer s) (format (desc (pix lockBuff))) = true ->
  exists s' cmd fmt dataType,
    unlock lockBuff writeFlags s = Done tt s' /\
    queue s' = queue s ++ [cmd] /\ heap s' = heap s /\ errLog s' = errLog s /\
    awaitReply cmd = false /\
    filter isTexSubImage2D (calls cmd) =
      [glTexSubImage2D GL_TEXTURE_2D (lockedLevel lockBuff)
         (rx (srcDirtyRect lockBuff)) (ry (srcDirtyRect lockBuff))
         (w (desc (pix lockBuff))) (h (desc (pix lockBuff))) fmt dataType
         (bufferOffset lockBuff)] /\
    (shouldFreeBuffer lockBuff = true -> In (stdFree (data (pix lockBuff))) (calls cmd)).
Proof.
  intros Hvalid Hpbo Hwr.
  destruct (makeGLFormat_returns (renderer s) (format (desc (pix lockBuff))) Hwr)
    as [fmt Efmt].
  unfold unlock. rewrite Hvalid, Hpbo.
  change (0 =? 0) with true. cbn [negb]. mrun.
  destruct (flagSet writeFlags WRITE_FLAG_MAKE_MIPMAPS &&
            supportsMipmaps (textureSizeSupport (support (renderer s)))
              (w (pixDesc (tex s))) (h (pixDesc (tex s))));
    [destruct (hasImmutableTexStorage (support (renderer s)))|];
    cbn [negb]; mrun;
    (destruct (hasUnpackRowLength (support (renderer s))); mrun;
     rewrite Efmt; mrun;
     destruct (shouldFreeBuffer lockBuff); mrun;
     do 4 eexists; (split; [reflexivity|]); cbn [queue heap errLog];
     repeat (split; [reflexivity|]); cbn [awaitReply calls];
     intros Hfree; try discriminate; cbn; tauto).
Qed.

Lemma write_checks_pass (pixmap : PixmapView) :
  (data pixmap mod
     to_uintptr (if bestAlignment pixmap =? 0
                 then unpackAlignForAddrAndPitch (data pixmap) (pitchBytes pixmap)
                 else bestAlignment pixmap) =? 0) = true.
Proof.
  apply Z.eqb_eq.
  destruct (bestAlignment pixmap =? 0); apply bestAlignment_check.
Qed.

Lemma write_direct_outcome (s : World) (level : Z) (pixmap : PixmapView) (destPos : WP)
    (flags : Z) :
  texName_ (tex s) <> 0 -> levels_ (tex s) <> 0 ->
  1 <= w (pixDesc (tex s)) -> 1 <= h (pixDesc (tex s)) -> 0 <= level ->
  px destPos + w (desc pixmap) <= levelDim (w (pixDesc (tex s))) level ->
  py destPos + h (desc pixmap) <= levelDim (h (pixDesc (tex s))) level ->
  bytesPerPixel (format (desc pixmap)) = bytesPerPixel (format (pixDesc (tex s))) ->
  formatWritable (renderer s) (format (desc pixmap)) = true ->
  hasUnpackRowLength (support (renderer s)) || negb (isPadded pixmap) = true ->
  exists s',
    write level pixmap destPos flags s = Done tt s' /\
    directUpload level pixmap destPos s s'.
Proof.
  intros Hname Hl Hw Hh Hlevel Hx Hy Hbpp Hwr Hdirect.
  destruct (makeGLFormat_returns (renderer s) (format (desc pixmap)) Hwr) as [fmt Efmt].
  apply Z.eqb_neq in Hname. apply Z.leb_le in Hx, Hy. apply Z.eqb_eq in Hbpp.
  unfold write, writeAligned. mrun. rewrite Hname.
  rewrite size_levelDim by assumption. cbn [px py]. rewrite Hx.
  rewrite size_levelDim by assumption. cbn [px py]. rewrite Hy, Hbpp.
  rewrite write_checks_pass. cbn [negb].
  rewrite Hdirect. unfold directUpload.
  destruct (hasImmutableTexStorage (support (renderer s))) eqn:Himm;
    destruct (hasUnpackRowLength (support (renderer s))); mrun;
    rewrite Efmt; mrun;
    destruct (flagSet flags WRITE_FLAG_MAKE_MIPMAPS &&
              supportsMipmaps (textureSizeSupport (support (renderer s)))
                (w (pixDesc (tex s))) (h (pixDesc (tex s))));
    mrun; rewrite ?Himm; cbn [negb]; mrun;
    eexists; (split; [reflexivity|]); cbn [queue heap errLog];
    repeat (split; [reflexivity|]);
    do 3 eexists; split; reflexivity.
Qed.

Lemma memcpy_outside dst src n m a :
  ~ (dst <= a < dst + n) -> memcpy dst src n m a = m a.
Proof.
  intros H. unfold memcpy.
  destruct (dst <=? a) eqn:E1; [|reflexivity].
  destruct (a <? dst + n) eqn:E2; [|reflexivity].
  apply Z.leb_le in E1. apply Z.ltb_lt in E2. lia.
Qed.

Lemma memcpy_inside dst src n m x :
  0 <= x < n -> memcpy dst src n m (dst + x) = m (src + x).
Proof.
  intros H. unfold memcpy.
  replace (dst <=? dst + x) with true by (symmetry; apply Z.leb_le; lia).
  replace (dst + x <? dst + n) with true by (symmetry; apply Z.ltb_lt; lia).
  cbn [andb]. f_equal. lia.
Qed.

Lemma copyRow_untouched D dp S sp rb (ls : list Z) : forall m a,
  (forall y, In y ls -> ~ (D + y * dp <= a < D + y * dp + rb)) ->
  fold_left (copyRow D dp S sp rb) ls m a = m a.
Proof.
  induction ls as [|y ls IH]; intros m a Hout; [reflexivity|].
  cbn [fold_left]. rewrite IH.
  - apply memcpy_outside. apply Hout. left. reflexivity.
  - intros y' Hy'. apply Hout. right. exact Hy'.
Qed.

Lemma copyRow_copied D dp S sp rb (ls : list Z) : forall m y0 x,
  In y0 ls -> 0 <= x < rb ->
  (forall y, In y ls -> y <> y0 ->
             ~ (D + y * dp <= D + y0 * dp + x < D + y * dp + rb)) ->
  (forall y, In y ls -> ~ (D + y * dp <= S + y0 * sp + x < D + y * dp + rb)) ->
  fold_left (copyRow D dp S sp rb) ls m (D + y0 * dp + x) = m (S + y0 * sp + x).
Proof.
  induction ls as [|y ls IH]; intros m y0 x Hin Hx Hrows Hsrc; [destruct Hin|].
  cbn [fold_left].
  destruct (In_dec Z.eq_dec y0 ls) as [Hin' | Hnin].
  - rewrite IH; try assumption.
    + apply memcpy_outside. apply Hsrc. left. reflexivity.
    + intros y' Hy' Hne. apply Hrows; [right; exact Hy' | exact Hne].
    + intros y' Hy'. apply Hsrc. right. exact Hy'.
  - destruct Hin as [-> | Hin]; [|contradiction].
    rewrite copyRow_untouched.
    + unfold copyRow. rewrite memcpy_inside by exact Hx. reflexivity.
    + intros y' Hy'. apply Hrows; [right; exact Hy'|].
      intros ->. contradiction.
Qed.

Lemma iotaCount_In n y : In y (iotaCount n) <-> 0 <= y < n.
Proof.
  unfold iotaCount. rewrite in_map_iff. split.
  - intros [k [<- Hk]]. apply in_seq in Hk. lia.
  - intros Hy. exists (Z.to_nat y). split; [lia|]. apply in_seq. lia.
Qed.

(** after [writePixmap] into an unpadded view, the view holds the source's
    rows back to back *)
Lemma writePixmap_copies (dst src : PixmapView) (m : Z -> Z) :
  let rowBytes := pixelBytes (format (desc src)) (w (desc src)) in
  pitchBytes dst = rowBytes ->
  rowsOutside src (data dst) (rowBytes * h (desc src)) ->
  forall y x, 0 <= y < h (desc src) -> 0 <= x < rowBytes ->
    writePixmap dst src m (data dst + y * rowBytes + x)
    = m (data src + y * pitchBytes src + x).
Proof.
  intros rowBytes Hpitch Hout y x Hy Hx.
  unfold writePixmap. fold rowBytes. rewrite Hpitch.
  apply copyRow_copied.
  - apply iotaCount_In. exact Hy.
  - exact Hx.
  - intros y' Hy' Hne. apply iotaCount_In in Hy'. nia.
  - intros y' Hy' Hin. apply iotaCount_In in Hy'.
    apply (Hout y x Hy Hx). nia.
Qed.

Lemma flagSet_zero flag : flagSet 0 flag = false.
Proof. unfold flagSet. rewrite Z.land_0_l. reflexivity. Qed.

(** a pixmap of non-negative size whose byte count fits an [int] has a pixel
    count that fits one *)
Lemma pixmap_pixels_fit_int (pixmap : PixmapView) :
  0 <= w (desc pixmap) -> 0 <= h (desc pixmap) ->
  w (desc pixmap) * bytesPerPixel (format (desc pixmap)) * h (desc pixmap) <= INT_MAX ->
  INT_MIN <= w (desc pixmap) * h (desc pixmap) <= INT_MAX.
Proof.
  intros Hw Hh Hn.
  apply (pixels_fit_int _ (format (desc pixmap))); [nia|].
  rewrite <- Hn. apply Z.eq_le_incl. ring.
Qed.

Lemma write_staged_outcome (s : World) (level : Z) (pixmap : PixmapView) (destPos : WP)
    (flags : Z) :
  texName_ (tex s) <> 0 -> levels_ (tex s) <> 0 ->
  1 <= w (pixDesc (tex s)) -> 1 <= h (pixDesc (tex s)) -> 0 <= level ->
  px destPos + w (desc pixmap) <= levelDim (w (pixDesc (tex s))) level ->
  py destPos + h (desc pixmap) <= levelDim (h (pixDesc (tex s))) level ->
  bytesPerPixel (format (desc pixmap)) = bytesPerPixel (format (pixDesc (tex s))) ->
  formatWritable (renderer s) (format (pixDesc (tex s))) = true ->
  hasUnpackRowLength (support (renderer s)) || negb (isPadded pixmap) = false ->
  0 <= w (desc pixmap) -> 0 <= h (desc pixmap) ->
  let n := w (desc pixmap) * bytesPerPixel (format (desc pixmap)) * h (desc pixmap) in
  n <= INT_MAX ->
  rowsOutside pixmap (brk (heap s)) n ->
  if heapFits n (heap s)
  then exists s',
         write level pixmap destPos flags s = Done tt s' /\
         stagedUpload level pixmap destPos (brk (heap s)) s s'
  else write level pixmap destPos flags s =
       Done tt (set_errLog (errLog s ++ ["failed allocating %u bytes for pixel buffer";
                                         "error getting buffer for writeAligned()"]) s).
Proof.
  intros Hname Hl Hw Hh Hlevel Hx Hy Hbpp Hwr Hstaged Hpw Hph n Hfits Hout.
  set (lockRect := rectOffset (rectOfSize (pixmapSize pixmap)) destPos).
  assert (Hxs : xSize lockRect = w (desc pixmap)) by (unfold xSize; cbn; lia).
  assert (Hys : ySize lockRect = h (desc pixmap)) by (unfold ySize; cbn; lia).
  assert (Hint : INT_MIN <= xSize lockRect * ySize lockRect <= INT_MAX)
    by (rewrite Hxs, Hys; apply pixmap_pixels_fit_int; assumption).
  assert (Hn : pixelBytes (format (pixDesc (tex s))) (xSize lockRect * ySize lockRect) = n).
  { unfold pixelBytes, n. rewrite Hxs, Hys, Hbpp. ring. }
  pose proof (lock_outcome s level lockRect 0 Hname Hl Hw Hh Hlevel) as Hlock.
  cbv zeta in Hlock. rewrite Hn, flagSet_zero in Hlock.
  assert (Hx' : rx2 lockRect <= levelDim (w (pixDesc (tex s))) level) by (cbn; lia).
  assert (Hy' : ry2 lockRect <= levelDim (h (pixDesc (tex s))) level) by (cbn; lia).
  specialize (Hlock Hx' Hy' Hint).
  apply Z.eqb_neq in Hname. apply Z.leb_le in Hx, Hy.
  pose proof Hbpp as Hbpp'. apply Z.eqb_eq in Hbpp'.
  unfold write, writeAligned. mrun. rewrite Hname.
  rewrite size_levelDim by assumption. cbn [px py]. rewrite Hx.
  rewrite size_levelDim by assumption. cbn [px py]. rewrite Hy, Hbpp'.
  rewrite write_checks_pass. cbn [negb].
  rewrite Hstaged. fold lockRect. rewrite Hlock.
  destruct (heapFits n (heap s)) eqn:Hfit.
  - unfold lockedBool, pixmapBool. cbn [pix pixmapOf data].
    rewrite (heapFits_brk_nonzero _ _ Hfit). cbn [negb].
    mrun. cbn [pix pixmapOf desc format]. rewrite Hbpp'. mrun.
    cbn [mem brk heapEnd blocks].
    match goal with
    | |- context [unlock ?b ?f ?st] =>
        destruct (unlock_outcome st b f) as (s' & cmd & fmt & dt & E & Eq & Eh & Ee & _ & Eimg & Efree);
          [ unfold lockedBool, pixmapBool; cbn [pix pixmapOf data];
            rewrite (heapFits_brk_nonzero _ _ Hfit); reflexivity
          | reflexivity
          | exact Hwr
          | ]
    end.
    exists s'. split; [exact E|].
    cbn [queue heap errLog pix pixmapOf desc data w h srcDirtyRect lockedLevel bufferOffset
         shouldFreeBuffer] in Eq, Eh, Ee, Eimg, Efree.
    unfold stagedUpload. rewrite Eh, Ee. cbn [blocks mem].
    split; [reflexivity|]. split; [reflexivity|]. split.
    + intros y x Hyy Hxx.
      apply (writePixmap_copies
               (pixmapOf (mkDesc (xSize lockRect) (ySize lockRect) (format (pixDesc (tex s))))
                  (brk (heap s))) pixmap (mem (heap s))).
      * unfold pixelBytes. cbn [pixmapOf pitchBytes format w]. unfold pixelBytes.
        rewrite Hxs, Hbpp. reflexivity.
      * exact Hout.
      * exact Hyy.
      * exact Hxx.
    + exists cmd, fmt, dt. split; [exact Eq|]. split.
      * rewrite Eimg, Hxs, Hys. reflexivity.
      * apply Efree. reflexivity.
  - change (negb (lockedBool emptyLockedBuffer)) with true. mrun.
    rewrite <- app_assoc. reflexivity.
Qed.

Lemma cons_neq_self {A} (x : A) (l : list A) : x :: l <> l.
Proof.
  intros H. apply (f_equal (@List.length A)) in H. cbn in H. lia.
Qed.

Lemma app_neq_self {A} (l : list A) (x y : A) : l ++ [x; y] <> l.
Proof.
  intros H. apply (f_equal (@List.length A)) in H.
  rewrite List.length_app in H. cbn in H. lia.
Qed.

(** C3 (amended): a write to a formatted texture, of a pixmap of
    non-negative size at a non-negative position whose byte count is that
    of an [int], takes the direct path (host memory untouched, one queued
    command whose single upload call reads the caller's buffer in place)
    exactly when the backend supports a custom unpack row length or the
    pixmap's pitch equals its width times the bytes per pixel.  Otherwise it
    takes the staged path: it asks [lock] for a buffer sized to the
    destination rectangle; when the host allocation succeeds the caller's
    rows are copied into it without their padding and it is uploaded (and
    freed) through [unlock]; when the allocation fails the write logs the
    error and returns with nothing queued. *)
Theorem C3_write_direct_iff_row_length_or_unpadded
    (s : World) (level : Z) (pixmap : PixmapView) (destPos : WP) (flags : Z) :
  texName_ (tex s) <> 0 -> levels_ (tex s) <> 0 ->
  1 <= w (pixDesc (tex s)) -> 1 <= h (pixDesc (tex s)) -> 0 <= level ->
  0 <= px destPos -> 0 <= py destPos ->
  0 <= w (desc pixmap) -> 0 <= h (desc pixmap) ->
  px destPos + w (desc pixmap) <= levelDim (w (pixDesc (tex s))) level ->
  py destPos + h (desc pixmap) <= levelDim (h (pixDesc (tex s))) level ->
  bytesPerPixel (format (desc pixmap)) = bytesPerPixel (format (pixDesc (tex s))) ->
  formatWritable (renderer s) (format (desc pixmap)) = true ->
  formatWritable (renderer s) (format (pixDesc (tex s))) = true ->
  let n := w (desc pixmap) * bytesPerPixel (format (desc pixmap)) * h (desc pixmap) in
  n <= INT_MAX ->
  rowsOutside pixmap (brk (heap s)) n ->
  let direct :=
    hasUnpackRowLength (support (renderer s)) = true \/
    pitchBytes pixmap = w (desc pixmap) * bytesPerPixel (format (desc pixmap)) in
  exists s',
    write level pixmap destPos flags s = Done tt s' /\
    (directUpload level pixmap destPos s s' <-> direct) /\
    (~ direct ->
     if heapFits n (heap s)
     then stagedUpload level pixmap destPos (brk (heap s)) s s'
     else queue s' = queue s /\ heap s' = heap s /\
          errLog s' = errLog s ++ ["failed allocating %u bytes for pixel buffer";
                                   "error getting buffer for writeAligned()"]).
Proof.
  intros Hname Hl Hw Hh Hlevel Hpx Hpy Hpw Hph Hx Hy Hbpp Hwr1 Hwr2 n Hfits Hout direct.
  assert (Hcond : hasUnpackRowLength (support (renderer s)) || negb (isPadded pixmap) = true
                  <-> direct).
  { unfold direct, isPadded. rewrite orb_true_iff, negb_involutive, Z.eqb_eq. reflexivity. }
  destruct (hasUnpackRowLength (support (renderer s)) || negb (isPadded pixmap)) eqn:Hb.
  - destruct (write_direct_outcome s level pixmap destPos flags) as (s' & E & Hd);
      try assumption.
    exists s'. split; [exact E|]. split.
    + split; [intros _; apply Hcond; reflexivity | intros _; exact Hd].
    + intros Hnd. exfalso. apply Hnd, Hcond. reflexivity.
  - assert (Hnd : ~ direct) by (intros Hd; apply Hcond in Hd; discriminate).
    pose proof (write_staged_outcome s level pixmap destPos flags Hname Hl Hw Hh Hlevel
                  Hx Hy Hbpp Hwr2 Hb Hpw Hph Hfits Hout) as Hst.
    fold n in Hst.
    destruct (heapFits n (heap s)).
    + destruct Hst as (s' & E & Hs).
      exists s'. split; [exact E|]. split; [|intros _; exact Hs].
      split; [|intros Hd; contradiction].
      intros (Hheap & _). destruct Hs as (Hblocks & _).
      rewrite Hheap in Hblocks. symmetry in Hblocks.
      exfalso. exact (cons_neq_self _ _ Hblocks).
    + eexists. split; [exact Hst|]. split; [|intros _; repeat split].
      split; [|intros Hd; contradiction].
      intros (_ & Hlog & _). cbn [errLog set_errLog] in Hlog.
      exfalso. exact (app_neq_self _ _ _ Hlog).
Qed.

(** ** Further properties of the texture code *)

(** *** What [unlock] queues *)

(** the state [unlock] leaves for a buffer without a PBO: one command, not
    awaited, with the calls of [unlockCalls]; the level count recomputed
    when mipmaps are requested, possible and storage is not immutable *)
Lemma unlock_effect (s : World) (lockBuff : LockedTextureBuffer) (writeFlags : Z) :
  lockedBool lockBuff = true -> pbo lockBuff = 0 ->
  formatWritable (renderer s) (format (desc (pix lockBuff))) = true ->
  let makeMipmaps :=
    flagSet writeFlags WRITE_FLAG_MAKE_MIPMAPS &&
    supportsMipmaps (textureSizeSupport (support (renderer s)))
      (w (pixDesc (tex s))) (h (pixDesc (tex s))) in
  exists fmt,
    unlock lockBuff writeFlags s =
    Done tt
      (set_queue (queue s ++ [mkCommand false
                                (unlockCalls (renderer s) (texName_ (tex s)) lockBuff fmt
                                   makeMipmaps)])
         (set_boundTex2D (texName_ (tex s))
            (set_tex (if makeMipmaps && negb (hasImmutableTexStorage (support (renderer s)))
                      then mkTexture (texName_ (tex s)) (pixDesc (tex s))
                             (generatedLevels (tex s)) (type_ (tex s))
                      else tex s) s))).
Proof.
  intros Hvalid Hpbo Hwr makeMipmaps.
  destruct (makeGLFormat_returns (renderer s) (format (desc (pix lockBuff))) Hwr)
    as [fmt Efmt].
  exists fmt. unfold unlock, unlockCalls, generatedLevels. rewrite Hvalid, Hpbo.
  change (0 =? 0) with true. cbn [negb]. mrun. fold makeMipmaps.
  destruct makeMipmaps;
    [destruct (hasImmutableTexStorage (support (renderer s)))|];
    cbn [negb andb]; mrun;
    (destruct (hasUnpackRowLength (support (renderer s))); mrun;
     rewrite Efmt; mrun;
     destruct (shouldFreeBuffer lockBuff); mrun;
     destruct s as [r0 [tn pd lv ty] q0 pe nn bt hp dc el]; reflexivity).
Qed.

(** *** Only formatting replaces the handle and the descriptor *)

Lemma sameTexture_refl s : sameTexture s s.
Proof. unfold sameTexture. intuition. Qed.

Lemma sameTexture_trans s1 s2 s3 :
  sameTexture s1 s2 -> sameTexture s2 s3 -> sameTexture s1 s3.
Proof.
  unfold sameTexture, generatedLevels.
  intros (Hr & Hn & Ht & Hd & Hy & Hl) (Hr' & Hn' & Ht' & Hd' & Hy' & Hl').
  rewrite Hr', Hn', Ht', Hd', Hy'. rewrite Hd in Hl'.
  repeat split; try assumption.
  destruct Hl' as [Hl' | Hl']; rewrite Hl'; [exact Hl | right; reflexivity].
Qed.

Lemma Relates_ret {A} (a : A) : Relates sameTexture (ret a).
Proof. intros s a' s' H. injection H as _ <-. apply sameTexture_refl. Qed.

Lemma Relates_bind {A B} (c : M A) (k : A -> M B) :
  Relates sameTexture c -> (forall a, Relates sameTexture (k a)) ->
  Relates sameTexture (bind c k).
Proof.
  intros Hc Hk s b s' H. unfold bind in H.
  destruct (c s) as [a s1 | m | m] eqn:E; try discriminate.
  eapply sameTexture_trans; [eapply Hc; exact E | eapply Hk; exact H].
Qed.

Lemma Relates_when b c : Relates sameTexture c -> Relates sameTexture (when b c).
Proof. intros Hc. destruct b; [exact Hc | apply Relates_ret]. Qed.

Lemma Relates_run b c : Relates sameTexture c -> Relates sameTexture (run b c).
Proof.
  intros Hc s a s' H. unfold run in H.
  destruct (c (set_pending [] s)) as [a1 s1 | m | m] eqn:E; try discriminate.
  injection H as _ <-. apply Hc in E. exact E.
Qed.

Lemma Relates_fields {A} (c : M A) :
  (forall s a s', c s = Done a s' ->
     renderer s' = renderer s /\ nextTexName s' = nextTexName s /\ tex s' = tex s) ->
  Relates sameTexture c.
Proof.
  intros H s a s' E. destruct (H s a s' E) as (Hr & Hn & Ht).
  unfold sameTexture. rewrite Hr, Hn, Ht. intuition.
Qed.

Lemma Relates_getTex : Relates sameTexture getTex.
Proof. apply Relates_fields. intros s a s' H. injection H as _ <-. repeat split. Qed.
Lemma Relates_getRenderer : Relates sameTexture getRenderer.
Proof. apply Relates_fields. intros s a s' H. injection H as _ <-. repeat split. Qed.
Lemma Relates_logErr m : Relates sameTexture (logErr m).
Proof. apply Relates_fields. intros s a s' H. injection H as _ <-. repeat split. Qed.
Lemma Relates_emit c : Relates sameTexture (emit c).
Proof. apply Relates_fields. intros s a s' H. injection H as _ <-. repeat split. Qed.
Lemma Relates_bindTexture2D n : Relates sameTexture (bindTexture2D n).
Proof. apply Relates_fields. intros s a s' H. injection H as _ <-. repeat split. Qed.
Lemma Relates_glcBindTexture t n : Relates sameTexture (glcBindTexture t n).
Proof. apply Relates_fields. intros s a s' H. injection H as _ <-. repeat split. Qed.
Lemma Relates_hostAlloc b n : Relates sameTexture (hostAlloc b n).
Proof. apply Relates_fields. intros s a s' H. injection H as _ <-. repeat split. Qed.
Lemma Relates_modifyMem f : Relates sameTexture (modifyMem f).
Proof. apply Relates_fields. intros s a s' H. injection H as _ <-. repeat split. Qed.
Lemma Relates_assumeExpr b what : Relates sameTexture (assumeExpr b what).
Proof.
  apply Relates_fields. intros s a s' H. unfold assumeExpr in H.
  destruct b; [injection H as _ <-; repeat split | discriminate].
Qed.
Lemma Relates_bug_unreachable {A} what : Relates sameTexture (@bug_unreachable A what).
Proof. intros s a s' H. discriminate. Qed.

Lemma Relates_updateLevelsForMipmapGeneration :
  Relates sameTexture updateLevelsForMipmapGeneration.
Proof.
  intros s a s'. unfold updateLevelsForMipmapGeneration. mrun.
  destruct (negb (hasImmutableTexStorage (support (renderer s)))); mrun;
    intros H; injection H as _ <-; [|apply sameTexture_refl].
  unfold sameTexture, generatedLevels. cbn [renderer nextTexName tex texName_ pixDesc
                                            type_ levels_].
  intuition.
Qed.

Create HintDb frame.
#[local] Hint Resolve Relates_ret Relates_getTex Relates_getRenderer Relates_logErr
  Relates_emit Relates_bindTexture2D Relates_glcBindTexture Relates_hostAlloc
  Relates_modifyMem Relates_assumeExpr Relates_bug_unreachable
  Relates_updateLevelsForMipmapGeneration : frame.

Ltac frame :=
  repeat first
    [ solve [auto with frame]
    | apply Relates_bind; [ | intros ? ]
    | apply Relates_when
    | apply Relates_run
    | match goal with
      | |- Relates _ (if ?b then _ else _) => destruct b
      | |- Relates _ (match ?x with _ => _ end) => destruct x
      end
    | progress cbv zeta ].

Lemma Relates_canUseMipmaps : Relates sameTexture canUseMipmaps.
Proof. unfold canUseMipmaps. frame. Qed.
Lemma Relates_target : Relates sameTexture target.
Proof. unfold target. frame. Qed.
Lemma Relates_size level : Relates sameTexture (size level).
Proof. unfold size. frame. Qed.
Lemma Relates_makeGLFormat r fmt : Relates sameTexture (makeGLFormat r fmt).
Proof. unfold makeGLFormat. frame. Qed.

#[local] Hint Resolve Relates_canUseMipmaps Relates_target Relates_size
  Relates_makeGLFormat : frame.

Lemma Relates_lock level rect flags : Relates sameTexture (lock level rect flags).
Proof. unfold lock. frame. Qed.
Lemma Relates_unlock lockBuff flags : Relates sameTexture (unlock lockBuff flags).
Proof. unfold unlock. frame. Qed.

#[local] Hint Resolve Relates_lock Relates_unlock : frame.

Lemma Relates_lockLevel level flags : Relates sameTexture (lockLevel level flags).
Proof. unfold lockLevel. frame. Qed.
Lemma Relates_writeAligned level pixmap destPos assumeAlign flags :
  Relates sameTexture (writeAligned level pixmap destPos assumeAlign flags).
Proof. unfold writeAligned. frame. Qed.

#[local] Hint Resolve Relates_lockLevel Relates_writeAligned : frame.

Lemma generatedLevels_range (t : GLTexture) :
  1 <= w (pixDesc t) <= INT_MAX -> 1 <= h (pixDesc t) <= INT_MAX ->
  generatedLevels t = fullChainLevels (w (pixDesc t)) (h (pixDesc t)) /\
  1 <= generatedLevels t <= 31.
Proof.
  intros Hw Hh. unfold generatedLevels.
  destruct (fls_lor_fullChain _ _ Hw Hh) as [E R].
  rewrite E, to_int8_small by lia. split; [reflexivity | exact R].
Qed.

Lemma sameTexture_formatted s s' : sameTexture s s' -> formatted s -> formatted s'.
Proof.
  unfold sameTexture, formatted.
  intros (_ & _ & Ht & Hd & _ & Hl) (Hn & Hlv & Hw & Hh).
  rewrite Ht, Hd. repeat split; try assumption; try lia.
  - destruct Hl as [-> | ->]; [lia|].
    destruct (generatedLevels_range (tex s) Hw Hh). lia.
  - destruct Hl as [-> | ->]; [lia|].
    destruct (generatedLevels_range (tex s) Hw Hh). lia.
Qed.

Lemma Relates_generateMipmaps : Relates sameTexture generateMipmaps.
Proof. unfold generateMipmaps. frame. Qed.
Lemma Relates_write level pixmap destPos flags :
  Relates sameTexture (write level pixmap destPos flags).
Proof. unfold write. frame. Qed.
Lemma Relates_clear level : Relates sameTexture (clear level).
Proof. unfold clear. frame. Qed.
Lemma Relates_bindTex : Relates sameTexture bindTex.
Proof. unfold bindTex. frame. Qed.
Lemma Relates_lockedBuffer dataPtr pitch flags :
  Relates sameTexture (lockedBuffer dataPtr pitch flags).
Proof. unfold lockedBuffer. frame. Qed.
Lemma Relates_loadImageSource img makeMipmaps :
  Relates sameTexture (loadImageSource img makeMipmaps).
Proof. unfold loadImageSource. pose proof Relates_write. frame. Qed.

(** X1: none of the operations other than formatting replaces the handle,
    the descriptor, the texture type, the renderer or the device's name
    counter: whenever [generateMipmaps], [write], [writeAligned], [lock]
    (both forms), [unlock], [clear], [bindTex], [size], [lockedBuffer] or
    [loadImageSource] returns, those are as before, and the level count is
    either as before or the count mipmap generation stores. *)
Theorem X1_only_formatting_changes_the_texture :
  Relates sameTexture generateMipmaps /\
  (forall level pixmap destPos flags,
     Relates sameTexture (write level pixmap destPos flags)) /\
  (forall level pixmap destPos assumeAlign flags,
     Relates sameTexture (writeAligned level pixmap destPos assumeAlign flags)) /\
  (forall level rect flags, Relates sameTexture (lock level rect flags)) /\
  (forall level flags, Relates sameTexture (lockLevel level flags)) /\
  (forall lockBuff flags, Relates sameTexture (unlock lockBuff flags)) /\
  (forall level, Relates sameTexture (clear level)) /\
  Relates sameTexture bindTex /\
  (forall level, Relates sameTexture (size level)) /\
  (forall dataPtr pitch flags, Relates sameTexture (lockedBuffer dataPtr pitch flags)) /\
  (forall img makeMipmaps, Relates sameTexture (loadImageSource img makeMipmaps)).
Proof.
  split; [exact Relates_generateMipmaps|].
  split; [exact Relates_write|].
  split; [exact Relates_writeAligned|].
  split; [exact Relates_lock|].
  split; [exact Relates_lockLevel|].
  split; [exact Relates_unlock|].
  split; [exact Relates_clear|].
  split; [exact Relates_bindTex|].
  split; [exact Relates_size|].
  split; [exact Relates_lockedBuffer | exact Relates_loadImageSource].
Qed.

(** X2: a formatted texture stays formatted: whenever one of those
    operations returns from a state with a handle, 1 to 127 levels and
    dimensions between 1 and INT_MAX, the state it leaves has them too, so
    that [size] keeps returning for every level. *)
Theorem X2_formatted_is_kept (s s' : World) :
  formatted s ->
  ((exists b, generateMipmaps s = Done b s') \/
   (exists level pixmap destPos flags, write level pixmap destPos flags s = Done tt s') \/
   (exists level rect flags buf, lock level rect flags s = Done buf s') \/
   (exists level flags buf, lockLevel level flags s = Done buf s') \/
   (exists lockBuff flags, unlock lockBuff flags s = Done tt s') \/
   (exists level, clear level s = Done tt s') \/
   (exists img makeMipmaps e, loadImageSource img makeMipmaps s = Done e s')) ->
  formatted s' /\
  forall level, 0 <= level ->
    size level s' = Done (mkWP (levelDim (w (pixDesc (tex s'))) level)
                               (levelDim (h (pixDesc (tex s'))) level)) s'.
Proof.
  intros Hf Hop.
  assert (Hsame : sameTexture s s').
  { destruct Hop as [(b & E) | [(l & p & d & f & E) | [(l & r & f & b & E) |
                    [(l & f & b & E) | [(b & f & E) | [(l & E) | (i & m & e & E)]]]]]].
    - exact (Relates_generateMipmaps _ _ _ E).
    - exact (Relates_write _ _ _ _ _ _ _ E).
    - exact (Relates_lock _ _ _ _ _ _ E).
    - exact (Relates_lockLevel _ _ _ _ _ E).
    - exact (Relates_unlock _ _ _ _ _ E).
    - exact (Relates_clear _ _ _ _ E).
    - exact (Relates_loadImageSource _ _ _ _ _ E). }
  pose proof (sameTexture_formatted _ _ Hsame Hf) as Hf'.
  split; [exact Hf'|].
  destruct Hf' as (_ & Hl & Hw & Hh).
  intros level Hlevel. apply size_levelDim; lia.
Qed.

(** *** Locking a whole level, clearing, and who frees the buffer *)

Lemma lockLevel_outcome (s : World) (level : Z) (bufferFlags : Z) :
  texName_ (tex s) <> 0 -> levels_ (tex s) <> 0 ->
  1 <= w (pixDesc (tex s)) -> 1 <= h (pixDesc (tex s)) -> 0 <= level ->
  let wd := levelDim (w (pixDesc (tex s))) level in
  let ht := levelDim (h (pixDesc (tex s))) level in
  let n := wd * ht * bytesPerPixel (format (pixDesc (tex s))) in
  let p := brk (heap s) in
  n <= INT_MAX ->
  lockLevel level bufferFlags s =
  if heapFits n (heap s)
  then Done (mkLocked p (pixmapOf (mkDesc wd ht (format (pixDesc (tex s)))) p)
               (mkRect 0 0 wd ht) level true 0)
         (set_heap (mkHeap (if flagSet bufferFlags BUFFER_FLAG_CLEARED
                            then zeroFill p n (mem (heap s)) else mem (heap s))
                      (p + n) (heapEnd (heap s)) ((p, n) :: blocks (heap s))) s)
  else Done emptyLockedBuffer
         (set_errLog (errLog s ++ ["failed allocating %u bytes for pixel buffer"]) s).
Proof.
  intros Hname Hl Hw Hh Hlevel wd ht n p Hn.
  assert (Hint : INT_MIN <= xSize (rectOfSize (mkWP wd ht)) * ySize (rectOfSize (mkWP wd ht))
                 <= INT_MAX).
  { unfold xSize, ySize. cbn [rectOfSize px py rx ry rx2 ry2]. rewrite !Z.sub_0_r.
    apply (pixels_fit_int _ (format (pixDesc (tex s)))); [|exact Hn].
    unfold wd, ht, levelDim. nia. }
  unfold lockLevel. mrun. rewrite size_levelDim by assumption. fold wd ht.
  rewrite lock_outcome; try assumption; cbn [rectOfSize px py rx2 ry2]; try (fold wd ht; lia).
  unfold xSize, ySize, pixelBytes. cbn [rectOfSize px py rx ry rx2 ry2].
  rewrite !Z.sub_0_r. reflexivity.
Qed.

(** X3: on a formatted texture [lock(level, flags)] takes no rectangle from
    the caller: it locks the one from (0,0) to [size(level)] and, for a
    level whose byte count is that of an [int], returns an unpadded buffer
    of exactly size(level).x * size(level).y pixels when the host allocation
    succeeds and the empty buffer when it fails, with nothing queued either
    way. *)
Theorem X3_lock_whole_level (s : World) (level : Z) (bufferFlags : Z) :
  texName_ (tex s) <> 0 -> levels_ (tex s) <> 0 ->
  1 <= w (pixDesc (tex s)) -> 1 <= h (pixDesc (tex s)) -> 0 <= level ->
  let wd := levelDim (w (pixDesc (tex s))) level in
  let ht := levelDim (h (pixDesc (tex s))) level in
  let n := wd * ht * bytesPerPixel (format (pixDesc (tex s))) in
  n <= INT_MAX ->
  exists buf s',
    lockLevel level bufferFlags s = Done buf s' /\
    size level s = Done (mkWP wd ht) s /\
    queue s' = queue s /\ tex s' = tex s /\
    if heapFits n (heap s)
    then lockedBool buf = true /\
         srcDirtyRect buf = mkRect 0 0 wd ht /\
         desc (pix buf) = mkDesc wd ht (format (pixDesc (tex s))) /\
         isPadded (pix buf) = false /\
         pixmapBytes (pix buf) = n /\
         blocks (heap s') = (data (pix buf), n) :: blocks (heap s)
    else buf = emptyLockedBuffer /\ heap s' = heap s.
Proof.
  intros Hname Hl Hw Hh Hlevel wd ht n Hn.
  rewrite lockLevel_outcome by assumption. fold wd ht n.
  rewrite size_levelDim by assumption. fold wd ht.
  destruct (heapFits n (heap s)) eqn:Hfit.
  - eexists; eexists. split; [reflexivity|]. split; [reflexivity|].
    cbn [queue tex heap set_heap blocks pix pixmapOf desc data srcDirtyRect].
    repeat split.
    + unfold lockedBool, pixmapBool. cbn [pix pixmapOf data].
      rewrite (heapFits_brk_nonzero _ _ Hfit). reflexivity.
    + unfold isPadded, pixmapOf, pixelBytes. cbn [pitchBytes desc w format].
      rewrite Z.eqb_refl. reflexivity.
    + unfold pixmapBytes, pixmapOf, pixelBytes, n. cbn [pitchBytes desc w h format]. ring.
  - eexists; eexists. repeat split.
Qed.

(** X4: operations that call [size] before looking at the handle do not
    log and return on a texture that was never formatted: with a level
    count of 0, [size], [lock(level, flags)], [clear], [lockedBuffer] and
    the buffer-filling path of [loadImageSource] all fail the assertion on
    [levels_]. *)
Theorem X4_unformatted_size_assertion (s : World) :
  levels_ (tex s) = 0 ->
  (forall level, size level s = ContractViolation "levels_") /\
  (forall level flags, lockLevel level flags s = ContractViolation "levels_") /\
  (forall level, clear level s = ContractViolation "levels_") /\
  (forall dataPtr pitch flags,
     lockedBuffer dataPtr pitch flags s = ContractViolation "levels_") /\
  (forall img makeMipmaps, pixmapBool (pixmapView img) = false ->
     loadImageSource img makeMipmaps s = ContractViolation "levels_").
Proof.
  intros Hl.
  assert (Hsize : forall level, size level s = ContractViolation "levels_").
  { intros level. unfold size. mrun. rewrite Hl. reflexivity. }
  repeat split; intros.
  - apply Hsize.
  - unfold lockLevel, bind. rewrite Hsize. reflexivity.
  - unfold clear, lockLevel, bind. rewrite Hsize. reflexivity.
  - unfold lockedBuffer, bind. rewrite Hsize. reflexivity.
  - unfold loadImageSource. rewrite H. unfold lockLevel, bind. rewrite Hsize. reflexivity.
Qed.

Lemma flagSet_self flag : flag <> 0 -> flagSet flag flag = true.
Proof.
  intros H. unfold flagSet. rewrite Z.land_diag.
  apply negb_true_iff, Z.eqb_neq. exact H.
Qed.

Lemma unlockCalls_filters r name lockBuff fmt mk :
  filter isTexSubImage2D (unlockCalls r name lockBuff fmt mk) =
    [glTexSubImage2D GL_TEXTURE_2D (lockedLevel lockBuff)
       (rx (srcDirtyRect lockBuff)) (ry (srcDirtyRect lockBuff))
       (w (desc (pix lockBuff))) (h (desc (pix lockBuff))) fmt
       (makeGLDataType (format (desc (pix lockBuff)))) (bufferOffset lockBuff)] /\
  filter isStdFree (unlockCalls r name lockBuff fmt mk) =
    (if shouldFreeBuffer lockBuff then [stdFree (data (pix lockBuff))] else []) /\
  filter isPixelStore (unlockCalls r name lockBuff fmt mk) =
    glPixelStorei GL_UNPACK_ALIGNMENT
      (unpackAlignForAddrAndPitch 0 (pitchBytes (pix lockBuff)))
    :: (if hasUnpackRowLength (support r) then [glPixelStorei GL_UNPACK_ROW_LENGTH 0]
        else []) /\
  (In (glGenerateMipmap GL_TEXTURE_2D) (unlockCalls r name lockBuff fmt mk) <-> mk = true).
Proof.
  unfold unlockCalls.
  destruct (hasUnpackRowLength (support r)), (shouldFreeBuffer lockBuff), mk;
    cbn; (split; [reflexivity|]); (split; [reflexivity|]); (split; [reflexivity|]);
    split; intros H; try reflexivity; try discriminate;
    repeat match goal with
           | H : _ \/ _ |- _ => destruct H as [H | H]
           end; try discriminate; try contradiction; auto 10.
Qed.

(** X5: [clear(level)] on a formatted texture, for a level whose byte count
    is that of an [int], uploads zeros over the whole level: when the host
    allocation succeeds it queues one command, not
    awaited, whose single upload covers (0,0)-[size(level)] from a buffer
    whose bytes are all zero, frees that buffer once, and leaves the texture
    object as it was; when the allocation fails it logs twice and queues
    nothing. *)
Theorem X5_clear_uploads_zeros (s : World) (level : Z) :
  BUFFER_FLAG_CLEARED <> 0 ->
  texName_ (tex s) <> 0 -> levels_ (tex s) <> 0 ->
  1 <= w (pixDesc (tex s)) -> 1 <= h (pixDesc (tex s)) -> 0 <= level ->
  formatWritable (renderer s) (format (pixDesc (tex s))) = true ->
  let wd := levelDim (w (pixDesc (tex s))) level in
  let ht := levelDim (h (pixDesc (tex s))) level in
  let n := wd * ht * bytesPerPixel (format (pixDesc (tex s))) in
  let p := brk (heap s) in
  n <= INT_MAX ->
  if heapFits n (heap s)
  then exists s' cmd fmt dataType,
         clear level s = Done tt s' /\
         tex s' = tex s /\
         queue s' = queue s ++ [cmd] /\ awaitReply cmd = false /\
         blocks (heap s') = (p, n) :: blocks (heap s) /\
         (forall a, p <= a < p + n -> mem (heap s') a = 0) /\
         filter isTexSubImage2D (calls cmd) =
           [glTexSubImage2D GL_TEXTURE_2D level 0 0 wd ht fmt dataType p] /\
         filter isStdFree (calls cmd) = [stdFree p] /\
         ~ In (glGenerateMipmap GL_TEXTURE_2D) (calls cmd)
  else clear level s =
       Done tt (set_errLog (errLog s ++ ["failed allocating %u bytes for pixel buffer";
                                         "error getting buffer for clear()"]) s).
Proof.
  intros Hflag Hname Hl Hw Hh Hlevel Hwr wd ht n p Hn.
  pose proof (lockLevel_outcome s level BUFFER_FLAG_CLEARED Hname Hl Hw Hh Hlevel) as Hlock.
  cbv zeta in Hlock. fold wd ht n p in Hlock. specialize (Hlock Hn).
  rewrite (flagSet_self _ Hflag) in Hlock.
  unfold clear, bind. rewrite Hlock.
  destruct (heapFits n (heap s)) eqn:Hfit.
  - cbv beta iota.
    assert (Hvalid : lockedBool
                       (mkLocked p (pixmapOf (mkDesc wd ht (format (pixDesc (tex s)))) p)
                          (mkRect 0 0 wd ht) level true 0) = true).
    { unfold lockedBool, pixmapBool. cbn [pix pixmapOf data]. unfold p.
      rewrite (heapFits_brk_nonzero _ _ Hfit). reflexivity. }
    rewrite Hvalid. cbn [negb].
    match goal with
    | |- context [unlock ?b ?f ?st] =>
        destruct (unlock_effect st b f) as [fmt E];
          [ exact Hvalid | reflexivity | exact Hwr | ]
    end.
    cbv zeta in E. rewrite flagSet_zero in E. cbn [andb] in E.
    rewrite E.
    destruct (unlockCalls_filters (renderer s) (texName_ (tex s))
                (mkLocked p (pixmapOf (mkDesc wd ht (format (pixDesc (tex s)))) p)
                   (mkRect 0 0 wd ht) level true 0) fmt false)
      as (Fimg & Ffree & _ & Fgen).
    do 4 eexists. split; [reflexivity|].
    cbn [tex queue heap set_queue set_boundTex2D set_tex set_heap blocks mem renderer
         awaitReply calls].
    split; [reflexivity|]. split; [reflexivity|]. split; [reflexivity|].
    split; [reflexivity|].
    split; [intros a Ha; apply zeroFill_inside; exact Ha|].
    split; [exact Fimg|]. split; [exact Ffree|].
    intros Hin. apply Fgen in Hin. discriminate.
  - change (negb (lockedBool emptyLockedBuffer)) with true. mrun.
    rewrite <- app_assoc. reflexivity.
Qed.

Lemma app_pair_middle {A} (l1 l2 l3 : list A) (x y : A) :
  l1 ++ l2 ++ [x] ++ [y] ++ l3 = (l1 ++ l2) ++ [x; y] ++ l3.
Proof. rewrite <- app_assoc. reflexivity. Qed.

(** X6: a buffer obtained from [lock], for a rectangle inside the level
    whose byte count is that of an [int], is freed exactly once, by the
    command [unlock] queues, and right after the upload that reads it:
    locking and then unlocking leaves one new heap block and one command, not awaited,
    whose only [free] is of that block and directly follows its
    glTexSubImage2D. *)
Theorem X6_locked_buffer_freed_once_after_upload
    (s : World) (level : Z) (rect : WindowRect) (bufferFlags writeFlags : Z) :
  texName_ (tex s) <> 0 -> levels_ (tex s) <> 0 ->
  1 <= w (pixDesc (tex s)) -> 1 <= h (pixDesc (tex s)) -> 0 <= level ->
  0 <= rx rect <= rx2 rect -> 0 <= ry rect <= ry2 rect ->
  rx2 rect <= levelDim (w (pixDesc (tex s))) level ->
  ry2 rect <= levelDim (h (pixDesc (tex s))) level ->
  formatWritable (renderer s) (format (pixDesc (tex s))) = true ->
  let n := xSize rect * ySize rect * bytesPerPixel (format (pixDesc (tex s))) in
  n <= INT_MAX ->
  heapFits n (heap s) = true ->
  exists buf s1 s2 cmd,
    lock level rect bufferFlags s = Done buf s1 /\
    unlock buf writeFlags s1 = Done tt s2 /\
    queue s2 = queue s ++ [cmd] /\ awaitReply cmd = false /\
    blocks (heap s2) = (data (pix buf), n) :: blocks (heap s) /\
    filter isStdFree (calls cmd) = [stdFree (data (pix buf))] /\
    exists pre post fmt dataType,
      calls cmd =
        pre ++ [glTexSubImage2D GL_TEXTURE_2D level (rx rect) (ry rect)
                  (xSize rect) (ySize rect) fmt dataType (data (pix buf));
                stdFree (data (pix buf))] ++ post.
Proof.
  intros Hname Hl Hw Hh Hlevel Hrx Hry Hx Hy Hwr n Hn Hfit.
  assert (Hint : INT_MIN <= xSize rect * ySize rect <= INT_MAX)
    by (apply (rect_pixels_fit_int rect (format (pixDesc (tex s)))); [lia | lia | exact Hn]).
  pose proof (lock_outcome s level rect bufferFlags Hname Hl Hw Hh Hlevel Hx Hy Hint)
    as Hlock.
  cbv zeta in Hlock.
  change (pixelBytes (format (pixDesc (tex s))) (xSize rect * ySize rect)) with n in Hlock.
  rewrite Hfit in Hlock.
  match type of Hlock with
  | _ = Done ?b ?st =>
      destruct (unlock_effect st b writeFlags) as [fmt E];
        [ unfold lockedBool, pixmapBool; cbn [pix pixmapOf data];
          rewrite (heapFits_brk_nonzero _ _ Hfit); reflexivity
        | reflexivity
        | exact Hwr
        | ];
      cbv zeta in E;
      match type of E with
      | _ = Done tt (set_queue (_ ++ [mkCommand false (unlockCalls ?r ?nm ?lb ?f ?mk)]) _) =>
          destruct (unlockCalls_filters r nm lb f mk) as (_ & Ffree & _ & _)
      end;
      exists b, st
  end.
  do 2 eexists. split; [exact Hlock|]. split; [exact E|].
  cbn [queue heap set_queue set_boundTex2D set_tex set_heap blocks awaitReply calls pix
       pixmapOf data].
  split; [reflexivity|]. split; [reflexivity|]. split; [reflexivity|].
  split; [exact Ffree|].
  unfold unlockCalls.
  cbn [pix pixmapOf data desc w h srcDirtyRect lockedLevel bufferOffset shouldFreeBuffer].
  do 4 eexists. apply app_pair_middle.
Qed.

Lemma unpackAlign_null_pitch pitch :
  unpackAlignForAddrAndPitch 0 pitch = largestPow2UpTo8 pitch.
Proof.
  pose proof (bestAlignment_largest (mkPixmap (mkDesc 0 0 PIXEL_RGBA8888) 0 pitch)) as H.
  unfold bestAlignment in H. cbn [data pitchBytes] in H. rewrite H.
  change (largestPow2UpTo8 0) with 8.
  pose proof (largestPow2UpTo8_range pitch) as Hr. simpl in Hr. lia.
Qed.

(** X7: [unlock] applies the same level-count rule as [generateMipmaps]:
    for a buffer without a PBO it queues glGenerateMipmap exactly when the
    write flags ask for mipmaps and the dimensions are eligible, and then
    stores floor(log2(max(w,h))) + 1 levels unless storage is immutable;
    otherwise the level count is as before. *)
Theorem X7_unlock_level_count (s : World) (lockBuff : LockedTextureBuffer) (writeFlags : Z) :
  lockedBool lockBuff = true -> pbo lockBuff = 0 ->
  formatWritable (renderer s) (format (desc (pix lockBuff))) = true ->
  1 <= w (pixDesc (tex s)) <= INT_MAX -> 1 <= h (pixDesc (tex s)) <= INT_MAX ->
  let makeMipmaps :=
    flagSet writeFlags WRITE_FLAG_MAKE_MIPMAPS &&
    supportsMipmaps (textureSizeSupport (support (renderer s)))
      (w (pixDesc (tex s))) (h (pixDesc (tex s))) in
  exists s' cmd,
    unlock lockBuff writeFlags s = Done tt s' /\
    queue s' = queue s ++ [cmd] /\
    (In (glGenerateMipmap GL_TEXTURE_2D) (calls cmd) <-> makeMipmaps = true) /\
    levels_ (tex s') =
      (if makeMipmaps && negb (hasImmutableTexStorage (support (renderer s)))
       then fullChainLevels (w (pixDesc (tex s))) (h (pixDesc (tex s)))
       else levels_ (tex s)).
Proof.
  intros Hvalid Hpbo Hwr Hw Hh makeMipmaps.
  destruct (unlock_effect s lockBuff writeFlags Hvalid Hpbo Hwr) as [fmt E].
  cbv zeta in E. fold makeMipmaps in E.
  destruct (unlockCalls_filters (renderer s) (texName_ (tex s)) lockBuff fmt makeMipmaps)
    as (_ & _ & _ & Fgen).
  do 2 eexists. split; [exact E|].
  cbn [queue tex set_queue set_boundTex2D set_tex calls].
  split; [reflexivity|]. split; [exact Fgen|].
  destruct (makeMipmaps && negb (hasImmutableTexStorage (support (renderer s))));
    [|reflexivity].
  cbn [levels_]. apply generatedLevels_range; assumption.
Qed.

(** X8: the row alignment [unlock] gives the device is computed from the
    buffer's pitch alone: it is the largest power of two, at most 8, that
    divides the pitch in bytes, so rows of the staged buffer are read back to
    back; a custom row length left by an earlier write is reset to 0 when
    the backend has one. *)
Theorem X8_unlock_unpack_state (s : World) (lockBuff : LockedTextureBuffer) (writeFlags : Z) :
  lockedBool lockBuff = true -> pbo lockBuff = 0 ->
  formatWritable (renderer s) (format (desc (pix lockBuff))) = true ->
  exists s' cmd align,
    unlock lockBuff writeFlags s = Done tt s' /\
    queue s' = queue s ++ [cmd] /\
    filter isPixelStore (calls cmd) =
      glPixelStorei GL_UNPACK_ALIGNMENT align
      :: (if hasUnpackRowLength (support (renderer s))
          then [glPixelStorei GL_UNPACK_ROW_LENGTH 0] else []) /\
    align = largestPow2UpTo8 (pitchBytes (pix lockBuff)) /\
    In align [1; 2; 4; 8] /\ (align | pitchBytes (pix lockBuff)).
Proof.
  intros Hvalid Hpbo Hwr.
  destruct (unlock_effect s lockBuff writeFlags Hvalid Hpbo Hwr) as [fmt E].
  cbv zeta in E.
  match type of E with
  | _ = Done tt (set_queue (_ ++ [mkCommand false (unlockCalls ?r ?nm ?lb ?f ?mk)]) _) =>
      destruct (unlockCalls_filters r nm lb f mk) as (_ & _ & Fpix & _)
  end.
  do 3 eexists. split; [exact E|].
  cbn [queue set_queue set_boundTex2D set_tex calls].
  split; [reflexivity|]. split; [exact Fpix|].
  rewrite unpackAlign_null_pitch.
  split; [reflexivity|].
  split; [apply largestPow2UpTo8_range | apply largestPow2UpTo8_divides].
Qed.

(** X9: [lockedBuffer] wraps memory the caller owns: on a formatted texture
    it takes nothing from the host heap and returns a buffer over the given
    address covering all of level 0; unlocking that buffer uploads level 0
    from the buffer's offset 0 and never frees the caller's memory. *)
Theorem X9_lockedBuffer_is_not_freed
    (s : World) (dataPtr pitch bufferFlags writeFlags : Z) :
  levels_ (tex s) <> 0 ->
  1 <= w (pixDesc (tex s)) -> 1 <= h (pixDesc (tex s)) ->
  dataPtr <> 0 ->
  formatWritable (renderer s) (format (pixDesc (tex s))) = true ->
  exists buf s1 s2 cmd fmt dataType,
    lockedBuffer dataPtr pitch bufferFlags s = Done buf s1 /\
    blocks (heap s1) = blocks (heap s) /\ brk (heap s1) = brk (heap s) /\
    queue s1 = queue s /\
    pix buf = mkPixmap (pixDesc (tex s)) dataPtr pitch /\
    srcDirtyRect buf = mkRect 0 0 (w (pixDesc (tex s))) (h (pixDesc (tex s))) /\
    unlock buf writeFlags s1 = Done tt s2 /\
    queue s2 = queue s ++ [cmd] /\
    filter isStdFree (calls cmd) = [] /\
    filter isTexSubImage2D (calls cmd) =
      [glTexSubImage2D GL_TEXTURE_2D 0 0 0 (w (pixDesc (tex s))) (h (pixDesc (tex s)))
         fmt dataType 0].
Proof.
  intros Hl Hw Hh Hdata Hwr.
  set (buf := mkLocked 0 (mkPixmap (pixDesc (tex s)) dataPtr pitch)
                (mkRect 0 0 (w (pixDesc (tex s))) (h (pixDesc (tex s)))) 0 false 0).
  assert (Hvalid : lockedBool buf = true).
  { unfold lockedBool, pixmapBool. cbn [buf pix data].
    apply negb_true_iff, Z.eqb_neq. exact Hdata. }
  assert (Hlb : exists s1,
    lockedBuffer dataPtr pitch bufferFlags s = Done buf s1 /\
    renderer s1 = renderer s /\ tex s1 = tex s /\ queue s1 = queue s /\
    blocks (heap s1) = blocks (heap s) /\ brk (heap s1) = brk (heap s)).
  { unfold lockedBuffer, bind. rewrite size_levelDim by (try assumption; lia).
    rewrite !levelDim_zero by assumption. mrun.
    destruct (flagSet bufferFlags BUFFER_FLAG_CLEARED); mrun;
      eexists; (split; [reflexivity|]); repeat split. }
  destruct Hlb as (s1 & E1 & Hr1 & Ht1 & Hq1 & Hb1 & Hk1).
  destruct (unlock_effect s1 buf writeFlags Hvalid eq_refl) as [fmt E2].
  { cbn [buf pix desc]. rewrite Hr1. exact Hwr. }
  cbv zeta in E2.
  match type of E2 with
  | _ = Done tt (set_queue (_ ++ [mkCommand false (unlockCalls ?r ?nm ?lb ?f ?mk)]) _) =>
      destruct (unlockCalls_filters r nm lb f mk) as (Fimg & Ffree & _ & _)
  end.
  exists buf, s1. do 4 eexists.
  split; [exact E1|]. split; [exact Hb1|]. split; [exact Hk1|]. split; [exact Hq1|].
  split; [reflexivity|]. split; [reflexivity|]. split; [exact E2|].
  cbn [queue set_queue set_boundTex2D set_tex calls].
  rewrite Hq1. split; [reflexivity|]. split; [exact Ffree | exact Fimg].
Qed.

(** *** Formatting: handles, level counts and formats *)

Lemma paramCalls_no_names cs :
  forallb isParamCall cs = true ->
  filter isDeleteTextures cs = [] /\ filter isGenTextures cs = [].
Proof.
  induction cs as [|c cs IH]; [split; reflexivity|].
  cbn [forallb filter]. intros H.
  apply andb_prop in H. destruct H as [Hc Hcs].
  destruct (IH Hcs) as [IH1 IH2].
  destruct c; cbn in Hc; try discriminate; cbn; split; assumption.
Qed.

Lemma texImageCalls_no_names (f g : Z -> Z) internalFormat fmt dataType (ls : list Z) :
  let cs := map (fun i => glTexImage2D GL_TEXTURE_2D i internalFormat (f i) (g i)
                            fmt dataType) ls in
  filter isDeleteTextures cs = [] /\ filter isGenTextures cs = [].
Proof.
  induction ls as [|i ls [IH1 IH2]]; [split; reflexivity|].
  cbn. split; assumption.
Qed.

(** the texture object and the device names [setFormat] leaves, and the
    names its command deletes and generates *)
Lemma setFormat_effect (s : World) (d : PixmapDesc) (hint : Z) (cs : ColorSpace)
    (sampler : option SamplerParams) :
  1 <= w d -> 1 <= h d ->
  formatStorable (renderer s) (format d) = true ->
  let lvls :=
    if supportsMipmaps (textureSizeSupport (support (renderer s))) (w d) (h d)
    then if hint =? 0 then fls (to_unsigned (Z.lor (w d) (h d))) else hint
    else 1 in
  let renew :=
    hasImmutableTexStorage (support (renderer s)) || negb (lvls =? levels_ (tex s)) in
  to_int8 lvls <> 0 ->
  exists s' cmd,
    setFormat d hint cs sampler s = Done tt s' /\
    tex s' = mkTexture (if renew then nextTexName s else texName_ (tex s)) d (to_int8 lvls)
               (if OPENGL_SHADER_PIPELINE Config then typeForPixelFormat (format d)
                else type_ (tex s)) /\
    nextTexName s' = (if renew then nextTexName s + 1 else nextTexName s) /\
    renderer s' = renderer s /\ heap s' = heap s /\ errLog s' = errLog s /\
    drawCmds s' = drawCmds s /\
    queue s' = queue s ++ [cmd] /\ awaitReply cmd = renew /\
    filter isDeleteTextures (calls cmd) =
      (if renew && negb (texName_ (tex s) =? 0)
       then [glDeleteTextures (texName_ (tex s))] else []) /\
    filter isGenTextures (calls cmd) =
      (if renew then [glGenTextures (nextTexName s)] else []).
Proof.
  intros Hw Hh Hfmt lvls renew Hlv.
  assert (Hw0 : (w d =? 0) = false) by (apply Z.eqb_neq; lia).
  assert (Hh0 : (h d =? 0) = false) by (apply Z.eqb_neq; lia).
  apply Z.eqb_neq in Hlv.
  assert (Hext : OPENGL_TEXTURE_TARGET_EXTERNAL Config &&
                 (GL_TEXTURE_2D =? GL_TEXTURE_EXTERNAL_OES) = false)
    by (destruct (OPENGL_TEXTURE_TARGET_EXTERNAL Config); reflexivity).
  destruct (setSwizzleForFormatInGL_emits (renderer s) (format d)) as [swz [Hswz Eswz]].
  destruct (setSamplerParamsInGL_emits (renderer s)
              (match sampler with Some p => p | None => defaultSamplerParams end)
              GL_TEXTURE_2D) as [smp [Hsmp Esmp]].
  destruct (paramCalls_no_names swz Hswz) as [Dswz Gswz].
  destruct (paramCalls_no_names smp Hsmp) as [Dsmp Gsmp].
  unfold formatStorable in Hfmt. unfold renew.
  destruct (hasImmutableTexStorage (support (renderer s))) eqn:Himm; cbn [orb].
  - apply negb_true_iff in Hfmt.
    destruct (makeGLSizedInternalFormat_returns (renderer s) (format d)
                (ColorSpace_eqb (supportedColorSpace (renderer s) (format d) cs) SRGB) Hfmt)
      as [ifmt Eifmt].
    unfold setFormat. mrun. rewrite Hw0, Hh0. cbn [negb]. rewrite Himm.
    fold lvls. unfold makeGLTextureName. mrun.
    destruct (texName_ (tex s) =? 0); cbn [negb andb]; mrun;
      rewrite Eifmt; mrun; mstep_swizzle Eswz; rewrite Esmp; mrun;
      rewrite Hlv, Hext; cbn [negb];
      do 2 eexists; (split; [reflexivity|]);
      cbn [tex nextTexName renderer heap errLog drawCmds queue awaitReply calls];
      repeat (split; [reflexivity|]); cbn [calls];
      rewrite !filter_app, ?Dswz, ?Dsmp, ?Gswz, ?Gsmp; split; reflexivity.
  - apply andb_prop in Hfmt. destruct Hfmt as [Hwr Hes].
    destruct (makeGLFormat_returns (renderer s) (format d) Hwr) as [fmt Efmt].
    destruct (makeGLInternalFormat_returns (renderer s) (format d) false Hwr Hes)
      as [ifmt Eifmt].
    destruct (texImageCalls_no_names (levelDim (w d)) (levelDim (h d))
                ifmt fmt (makeGLDataType (format d)) (iotaCount lvls)) as [Dimg Gimg].
    assert (Elv : forall st,
      defineLevels ifmt fmt (makeGLDataType (format d)) (w d) (h d) (iotaCount lvls) st =
      Done tt (set_pending
                 (pending st ++
                  map (fun i => glTexImage2D GL_TEXTURE_2D i ifmt
                                  (levelDim (w d) i) (levelDim (h d) i) fmt
                                  (makeGLDataType (format d)))
                    (iotaCount lvls)) st)).
    { intros st.
      pose proof (defineLevels_emits ifmt fmt (makeGLDataType (format d)) (w d) (h d)
                    (Z.to_nat lvls) 0%nat st) as H.
      change (Z.of_nat 0) with 0 in H. rewrite !levelDim_zero in H by lia.
      apply H; lia. }
    unfold setFormat. mrun. rewrite Hw0, Hh0. cbn [negb]. rewrite Himm.
    fold lvls.
    destruct (negb (lvls =? levels_ (tex s))) eqn:Hremake.
    + unfold makeGLTextureName. mrun.
      destruct (texName_ (tex s) =? 0); cbn [negb andb]; mrun;
        rewrite Efmt, Eifmt, Elv; mrun; mstep_swizzle Eswz; rewrite Esmp; mrun;
        rewrite Hlv, Hext; cbn [negb];
        do 2 eexists; (split; [reflexivity|]);
        cbn [tex nextTexName renderer heap errLog drawCmds queue awaitReply calls];
        repeat (split; [reflexivity|]); cbn [calls];
        rewrite !filter_app, ?Dswz, ?Dsmp, ?Gswz, ?Gsmp, ?Dimg, ?Gimg; split; reflexivity.
    + rewrite Efmt, Eifmt, Elv; mrun. mstep_swizzle Eswz.
      rewrite Hlv, Hext; cbn [negb andb].
      do 2 eexists. (split; [reflexivity|]).
      cbn [tex nextTexName renderer heap errLog drawCmds queue awaitReply calls].
      repeat (split; [reflexivity|]). cbn [calls].
      rewrite !filter_app, ?Dswz, ?Gswz, ?Dimg, ?Gimg; split; reflexivity.
Qed.

Lemma iotaCount_one : iotaCount 1 = [0].
Proof. reflexivity. Qed.

(** X10: when the dimensions are not eligible for mipmaps, [setFormat]
    ignores the level hint: whatever the hint, the texture gets exactly one
    level, defined with the descriptor's full width and height (one
    glTexImage2D call for level 0, or one glTexStorage2D call with a level
    count of 1 when storage is immutable). *)
Theorem X10_setFormat_ineligible_single_level
    (s : World) (d : PixmapDesc) (hint : Z) (cs : ColorSpace)
    (sampler : option SamplerParams) :
  1 <= w d -> 1 <= h d ->
  formatStorable (renderer s) (format d) = true ->
  supportsMipmaps (textureSizeSupport (support (renderer s))) (w d) (h d) = false ->
  exists s' cmd internalFormat,
    setFormat d hint cs sampler s = Done tt s' /\
    levels_ (tex s') = 1 /\ pixDesc (tex s') = d /\
    queue s' = queue s ++ [cmd] /\
    if hasImmutableTexStorage (support (renderer s))
    then filter isTexStorage2D (calls cmd) =
           [glTexStorage2D GL_TEXTURE_2D 1 internalFormat (w d) (h d)]
    else exists fmt dataType,
           filter isTexImage2D (calls cmd) =
             [glTexImage2D GL_TEXTURE_2D 0 internalFormat (w d) (h d) fmt dataType].
Proof.
  intros Hw Hh Hfmt Hmip.
  destruct (hasImmutableTexStorage (support (renderer s))) eqn:Himm.
  - destruct (setFormat_immutable_outcome s d hint cs sampler Himm Hw Hh Hfmt)
      as (s' & cmd & ifmt & E & El & Ed & Eq & _ & _ & Est).
    { rewrite Hmip. discriminate. }
    rewrite Hmip in El, Est.
    exists s', cmd, ifmt. repeat split; assumption.
  - destruct (setFormat_mutable_outcome s d hint cs sampler Himm Hw Hh Hfmt)
      as (s' & cmd & ifmt & fmt & dt & E & El & Ed & Eq & _ & _ & _ & Eimg).
    { rewrite Hmip. discriminate. }
    rewrite Hmip in El, Eimg. rewrite iotaCount_one in Eimg. cbn [map] in Eimg.
    rewrite !levelDim_zero in Eimg by assumption.
    exists s', cmd, ifmt. repeat split; try assumption.
    exists fmt, dt. exact Eimg.
Qed.

(** X11: a nonzero level hint on eligible dimensions is stored as given and
    is not clamped to the full mip chain: the texture gets [hint] levels
    (that many glTexImage2D calls, or glTexStorage2D with that count), and
    from level floor(log2(max(w,h))) on every level is 1x1. *)
Theorem X11_setFormat_level_hint_kept
    (s : World) (d : PixmapDesc) (hint : Z) (cs : ColorSpace)
    (sampler : option SamplerParams) :
  1 <= w d -> 1 <= h d ->
  formatStorable (renderer s) (format d) = true ->
  supportsMipmaps (textureSizeSupport (support (renderer s))) (w d) (h d) = true ->
  1 <= hint <= 127 ->
  exists s' cmd internalFormat,
    setFormat d hint cs sampler s = Done tt s' /\
    levels_ (tex s') = hint /\
    queue s' = queue s ++ [cmd] /\
    (if hasImmutableTexStorage (support (renderer s))
     then filter isTexStorage2D (calls cmd) =
            [glTexStorage2D GL_TEXTURE_2D hint internalFormat (w d) (h d)]
     else List.length (filter isTexImage2D (calls cmd)) = Z.to_nat hint) /\
    forall level, fullChainLevels (w d) (h d) - 1 <= level ->
      size level s' = Done (mkWP 1 1) s'.
Proof.
  intros Hw Hh Hfmt Hmip Hhint.
  assert (Hz : (hint =? 0) = false) by (apply Z.eqb_neq; lia).
  assert (Hi8 : to_int8 hint = hint) by (apply to_int8_small; lia).
  assert (Hsize : forall s', levels_ (tex s') = hint -> pixDesc (tex s') = d ->
            forall level, fullChainLevels (w d) (h d) - 1 <= level ->
              size level s' = Done (mkWP 1 1) s').
  { intros s' El Ed level Hlevel. unfold fullChainLevels in Hlevel.
    pose proof (Z.log2_nonneg (w d)). pose proof (Z.log2_nonneg (h d)).
    rewrite log2_max in Hlevel.
    rewrite size_levelDim; rewrite ?Ed, ?El; try lia.
    rewrite !levelDim_bottom by lia. reflexivity. }
  destruct (hasImmutableTexStorage (support (renderer s))) eqn:Himm.
  - destruct (setFormat_immutable_outcome s d hint cs sampler Himm Hw Hh Hfmt)
      as (s' & cmd & ifmt & E & El & Ed & Eq & _ & _ & Est).
    { rewrite Hmip, Hz, Hi8. lia. }
    rewrite Hmip, Hz in El, Est. rewrite Hi8 in El.
    exists s', cmd, ifmt. repeat split; try assumption. apply Hsize; assumption.
  - destruct (setFormat_mutable_outcome s d hint cs sampler Himm Hw Hh Hfmt)
      as (s' & cmd & ifmt & fmt & dt & E & El & Ed & Eq & _ & _ & _ & Eimg).
    { rewrite Hmip, Hz, Hi8. lia. }
    rewrite Hmip, Hz in El, Eimg. rewrite Hi8 in El.
    exists s', cmd, ifmt. repeat split; try assumption.
    + rewrite Eimg, List.length_map. unfold iotaCount.
      rewrite List.length_map, List.length_seq. reflexivity.
    + apply Hsize; assumption.
Qed.

(** with valid dimensions and level count, [setFormat] ends in a failed
    assertion or in [bug_unreachable] in these cases of the format and no
    other *)
Lemma setFormat_aborts_cases
    (s : World) (d : PixmapDesc) (hint : Z) (cs : ColorSpace)
    (sampler : option SamplerParams) :
  1 <= w d -> 1 <= h d ->
  let lvls :=
    if supportsMipmaps (textureSizeSupport (support (renderer s))) (w d) (h d)
    then if hint =? 0 then fls (to_unsigned (Z.lor (w d) (h d))) else hint
    else 1 in
  to_int8 lvls <> 0 ->
  (aborts (setFormat d hint cs sampler s) <->
   if hasImmutableTexStorage (support (renderer s))
   then format d = PIXEL_RGB888
   else (format d = PIXEL_BGRA8888 /\ hasBGRPixels (support (renderer s)) = false) \/
        (format d = PIXEL_RGB888 /\ OPENGL_ES Config = false)).
Proof.
  intros Hw Hh lvls Hlv.
  assert (Hw0 : (w d =? 0) = false) by (apply Z.eqb_neq; lia).
  assert (Hh0 : (h d =? 0) = false) by (apply Z.eqb_neq; lia).
  destruct (formatStorable (renderer s) (format d)) eqn:Hfmt.
  - destruct (setFormat_effect s d hint cs sampler Hw Hh Hfmt Hlv) as (s' & cmd & E & _).
    rewrite E. cbn [aborts]. unfold formatStorable in Hfmt.
    destruct (hasImmutableTexStorage (support (renderer s))).
    + split; [contradiction|]. intros H. rewrite H in Hfmt. discriminate.
    + split; [contradiction|].
      intros [[H1 H2] | [H1 H2]]; rewrite H1, H2 in Hfmt; cbn in Hfmt; discriminate.
  - unfold formatStorable in Hfmt.
    assert (Hab : aborts (setFormat d hint cs sampler s)).
    { unfold setFormat. mrun. rewrite Hw0, Hh0. cbn [negb]. fold lvls.
      destruct (hasImmutableTexStorage (support (renderer s))).
      - apply negb_false_iff in Hfmt.
        destruct (format d); try discriminate.
        unfold makeGLTextureName, makeGLSizedInternalFormat. mrun.
        destruct (negb (texName_ (tex s) =? 0)); exact I.
      - unfold makeGLTextureName, makeGLFormat, makeGLInternalFormat,
          makeGLESInternalFormat, makeGLSizedInternalFormat, makeGLFormat.
        destruct (hasBGRPixels (support (renderer s))), (OPENGL_ES Config),
          (format d); cbn in Hfmt; try discriminate;
          (destruct (negb (lvls =? levels_ (tex s))); mrun;
           [destruct (negb (texName_ (tex s) =? 0))|]; exact I). }
    split; [intros _ | intros _; exact Hab].
    destruct (hasImmutableTexStorage (support (renderer s))).
    + apply negb_false_iff in Hfmt. destruct (format d); try discriminate. reflexivity.
    + destruct (hasBGRPixels (support (renderer s))), (OPENGL_ES Config),
        (format d); cbn in Hfmt; try discriminate;
        solve [left; split; reflexivity | right; split; reflexivity].
Qed.

(** X12: [setFormat] returns exactly for the formats its storage path maps.
    With valid dimensions and level count the call ends in a failed
    assertion or in [bug_unreachable] if and only if the format is not one
    of [mappedFormats]: not a case of [makeGLSizedInternalFormat] with
    immutable storage (so RGB888 aborts); with mutable storage not a case
    of [makeGLFormat], or BGRA8888 without BGR pixel support, or RGB888
    outside OpenGL ES.  A format that no switch names is in no such list. *)
Theorem X12_setFormat_aborts_iff_format_unmapped
    (s : World) (d : PixmapDesc) (hint : Z) (cs : ColorSpace)
    (sampler : option SamplerParams) :
  1 <= w d -> 1 <= h d ->
  let lvls :=
    if supportsMipmaps (textureSizeSupport (support (renderer s))) (w d) (h d)
    then if hint =? 0 then fls (to_unsigned (Z.lor (w d) (h d))) else hint
    else 1 in
  to_int8 lvls <> 0 ->
  (aborts (setFormat d hint cs sampler s) <->
   ~ In (format d) (mappedFormats (renderer s))).
Proof.
  intros Hw Hh lvls Hlv.
  rewrite (setFormat_aborts_cases s d hint cs sampler Hw Hh Hlv).
  unfold mappedFormats.
  destruct (hasImmutableTexStorage (support (renderer s))),
    (hasBGRPixels (support (renderer s))), (OPENGL_ES Config), (format d);
    cbn [app In]; (split; [intros H Hin | intros Hn]);
    try discriminate H;
    try (destruct H as [[H1 H2] | [H1 H2]]; try discriminate H1; try discriminate H2);
    try (repeat (destruct Hin as [Hin | Hin]; try discriminate Hin); contradiction);
    try reflexivity;
    try (left; split; reflexivity);
    try (right; split; reflexivity);
    try (exfalso; apply Hn; auto 12).
Qed.

(** X13: [setFormat] never leaks or loses a handle.  It takes a new name
    from the device exactly when storage is immutable or the level count
    changes; the command that does so deletes the old name first when there
    was one, and is awaited by the caller; when the name is kept, nothing is
    deleted or generated and the caller does not wait. *)
Theorem X13_setFormat_handle_replacement
    (s : World) (d : PixmapDesc) (hint : Z) (cs : ColorSpace)
    (sampler : option SamplerParams) :
  1 <= w d -> 1 <= h d ->
  formatStorable (renderer s) (format d) = true ->
  let lvls :=
    if supportsMipmaps (textureSizeSupport (support (renderer s))) (w d) (h d)
    then if hint =? 0 then fls (to_unsigned (Z.lor (w d) (h d))) else hint
    else 1 in
  let renew :=
    hasImmutableTexStorage (support (renderer s)) || negb (lvls =? levels_ (tex s)) in
  to_int8 lvls <> 0 ->
  exists s' cmd,
    setFormat d hint cs sampler s = Done tt s' /\
    queue s' = queue s ++ [cmd] /\ awaitReply cmd = renew /\
    texName_ (tex s') = (if renew then nextTexName s else texName_ (tex s)) /\
    nextTexName s' = (if renew then nextTexName s + 1 else nextTexName s) /\
    (forall n, In (glGenTextures n) (calls cmd) <-> renew = true /\ n = nextTexName s) /\
    (forall n, In (glDeleteTextures n) (calls cmd) <->
               renew = true /\ n = texName_ (tex s) /\ n <> 0).
Proof.
  intros Hw Hh Hfmt lvls renew Hlv.
  destruct (setFormat_effect s d hint cs sampler Hw Hh Hfmt Hlv)
    as (s' & cmd & E & Et & En & _ & _ & _ & _ & Eq & Ea & Edel & Egen).
  fold lvls in Et, En, Ea, Edel, Egen. fold renew in Et, En, Ea, Edel, Egen.
  exists s', cmd. split; [exact E|]. split; [exact Eq|]. split; [exact Ea|].
  split; [rewrite Et; reflexivity|]. split; [exact En|]. split.
  - intros n.
    assert (Hin : In (glGenTextures n) (calls cmd) <->
                  In (glGenTextures n) (filter isGenTextures (calls cmd)))
      by (rewrite filter_In; cbn; tauto).
    rewrite Hin, Egen. destruct renew; cbn; split.
    + intros [H | []]. injection H as <-. split; reflexivity.
    + intros [_ ->]. left. reflexivity.
    + intros [].
    + intros [H _]. discriminate.
  - intros n.
    assert (Hin : In (glDeleteTextures n) (calls cmd) <->
                  In (glDeleteTextures n) (filter isDeleteTextures (calls cmd)))
      by (rewrite filter_In; cbn; tauto).
    rewrite Hin, Edel.
    destruct renew; cbn [andb]; [|cbn; split; [intros [] | intros [H _]; discriminate]].
    destruct (texName_ (tex s) =? 0) eqn:Ez; cbn; split.
    + intros [].
    + intros (_ & -> & Hne). apply Z.eqb_eq in Ez. contradiction.
    + intros [H | []]. injection H as <-. apply Z.eqb_neq in Ez. repeat split. exact Ez.
    + intros (_ & -> & _). left. reflexivity.
Qed.

(** the state [generateMipmaps] leaves when it succeeds *)
Lemma generateMipmaps_effect (s : World) :
  texName_ (tex s) <> 0 ->
  supportsMipmaps (textureSizeSupport (support (renderer s)))
    (w (pixDesc (tex s))) (h (pixDesc (tex s))) = true ->
  exists s',
    generateMipmaps s = Done true s' /\
    texName_ (tex s') = texName_ (tex s) /\ pixDesc (tex s') = pixDesc (tex s) /\
    levels_ (tex s') = (if hasImmutableTexStorage (support (renderer s))
                        then levels_ (tex s) else generatedLevels (tex s)) /\
    queue s' = queue s ++ [mkCommand false [glBindTexture GL_TEXTURE_2D (texName_ (tex s));
                                            glGenerateMipmap GL_TEXTURE_2D]].
Proof.
  intros Hname Hs. apply Z.eqb_neq in Hname.
  unfold generateMipmaps, generatedLevels. mrun. rewrite Hname, Hs. cbn [negb].
  destruct (hasImmutableTexStorage (support (renderer s))); cbn [negb]; mrun;
    eexists; (split; [reflexivity|]); repeat split.
Qed.

(** X14: creating a texture that will generate its mipmaps, on a backend
    without immutable storage: [init] defines level 0 only, whatever level
    count the configuration asks for, and a following [generateMipmaps]
    brings the level count to floor(log2(max(w,h))) + 1 on the handle that
    [init] created. *)
Theorem X14_init_then_generateMipmaps (s : World) (config : TextureConfig) :
  hasImmutableTexStorage (support (renderer s)) = false ->
  willGenerateMipmaps config = true ->
  texName_ (tex s) = 0 -> levels_ (tex s) = 0 -> nextTexName s <> 0 ->
  1 <= w (pixmapDesc config) <= INT_MAX -> 1 <= h (pixmapDesc config) <= INT_MAX ->
  formatStorable (renderer s) (format (pixmapDesc config)) = true ->
  supportsMipmaps (textureSizeSupport (support (renderer s)))
    (w (pixmapDesc config)) (h (pixmapDesc config)) = true ->
  exists s1 s2 cmd internalFormat fmt dataType,
    init config s = Done tt s1 /\
    levels_ (tex s1) = 1 /\ texName_ (tex s1) = nextTexName s /\
    queue s1 = queue s ++ [cmd] /\
    filter isTexImage2D (calls cmd) =
      [glTexImage2D GL_TEXTURE_2D 0 internalFormat
         (w (pixmapDesc config)) (h (pixmapDesc config)) fmt dataType] /\
    generateMipmaps s1 = Done true s2 /\
    texName_ (tex s2) = nextTexName s /\
    levels_ (tex s2) = fullChainLevels (w (pixmapDesc config)) (h (pixmapDesc config)).
Proof.
  intros Himm Hgen Hname Hl Hnext Hw Hh Hfmt Hmip.
  set (d := pixmapDesc config) in *.
  destruct (setFormat_mutable_outcome s d 1 (colorSpace config) (compatSampler config)
              Himm ltac:(lia) ltac:(lia) Hfmt)
    as (s1 & cmd & ifmt & fmt & dt & E & El & Ed & Eq & _ & _ & Ename & Eimg).
  { rewrite Hmip. discriminate. }
  rewrite Hmip in El, Ename, Eimg. cbn [Z.eqb] in El, Ename, Eimg.
  rewrite Hl in Ename. cbn [Z.eqb negb] in Ename.
  rewrite iotaCount_one in Eimg. cbn [map] in Eimg.
  rewrite !levelDim_zero in Eimg by lia.
  assert (Hr1 : renderer s1 = renderer s).
  { destruct (setFormat_effect s d 1 (colorSpace config) (compatSampler config)
                ltac:(lia) ltac:(lia) Hfmt) as (s1' & cmd' & E' & _ & _ & Hr & _).
    { rewrite Hmip. discriminate. }
    rewrite E in E'. injection E' as <-. exact Hr. }
  destruct (generateMipmaps_effect s1) as (s2 & E2 & En2 & Ed2 & El2 & _).
  { rewrite Ename. exact Hnext. }
  { rewrite Hr1, Ed. exact Hmip. }
  exists s1, s2, cmd, ifmt, fmt, dt.
  split.
  { unfold init, baseInit. mrun. rewrite Hgen, Himm. cbn [andb negb]. mrun.
    cbn [pixmapDesc levels colorSpace compatSampler setLevels]. exact E. }
  split; [exact El|]. split; [exact Ename|]. split; [exact Eq|]. split; [exact Eimg|].
  split; [exact E2|]. split; [rewrite En2; exact Ename|].
  rewrite El2, Hr1, Himm.
  assert (Hx : 1 <= w (pixDesc (tex s1)) <= INT_MAX) by (rewrite Ed; exact Hw).
  assert (Hy : 1 <= h (pixDesc (tex s1)) <= INT_MAX) by (rewrite Ed; exact Hh).
  destruct (generatedLevels_range (tex s1) Hx Hy) as [Eg _].
  rewrite Eg, Ed. reflexivity.
Qed.

(** X15: [setFormat] leaves a formatted texture that can be bound: from a
    texture that was never formatted or is formatted, with positive device
    names, a descriptor within [int] and a hint of at most 127, the state it
    leaves has a nonzero handle, 1 to 127 levels and the new descriptor, and
    [bindTex] then records a bind of GL_TEXTURE_2D with that handle. *)
Theorem X15_setFormat_establishes_formatted
    (s : World) (d : PixmapDesc) (hint : Z) (cs : ColorSpace)
    (sampler : option SamplerParams) :
  0 < nextTexName s ->
  (texName_ (tex s) <> 0 \/ levels_ (tex s) = 0) ->
  (OPENGL_SHADER_PIPELINE Config = true \/ type_ (tex s) <> T2D_EXTERNAL) ->
  1 <= w d <= INT_MAX -> 1 <= h d <= INT_MAX -> 0 <= hint <= 127 ->
  formatStorable (renderer s) (format d) = true ->
  exists s',
    setFormat d hint cs sampler s = Done tt s' /\
    formatted s' /\ pixDesc (tex s') = d /\
    0 < nextTexName s' /\
    bindTex s' =
      Done tt (set_drawCmds (drawCmds s ++ [glBindTexture GL_TEXTURE_2D (texName_ (tex s'))])
                 s').
Proof.
  intros Hnext Hstate Htype Hw Hh Hhint Hfmt.
  destruct (fls_lor_fullChain _ _ Hw Hh) as [Hfls Hrange].
  set (lvls :=
    if supportsMipmaps (textureSizeSupport (support (renderer s))) (w d) (h d)
    then if hint =? 0 then fls (to_unsigned (Z.lor (w d) (h d))) else hint
    else 1).
  assert (Hlr : 1 <= lvls <= 127).
  { unfold lvls. destruct (supportsMipmaps _ _ _); [|lia].
    destruct (hint =? 0) eqn:Ez; [lia | apply Z.eqb_neq in Ez; lia]. }
  assert (Hi8 : to_int8 lvls = lvls) by (apply to_int8_small; lia).
  destruct (setFormat_effect s d hint cs sampler ltac:(lia) ltac:(lia) Hfmt)
    as (s' & cmd & E & Et & En & _ & _ & _ & Edc & _).
  { fold lvls. lia. }
  fold lvls in Et, En. rewrite Hi8 in Et.
  assert (Hname : texName_ (tex s') <> 0).
  { rewrite Et. cbn [texName_].
    destruct (hasImmutableTexStorage (support (renderer s))); cbn [orb]; [lia|].
    destruct (lvls =? levels_ (tex s)) eqn:Eeq; cbn [negb]; [|lia].
    apply Z.eqb_eq in Eeq. destruct Hstate as [H | H]; [exact H | lia]. }
  assert (Hty : TextureType_eqb (type_ (tex s')) T2D_EXTERNAL = false).
  { rewrite Et. cbn [type_].
    destruct (OPENGL_SHADER_PIPELINE Config).
    - unfold typeForPixelFormat.
      destruct (PixelFormatID_eqb (format d) PIXEL_A8); [reflexivity|].
      destruct (PixelFormatID_eqb (format d) PIXEL_IA88); reflexivity.
    - destruct Htype as [H | H]; [discriminate|].
      destruct (type_ (tex s)); try reflexivity. contradiction. }
  exists s'. split; [exact E|]. split.
  { unfold formatted. rewrite Et. cbn [texName_ levels_ pixDesc].
    rewrite Et in Hname. cbn [texName_] in Hname. repeat split; try assumption; lia. }
  split; [rewrite Et; reflexivity|].
  split; [rewrite En; destruct (_ || _); lia|].
  apply Z.eqb_neq in Hname.
  unfold bindTex. mrun. rewrite Hname, Hty, andb_false_r, Edc. reflexivity.
Qed.

(** *** Writing: what each path queues *)

Lemma write_direct_effect (s : World) (level : Z) (pixmap : PixmapView) (destPos : WP)
    (flags : Z) :
  texName_ (tex s) <> 0 -> levels_ (tex s) <> 0 ->
  1 <= w (pixDesc (tex s)) -> 1 <= h (pixDesc (tex s)) -> 0 <= level ->
  px destPos + w (desc pixmap) <= levelDim (w (pixDesc (tex s))) level ->
  py destPos + h (desc pixmap) <= levelDim (h (pixDesc (tex s))) level ->
  bytesPerPixel (format (desc pixmap)) = bytesPerPixel (format (pixDesc (tex s))) ->
  formatWritable (renderer s) (format (desc pixmap)) = true ->
  hasUnpackRowLength (support (renderer s)) || negb (isPadded pixmap) = true ->
  let makeMipmaps :=
    flagSet flags WRITE_FLAG_MAKE_MIPMAPS &&
    supportsMipmaps (textureSizeSupport (support (renderer s)))
      (w (pixDesc (tex s))) (h (pixDesc (tex s))) in
  exists fmt,
    write level pixmap destPos flags s =
    Done tt
      (set_tex (levelsAfterUpload s makeMipmaps)
         (set_queue (queue s ++ [mkCommand (negb (flagSet flags WRITE_FLAG_ASYNC))
                                   (directWriteCalls (renderer s) (texName_ (tex s)) level
                                      pixmap destPos (bestAlignment pixmap) fmt
                                      makeMipmaps)])
            (set_boundTex2D (texName_ (tex s)) s))).
Proof.
  intros Hname Hl Hw Hh Hlevel Hx Hy Hbpp Hwr Hdirect makeMipmaps.
  destruct (makeGLFormat_returns (renderer s) (format (desc pixmap)) Hwr) as [fmt Efmt].
  exists fmt.
  apply Z.eqb_neq in Hname. apply Z.leb_le in Hx, Hy. apply Z.eqb_eq in Hbpp.
  unfold write, writeAligned, directWriteCalls, levelsAfterUpload, generatedLevels. mrun.
  rewrite Hname.
  rewrite size_levelDim by assumption. cbn [px py]. rewrite Hx.
  rewrite size_levelDim by assumption. cbn [px py]. rewrite Hy, Hbpp.
  rewrite write_checks_pass. cbn [negb].
  rewrite Hdirect. fold makeMipmaps.
  assert (Hal : (if bestAlignment pixmap =? 0
                 then unpackAlignForAddrAndPitch (data pixmap) (pitchBytes pixmap)
                 else bestAlignment pixmap) = bestAlignment pixmap)
    by (destruct (bestAlignment pixmap =? 0); reflexivity).
  rewrite Hal.
  destruct (hasImmutableTexStorage (support (renderer s))) eqn:Himm;
    destruct (hasUnpackRowLength (support (renderer s))); mrun;
    rewrite Efmt; mrun;
    destruct makeMipmaps;
    mrun; rewrite ?Himm; cbn [negb andb]; mrun; reflexivity.
Qed.

Lemma directWriteCalls_filters r name level pixmap destPos align fmt mk :
  filter isTexSubImage2D (directWriteCalls r name level pixmap destPos align fmt mk) =
    [glTexSubImage2D GL_TEXTURE_2D level (px destPos) (py destPos)
       (w (desc pixmap)) (h (desc pixmap)) fmt
       (makeGLDataType (format (desc pixmap))) (data pixmap)] /\
  filter isStdFree (directWriteCalls r name level pixmap destPos align fmt mk) = [] /\
  filter isPixelStore (directWriteCalls r name level pixmap destPos align fmt mk) =
    glPixelStorei GL_UNPACK_ALIGNMENT align
    :: (if hasUnpackRowLength (support r)
        then [glPixelStorei GL_UNPACK_ROW_LENGTH (pitchPixels pixmap)] else []) /\
  (In (glGenerateMipmap GL_TEXTURE_2D)
      (directWriteCalls r name level pixmap destPos align fmt mk) <-> mk = true).
Proof.
  unfold directWriteCalls.
  destruct (hasUnpackRowLength (support r)), mk;
    cbn; (split; [reflexivity|]); (split; [reflexivity|]); (split; [reflexivity|]);
    split; intros H; try reflexivity; try discriminate;
    repeat match goal with
           | H : _ \/ _ |- _ => destruct H as [H | H]
           end; try discriminate; try contradiction; auto 10.
Qed.

Lemma levelsAfterUpload_levels (s : World) (mk : bool) :
  1 <= w (pixDesc (tex s)) <= INT_MAX -> 1 <= h (pixDesc (tex s)) <= INT_MAX ->
  levels_ (levelsAfterUpload s mk) =
    (if mk && negb (hasImmutableTexStorage (support (renderer s)))
     then fullChainLevels (w (pixDesc (tex s))) (h (pixDesc (tex s)))
     else levels_ (tex s)).
Proof.
  intros Hw Hh. unfold levelsAfterUpload.
  destruct (mk && negb (hasImmutableTexStorage (support (renderer s)))); [|reflexivity].
  cbn [levels_]. apply generatedLevels_range; assumption.
Qed.

(** X16: a write on the direct path hands the device the caller's own
    memory: its one command reads the pixmap's address in place and frees
    nothing, sets the unpack alignment to [bestAlignment] and, when the
    backend has one, the row length to the pitch in pixels; the caller waits
    for the command unless WRITE_FLAG_ASYNC is set. *)
Theorem X16_direct_write_command
    (s : World) (level : Z) (pixmap : PixmapView) (destPos : WP) (flags : Z) :
  texName_ (tex s) <> 0 -> levels_ (tex s) <> 0 ->
  1 <= w (pixDesc (tex s)) -> 1 <= h (pixDesc (tex s)) -> 0 <= level ->
  px destPos + w (desc pixmap) <= levelDim (w (pixDesc (tex s))) level ->
  py destPos + h (desc pixmap) <= levelDim (h (pixDesc (tex s))) level ->
  bytesPerPixel (format (desc pixmap)) = bytesPerPixel (format (pixDesc (tex s))) ->
  formatWritable (renderer s) (format (desc pixmap)) = true ->
  hasUnpackRowLength (support (renderer s)) || negb (isPadded pixmap) = true ->
  exists s' cmd fmt dataType,
    write level pixmap destPos flags s = Done tt s' /\
    queue s' = queue s ++ [cmd] /\
    awaitReply cmd = negb (flagSet flags WRITE_FLAG_ASYNC) /\
    filter isTexSubImage2D (calls cmd) =
      [glTexSubImage2D GL_TEXTURE_2D level (px destPos) (py destPos)
         (w (desc pixmap)) (h (desc pixmap)) fmt dataType (data pixmap)] /\
    filter isStdFree (calls cmd) = [] /\
    filter isPixelStore (calls cmd) =
      glPixelStorei GL_UNPACK_ALIGNMENT (bestAlignment pixmap)
      :: (if hasUnpackRowLength (support (renderer s))
          then [glPixelStorei GL_UNPACK_ROW_LENGTH (pitchPixels pixmap)] else []) /\
    heap s' = heap s.
Proof.
  intros Hname Hl Hw Hh Hlevel Hx Hy Hbpp Hwr Hdirect.
  destruct (write_direct_effect s level pixmap destPos flags Hname Hl Hw Hh Hlevel
              Hx Hy Hbpp Hwr Hdirect) as [fmt E].
  cbv zeta in E.
  match type of E with
  | _ = Done tt (set_tex _ (set_queue (_ ++ [mkCommand _
                   (directWriteCalls ?r ?nm ?lv ?pm ?dp ?al ?f ?mk)]) _)) =>
      destruct (directWriteCalls_filters r nm lv pm dp al f mk) as (Fimg & Ffree & Fpix & _)
  end.
  do 4 eexists. split; [exact E|].
  cbn [queue heap set_tex set_queue set_boundTex2D].
  split; [reflexivity|]. cbn [awaitReply calls].
  split; [reflexivity|]. split; [exact Fimg|]. split; [exact Ffree|].
  split; [exact Fpix | reflexivity].
Qed.

Lemma write_staged_effect (s : World) (level : Z) (pixmap : PixmapView) (destPos : WP)
    (flags : Z) :
  texName_ (tex s) <> 0 -> levels_ (tex s) <> 0 ->
  1 <= w (pixDesc (tex s)) -> 1 <= h (pixDesc (tex s)) -> 0 <= level ->
  px destPos + w (desc pixmap) <= levelDim (w (pixDesc (tex s))) level ->
  py destPos + h (desc pixmap) <= levelDim (h (pixDesc (tex s))) level ->
  bytesPerPixel (format (desc pixmap)) = bytesPerPixel (format (pixDesc (tex s))) ->
  formatWritable (renderer s) (format (pixDesc (tex s))) = true ->
  hasUnpackRowLength (support (renderer s)) || negb (isPadded pixmap) = false ->
  0 <= w (desc pixmap) -> 0 <= h (desc pixmap) ->
  let n := w (desc pixmap) * bytesPerPixel (format (desc pixmap)) * h (desc pixmap) in
  n <= INT_MAX ->
  heapFits n (heap s) = true ->
  let makeMipmaps :=
    flagSet flags WRITE_FLAG_MAKE_MIPMAPS &&
    supportsMipmaps (textureSizeSupport (support (renderer s)))
      (w (pixDesc (tex s))) (h (pixDesc (tex s))) in
  let lockRect := rectOffset (rectOfSize (pixmapSize pixmap)) destPos in
  let buf :=
    mkLocked (brk (heap s))
      (pixmapOf (mkDesc (xSize lockRect) (ySize lockRect) (format (pixDesc (tex s))))
         (brk (heap s))) lockRect level true 0 in
  exists s' fmt,
    write level pixmap destPos flags s = Done tt s' /\
    tex s' = levelsAfterUpload s makeMipmaps /\
    blocks (heap s') = (brk (heap s), n) :: blocks (heap s) /\
    queue s' = queue s ++ [mkCommand false
                             (unlockCalls (renderer s) (texName_ (tex s)) buf fmt
                                makeMipmaps)].
Proof.
  intros Hname Hl Hw Hh Hlevel Hx Hy Hbpp Hwr Hstaged Hpw Hph n Hfits Hfit
         makeMipmaps lockRect buf.
  assert (Hxs : xSize lockRect = w (desc pixmap)) by (unfold xSize; cbn; lia).
  assert (Hys : ySize lockRect = h (desc pixmap)) by (unfold ySize; cbn; lia).
  assert (Hint : INT_MIN <= xSize lockRect * ySize lockRect <= INT_MAX)
    by (rewrite Hxs, Hys; apply pixmap_pixels_fit_int; assumption).
  assert (Hn : pixelBytes (format (pixDesc (tex s))) (xSize lockRect * ySize lockRect) = n).
  { unfold pixelBytes, n. rewrite Hxs, Hys, Hbpp. ring. }
  pose proof (lock_outcome s level lockRect 0 Hname Hl Hw Hh Hlevel) as Hlock.
  cbv zeta in Hlock. rewrite Hn, flagSet_zero, Hfit in Hlock.
  assert (Hx' : rx2 lockRect <= levelDim (w (pixDesc (tex s))) level) by (cbn; lia).
  assert (Hy' : ry2 lockRect <= levelDim (h (pixDesc (tex s))) level) by (cbn; lia).
  specialize (Hlock Hx' Hy' Hint). fold buf in Hlock.
  assert (Hvalid : lockedBool buf = true).
  { unfold lockedBool, pixmapBool. cbn [buf pix pixmapOf data].
    rewrite (heapFits_brk_nonzero _ _ Hfit). reflexivity. }
  apply Z.eqb_neq in Hname. apply Z.leb_le in Hx, Hy.
  pose proof Hbpp as Hbpp'. apply Z.eqb_eq in Hbpp'.
  unfold write, writeAligned. mrun. rewrite Hname.
  rewrite size_levelDim by assumption. cbn [px py]. rewrite Hx.
  rewrite size_levelDim by assumption. cbn [px py]. rewrite Hy, Hbpp'.
  rewrite write_checks_pass. cbn [negb].
  rewrite Hstaged. fold lockRect. rewrite Hlock. rewrite Hvalid. cbn [negb].
  mrun. cbn [buf pix pixmapOf desc format]. rewrite Hbpp'. mrun.
  cbn [mem brk heapEnd blocks]. fold buf.
  match goal with
  | |- context [unlock ?b ?f ?st] =>
      destruct (unlock_effect st b f Hvalid eq_refl) as [fmt E]; [exact Hwr|]
  end.
  cbv zeta in E. cbn [renderer tex] in E. fold makeMipmaps in E.
  rewrite E. do 2 eexists. split; [reflexivity|].
  cbn [tex heap queue set_queue set_boundTex2D set_tex blocks].
  repeat split.
Qed.

(** X17: a write on the staged path, of a pixmap of non-negative size at a
    non-negative position whose byte count is that of an [int], never hands
    the device the caller's memory and is never awaited, whatever
    WRITE_FLAG_ASYNC says: when the host allocation succeeds, its one command uploads the written rectangle
    from the freshly allocated block, frees that block once, and sets the
    unpack alignment from the tightly packed row (width x bytes per pixel),
    not from the caller's pitch. *)
Theorem X17_staged_write_command
    (s : World) (level : Z) (pixmap : PixmapView) (destPos : WP) (flags : Z) :
  texName_ (tex s) <> 0 -> levels_ (tex s) <> 0 ->
  1 <= w (pixDesc (tex s)) -> 1 <= h (pixDesc (tex s)) -> 0 <= level ->
  0 <= px destPos -> 0 <= py destPos ->
  0 <= w (desc pixmap) -> 0 <= h (desc pixmap) ->
  px destPos + w (desc pixmap) <= levelDim (w (pixDesc (tex s))) level ->
  py destPos + h (desc pixmap) <= levelDim (h (pixDesc (tex s))) level ->
  bytesPerPixel (format (desc pixmap)) = bytesPerPixel (format (pixDesc (tex s))) ->
  formatWritable (renderer s) (format (pixDesc (tex s))) = true ->
  hasUnpackRowLength (support (renderer s)) || negb (isPadded pixmap) = false ->
  w (desc pixmap) * bytesPerPixel (format (desc pixmap)) * h (desc pixmap) <= INT_MAX ->
  heapFits (w (desc pixmap) * bytesPerPixel (format (desc pixmap)) * h (desc pixmap))
    (heap s) = true ->
  exists s' cmd fmt dataType,
    write level pixmap destPos flags s = Done tt s' /\
    queue s' = queue s ++ [cmd] /\
    awaitReply cmd = false /\
    filter isTexSubImage2D (calls cmd) =
      [glTexSubImage2D GL_TEXTURE_2D level (px destPos) (py destPos)
         (w (desc pixmap)) (h (desc pixmap)) fmt dataType (brk (heap s))] /\
    filter isStdFree (calls cmd) = [stdFree (brk (heap s))] /\
    filter isPixelStore (calls cmd) =
      [glPixelStorei GL_UNPACK_ALIGNMENT
         (largestPow2UpTo8 (w (desc pixmap) * bytesPerPixel (format (desc pixmap))))] /\
    blocks (heap s') =
      (brk (heap s),
       w (desc pixmap) * bytesPerPixel (format (desc pixmap)) * h (desc pixmap))
      :: blocks (heap s).
Proof.
  intros Hname Hl Hw Hh Hlevel Hpx Hpy Hpw Hph Hx Hy Hbpp Hwr Hstaged Hfits Hfit.
  destruct (write_staged_effect s level pixmap destPos flags Hname Hl Hw Hh Hlevel
              Hx Hy Hbpp Hwr Hstaged Hpw Hph Hfits Hfit) as (s' & fmt & E & _ & Eb & Eq).
  cbv zeta in Eq.
  match type of Eq with
  | _ = _ ++ [mkCommand _ (unlockCalls ?r ?nm ?b ?f ?mk)] =>
      destruct (unlockCalls_filters r nm b f mk) as (Fimg & Ffree & Fpix & _);
      set (cs := unlockCalls r nm b f mk) in *
  end.
  cbn [lockedLevel srcDirtyRect pix bufferOffset shouldFreeBuffer pixmapOf desc data
       pitchBytes w h format rx ry rx2 ry2 rectOffset rectOfSize pixmapSize px py]
    in Fimg, Ffree, Fpix.
  rewrite unpackAlign_null_pitch in Fpix.
  apply orb_false_iff in Hstaged. destruct Hstaged as [Hrl _]. rewrite Hrl in Fpix.
  unfold xSize, ySize, pixelBytes in Fimg, Fpix.
  cbn [rx ry rx2 ry2 rectOffset rectOfSize pixmapSize px py] in Fimg, Fpix.
  replace (w (desc pixmap) + px destPos - (0 + px destPos)) with (w (desc pixmap))
    in Fimg, Fpix by lia.
  replace (h (desc pixmap) + py destPos - (0 + py destPos)) with (h (desc pixmap))
    in Fimg by lia.
  rewrite <- Hbpp in Fpix.
  change (0 + px destPos) with (px destPos) in Fimg.
  change (0 + py destPos) with (py destPos) in Fimg.
  exists s'. do 3 eexists. split; [exact E|].
  split; [exact Eq|]. cbn [awaitReply calls].
  split; [reflexivity|]. split; [exact Fimg|]. split; [exact Ffree|].
  split; [exact Fpix | exact Eb].
Qed.

(** X18: [write] changes the level count only by regenerating mipmaps: for
    a pixmap of non-negative size at a non-negative position, on the direct
    path, and on the staged path when the byte count is that of an [int]
    and the host allocation succeeds, once the upload is queued, the count is the full chain for
    the base size when WRITE_FLAG_MAKE_MIPMAPS is set, the size is eligible
    and storage is not immutable, and is unchanged otherwise; the queued
    command generates mipmaps exactly when the flag is set and the size is
    eligible, immutable storage or not. *)
Theorem X18_write_level_count
    (s : World) (level : Z) (pixmap : PixmapView) (destPos : WP) (flags : Z) :
  texName_ (tex s) <> 0 -> levels_ (tex s) <> 0 ->
  1 <= w (pixDesc (tex s)) <= INT_MAX -> 1 <= h (pixDesc (tex s)) <= INT_MAX ->
  0 <= level ->
  0 <= px destPos -> 0 <= py destPos ->
  0 <= w (desc pixmap) -> 0 <= h (desc pixmap) ->
  px destPos + w (desc pixmap) <= levelDim (w (pixDesc (tex s))) level ->
  py destPos + h (desc pixmap) <= levelDim (h (pixDesc (tex s))) level ->
  bytesPerPixel (format (desc pixmap)) = bytesPerPixel (format (pixDesc (tex s))) ->
  formatWritable (renderer s) (format (desc pixmap)) = true ->
  formatWritable (renderer s) (format (pixDesc (tex s))) = true ->
  hasUnpackRowLength (support (renderer s)) || negb (isPadded pixmap) = true \/
  w (desc pixmap) * bytesPerPixel (format (desc pixmap)) * h (desc pixmap) <= INT_MAX /\
  heapFits (w (desc pixmap) * bytesPerPixel (format (desc pixmap)) * h (desc pixmap))
    (heap s) = true ->
  let makeMipmaps :=
    flagSet flags WRITE_FLAG_MAKE_MIPMAPS &&
    supportsMipmaps (textureSizeSupport (support (renderer s)))
      (w (pixDesc (tex s))) (h (pixDesc (tex s))) in
  exists s' cmd,
    write level pixmap destPos flags s = Done tt s' /\
    queue s' = queue s ++ [cmd] /\
    (In (glGenerateMipmap GL_TEXTURE_2D) (calls cmd) <-> makeMipmaps = true) /\
    levels_ (tex s') =
      (if makeMipmaps && negb (hasImmutableTexStorage (support (renderer s)))
       then fullChainLevels (w (pixDesc (tex s))) (h (pixDesc (tex s)))
       else levels_ (tex s)).
Proof.
  intros Hname Hl Hw Hh Hlevel Hpx Hpy Hpw Hph Hx Hy Hbpp Hwrp Hwrt Hpath makeMipmaps.
  assert (Hw1 : 1 <= w (pixDesc (tex s))) by lia.
  assert (Hh1 : 1 <= h (pixDesc (tex s))) by lia.
  destruct (hasUnpackRowLength (support (renderer s)) || negb (isPadded pixmap))
    eqn:Hdirect.
  - destruct (write_direct_effect s level pixmap destPos flags Hname Hl Hw1 Hh1 Hlevel
                Hx Hy Hbpp Hwrp Hdirect) as [fmt E].
    cbv zeta in E. fold makeMipmaps in E.
    match type of E with
    | _ = Done tt (set_tex _ (set_queue (_ ++ [mkCommand _
                     (directWriteCalls ?r ?nm ?lv ?pm ?dp ?al ?f ?mk)]) _)) =>
        destruct (directWriteCalls_filters r nm lv pm dp al f mk) as (_ & _ & _ & Fgen)
    end.
    do 2 eexists. split; [exact E|].
    cbn [queue tex set_tex set_queue set_boundTex2D].
    split; [reflexivity|]. cbn [calls].
    split; [exact Fgen|]. apply levelsAfterUpload_levels; assumption.
  - destruct Hpath as [Hp | [Hfits Hfit]]; [discriminate|].
    destruct (write_staged_effect s level pixmap destPos flags Hname Hl Hw1 Hh1 Hlevel
                Hx Hy Hbpp Hwrt Hdirect Hpw Hph Hfits Hfit) as (s' & fmt & E & Et & _ & Eq).
    cbv zeta in Eq, Et. fold makeMipmaps in Eq, Et.
    match type of Eq with
    | _ = _ ++ [mkCommand _ (unlockCalls ?r ?nm ?b ?f ?mk)] =>
        destruct (unlockCalls_filters r nm b f mk) as (_ & _ & _ & Fgen)
    end.
    exists s'. eexists. split; [exact E|].
    split; [exact Eq|]. cbn [calls].
    split; [exact Fgen|]. rewrite Et. apply levelsAfterUpload_levels; assumption.
Qed.

(** *** Writing: the guards of [writeAligned] *)

(** X19: on a formatted texture [writeAligned] clips nothing and converts
    nothing: with a destination and a pixmap size whose sums on each axis
    are in the range of [int], a pixmap that reaches past the level's width, then one past its
    height, then one whose pixel size differs from the texture's, fails the
    corresponding assertion, and a data address that is not a multiple of
    the alignment the caller asserted reaches [bug_unreachable]; in each
    case the call aborts, so nothing is queued. *)
Theorem X19_writeAligned_guards
    (s : World) (level : Z) (pixmap : PixmapView) (destPos : WP)
    (assumeAlign : Z) (flags : Z) :
  texName_ (tex s) <> 0 -> levels_ (tex s) <> 0 ->
  1 <= w (pixDesc (tex s)) -> 1 <= h (pixDesc (tex s)) -> 0 <= level ->
  INT_MIN <= px destPos + w (desc pixmap) <= INT_MAX ->
  INT_MIN <= py destPos + h (desc pixmap) <= INT_MAX ->
  let inX := px destPos + w (desc pixmap) <= levelDim (w (pixDesc (tex s))) level in
  let inY := py destPos + h (desc pixmap) <= levelDim (h (pixDesc (tex s))) level in
  let sameBpp :=
    bytesPerPixel (format (desc pixmap)) = bytesPerPixel (format (pixDesc (tex s))) in
  (~ inX ->
   writeAligned level pixmap destPos assumeAlign flags s =
   ContractViolation "destPos.x + pixmap.w() <= size(level).x") /\
  (inX -> ~ inY ->
   writeAligned level pixmap destPos assumeAlign flags s =
   ContractViolation "destPos.y + pixmap.h() <= size(level).y") /\
  (inX -> inY -> ~ sameBpp ->
   writeAligned level pixmap destPos assumeAlign flags s =
   ContractViolation
     "pixmap.format().bytesPerPixel() == pixDesc.format().bytesPerPixel()") /\
  (inX -> inY -> sameBpp -> assumeAlign <> 0 ->
   data pixmap mod to_uintptr assumeAlign <> 0 ->
   writeAligned level pixmap destPos assumeAlign flags s =
   BugUnreachable "expected data from address %p to be aligned to %u bytes").
Proof.
  intros Hname Hl Hw Hh Hlevel Hsx Hsy inX inY sameBpp. subst inX inY sameBpp.
  apply Z.eqb_neq in Hname.
  repeat split.
  - intros Hx. apply Z.nle_gt, Z.leb_gt in Hx.
    unfold writeAligned. mrun. rewrite Hname.
    rewrite size_levelDim by assumption. cbn [px py]. rewrite Hx. reflexivity.
  - intros Hx Hy. apply Z.leb_le in Hx. apply Z.nle_gt, Z.leb_gt in Hy.
    unfold writeAligned. mrun. rewrite Hname.
    rewrite size_levelDim by assumption. cbn [px py]. rewrite Hx.
    rewrite size_levelDim by assumption. cbn [px py]. rewrite Hy. reflexivity.
  - intros Hx Hy Hb. apply Z.leb_le in Hx, Hy. apply Z.eqb_neq in Hb.
    unfold writeAligned. mrun. rewrite Hname.
    rewrite size_levelDim by assumption. cbn [px py]. rewrite Hx.
    rewrite size_levelDim by assumption. cbn [px py]. rewrite Hy, Hb. reflexivity.
  - intros Hx Hy Hb Ha Hmis. apply Z.leb_le in Hx, Hy. apply Z.eqb_eq in Hb.
    apply Z.eqb_neq in Ha, Hmis.
    unfold writeAligned. mrun. rewrite Hname.
    rewrite size_levelDim by assumption. cbn [px py]. rewrite Hx.
    rewrite size_levelDim by assumption. cbn [px py]. rewrite Hy, Hb.
    rewrite Ha, Hmis. reflexivity.
Qed.

Lemma writeAligned_zero_is_write (level : Z) (pixmap : PixmapView) (destPos : WP)
    (flags : Z) (s : World) :
  writeAligned level pixmap destPos 0 flags s = write level pixmap destPos flags s.
Proof.
  unfold write, writeAligned, bestAlignment.
  change (0 =? 0) with true. cbv iota.
  destruct (unpackAlignForAddrAndPitch (data pixmap) (pitchBytes pixmap) =? 0);
    reflexivity.
Qed.

Lemma writeAligned_direct_effect (s : World) (level : Z) (pixmap : PixmapView)
    (destPos : WP) (assumeAlign : Z) (flags : Z) :
  texName_ (tex s) <> 0 -> levels_ (tex s) <> 0 ->
  1 <= w (pixDesc (tex s)) -> 1 <= h (pixDesc (tex s)) -> 0 <= level ->
  px destPos + w (desc pixmap) <= levelDim (w (pixDesc (tex s))) level ->
  py destPos + h (desc pixmap) <= levelDim (h (pixDesc (tex s))) level ->
  bytesPerPixel (format (desc pixmap)) = bytesPerPixel (format (pixDesc (tex s))) ->
  formatWritable (renderer s) (format (desc pixmap)) = true ->
  hasUnpackRowLength (support (renderer s)) || negb (isPadded pixmap) = true ->
  assumeAlign <> 0 -> data pixmap mod to_uintptr assumeAlign = 0 ->
  let makeMipmaps :=
    flagSet flags WRITE_FLAG_MAKE_MIPMAPS &&
    supportsMipmaps (textureSizeSupport (support (renderer s)))
      (w (pixDesc (tex s))) (h (pixDesc (tex s))) in
  exists fmt,
    writeAligned level pixmap destPos assumeAlign flags s =
    Done tt
      (set_tex (levelsAfterUpload s makeMipmaps)
         (set_queue (queue s ++ [mkCommand (negb (flagSet flags WRITE_FLAG_ASYNC))
                                   (directWriteCalls (renderer s) (texName_ (tex s)) level
                                      pixmap destPos assumeAlign fmt makeMipmaps)])
            (set_boundTex2D (texName_ (tex s)) s))).
Proof.
  intros Hname Hl Hw Hh Hlevel Hx Hy Hbpp Hwr Hdirect Ha Hal makeMipmaps.
  destruct (makeGLFormat_returns (renderer s) (format (desc pixmap)) Hwr) as [fmt Efmt].
  exists fmt.
  apply Z.eqb_neq in Hname, Ha. apply Z.leb_le in Hx, Hy. apply Z.eqb_eq in Hbpp, Hal.
  unfold writeAligned, directWriteCalls, levelsAfterUpload, generatedLevels. mrun.
  rewrite Hname.
  rewrite size_levelDim by assumption. cbn [px py]. rewrite Hx.
  rewrite size_levelDim by assumption. cbn [px py]. rewrite Hy, Hbpp.
  rewrite Ha, Hal. cbn [negb].
  rewrite Hdirect. fold makeMipmaps.
  destruct (hasImmutableTexStorage (support (renderer s))) eqn:Himm;
    destruct (hasUnpackRowLength (support (renderer s))); mrun;
    rewrite Efmt; mrun;
    destruct makeMipmaps;
    mrun; rewrite ?Himm; cbn [negb andb]; mrun; reflexivity.
Qed.

(** X20: the alignment argument of [writeAligned]. Passing 0 is [write];
    a nonzero alignment is taken on trust: it is checked against the data
    address only, not against the pitch and not for being 1, 2, 4 or 8, and
    on the direct path it is the value the queued command sets as the
    unpack alignment. *)
Theorem X20_writeAligned_alignment
    (s : World) (level : Z) (pixmap : PixmapView) (destPos : WP)
    (assumeAlign : Z) (flags : Z) :
  texName_ (tex s) <> 0 -> levels_ (tex s) <> 0 ->
  1 <= w (pixDesc (tex s)) -> 1 <= h (pixDesc (tex s)) -> 0 <= level ->
  px destPos + w (desc pixmap) <= levelDim (w (pixDesc (tex s))) level ->
  py destPos + h (desc pixmap) <= levelDim (h (pixDesc (tex s))) level ->
  bytesPerPixel (format (desc pixmap)) = bytesPerPixel (format (pixDesc (tex s))) ->
  formatWritable (renderer s) (format (desc pixmap)) = true ->
  hasUnpackRowLength (support (renderer s)) || negb (isPadded pixmap) = true ->
  0 < assumeAlign <= INT_MAX -> data pixmap mod assumeAlign = 0 ->
  writeAligned level pixmap destPos 0 flags s = write level pixmap destPos flags s /\
  exists s' cmd,
    writeAligned level pixmap destPos assumeAlign flags s = Done tt s' /\
    queue s' = queue s ++ [cmd] /\
    filter isPixelStore (calls cmd) =
      glPixelStorei GL_UNPACK_ALIGNMENT assumeAlign
      :: (if hasUnpackRowLength (support (renderer s))
          then [glPixelStorei GL_UNPACK_ROW_LENGTH (pitchPixels pixmap)] else []) /\
    filter isTexSubImage2D (calls cmd) <> [] /\
    filter isStdFree (calls cmd) = [].
Proof.
  intros Hname Hl Hw Hh Hlevel Hx Hy Hbpp Hwr Hdirect Ha Hal.
  split; [apply writeAligned_zero_is_write|].
  assert (Hptr : to_uintptr assumeAlign = assumeAlign).
  { unfold to_uintptr. apply Z.mod_small. unfold INT_MAX in Ha. lia. }
  assert (Ha0 : assumeAlign <> 0) by lia.
  rewrite <- Hptr in Hal.
  destruct (writeAligned_direct_effect s level pixmap destPos assumeAlign flags
              Hname Hl Hw Hh Hlevel Hx Hy Hbpp Hwr Hdirect Ha0 Hal) as [fmt E].
  cbv zeta in E.
  match type of E with
  | _ = Done tt (set_tex _ (set_queue (_ ++ [mkCommand _
                   (directWriteCalls ?r ?nm ?lv ?pm ?dp ?al ?f ?mk)]) _)) =>
      destruct (directWriteCalls_filters r nm lv pm dp al f mk) as (Fimg & Ffree & Fpix & _)
  end.
  do 2 eexists. split; [exact E|].
  cbn [queue set_tex set_queue set_boundTex2D].
  split; [reflexivity|]. cbn [calls].
  split; [exact Fpix|]. split; [rewrite Fimg; discriminate | exact Ffree].
Qed.

(** *** The generated chain ends at the first 1x1 level *)

Lemma levelDim_one (d level : Z) :
  1 <= d -> 0 <= level -> (levelDim d level = 1 <-> Z.log2 d <= level).
Proof.
  intros Hd Hlevel. unfold levelDim.
  assert (Hp : 0 < 2 ^ level) by (apply Z.pow_pos_nonneg; lia).
  assert (Hpow : 2 ^ (level + 1) = 2 * 2 ^ level)
    by (rewrite Z.pow_add_r by lia; change (2 ^ 1) with 2; ring).
  pose proof (Z.log2_lt_pow2 d (level + 1) ltac:(lia)) as Hlog.
  rewrite Hpow in Hlog.
  split; intros H.
  - assert (Hlt : d < 2 * 2 ^ level).
    { destruct (Z_lt_le_dec d (2 * 2 ^ level)) as [Hlt | Hge]; [exact Hlt|].
      assert (2 <= d / 2 ^ level) by (apply Z.div_le_lower_bound; lia). lia. }
    apply Hlog in Hlt. lia.
  - assert (Hlt : d < 2 * 2 ^ level) by (apply Hlog; lia).
    assert (d / 2 ^ level < 2) by (apply Z.div_lt_upper_bound; lia).
    lia.
Qed.

(** X21: mipmap generation stores exactly the number of distinct level
    sizes. After [generateMipmaps] on an eligible texture, on a backend
    without immutable storage, [size(level)] is 1x1 exactly from the last
    stored level on: the last level is the first 1x1 one, and every level
    before it is larger in some dimension. *)
Theorem X21_generated_chain_ends_at_1x1 (s : World) :
  texName_ (tex s) <> 0 ->
  hasImmutableTexStorage (support (renderer s)) = false ->
  1 <= w (pixDesc (tex s)) <= INT_MAX -> 1 <= h (pixDesc (tex s)) <= INT_MAX ->
  supportsMipmaps (textureSizeSupport (support (renderer s)))
    (w (pixDesc (tex s))) (h (pixDesc (tex s))) = true ->
  exists s',
    generateMipmaps s = Done true s' /\
    forall level, 0 <= level ->
      (size level s' = Done (mkWP 1 1) s' <-> levels_ (tex s') - 1 <= level).
Proof.
  intros Hname Himm Hw Hh Hs.
  destruct (generateMipmaps_effect s Hname Hs) as (s' & E & _ & Ed & El & _).
  rewrite Himm in El.
  destruct (generatedLevels_range (tex s) Hw Hh) as [Efull Hr].
  exists s'. split; [exact E|]. intros level Hlevel.
  rewrite size_levelDim by (rewrite ?Ed, ?El; lia).
  rewrite Ed, El, Efull. unfold fullChainLevels. rewrite log2_max.
  pose proof (levelDim_one (w (pixDesc (tex s))) level ltac:(lia) Hlevel) as Lw.
  pose proof (levelDim_one (h (pixDesc (tex s))) level ltac:(lia) Hlevel) as Lh.
  split; intros H.
  - injection H as H1 H2. apply Lw in H1. apply Lh in H2. lia.
  - assert (H1 : levelDim (w (pixDesc (tex s))) level = 1) by (apply Lw; lia).
    assert (H2 : levelDim (h (pixDesc (tex s))) level = 1) by (apply Lh; lia).
    rewrite H1, H2. reflexivity.
Qed.

(** *** Loading an image source *)

Lemma loadFlags_makeMipmaps (makeMipmaps : bool) :
  WRITE_FLAG_MAKE_MIPMAPS <> 0 ->
  flagSet (if makeMipmaps then WRITE_FLAG_MAKE_MIPMAPS else 0) WRITE_FLAG_MAKE_MIPMAPS =
  makeMipmaps.
Proof.
  intros Hflag. destruct makeMipmaps; [apply flagSet_self; exact Hflag | apply flagSet_zero].
Qed.

(** X22: [loadImageSource] with a source that has no readable view (the
    pull path), on a texture whose level 0 has a byte count that is that of
    an [int], locks the whole of level 0 and lets the source write into the
    buffer: when the host allocation succeeds it returns no error and
    queues one command, not awaited, that uploads level 0 from the buffer
    the source filled, frees it once, and generates mipmaps exactly when
    asked to and the size is eligible; when the allocation fails it returns
    ENOMEM, queues nothing and never calls the source. *)
Theorem X22_loadImageSource_pull (s : World) (img : PixmapSource) (makeMipmaps : bool) :
  WRITE_FLAG_MAKE_MIPMAPS <> 0 ->
  texName_ (tex s) <> 0 -> levels_ (tex s) <> 0 ->
  1 <= w (pixDesc (tex s)) -> 1 <= h (pixDesc (tex s)) ->
  formatWritable (renderer s) (format (pixDesc (tex s))) = true ->
  pixmapBool (pixmapView img) = false ->
  let wd := w (pixDesc (tex s)) in
  let ht := h (pixDesc (tex s)) in
  let n := wd * ht * bytesPerPixel (format (pixDesc (tex s))) in
  let p := brk (heap s) in
  n <= INT_MAX ->
  if heapFits n (heap s)
  then exists s' cmd fmt dataType,
         loadImageSource img makeMipmaps s = Done noError s' /\
         queue s' = queue s ++ [cmd] /\ awaitReply cmd = false /\
         blocks (heap s') = (p, n) :: blocks (heap s) /\
         mem (heap s') =
           sourceWrite img (pixmapOf (mkDesc wd ht (format (pixDesc (tex s)))) p)
             (mem (heap s)) /\
         filter isTexSubImage2D (calls cmd) =
           [glTexSubImage2D GL_TEXTURE_2D 0 0 0 wd ht fmt dataType p] /\
         filter isStdFree (calls cmd) = [stdFree p] /\
         (In (glGenerateMipmap GL_TEXTURE_2D) (calls cmd) <->
          makeMipmaps = true /\
          supportsMipmaps (textureSizeSupport (support (renderer s))) wd ht = true)
  else loadImageSource img makeMipmaps s =
       Done ENOMEM
         (set_errLog (errLog s ++ ["failed allocating %u bytes for pixel buffer"]) s).
Proof.
  intros Hflag Hname Hl Hw Hh Hwr Hpull wd ht n p Hn.
  pose proof (lockLevel_outcome s 0 0 Hname Hl Hw Hh (Z.le_refl 0)) as Hlock.
  cbv zeta in Hlock. rewrite !levelDim_zero in Hlock by assumption.
  fold wd ht n p in Hlock. specialize (Hlock Hn). rewrite flagSet_zero in Hlock.
  unfold loadImageSource. rewrite Hpull. unfold bind. rewrite Hlock.
  destruct (heapFits n (heap s)) eqn:Hfit.
  - cbv beta iota.
    assert (Hvalid : lockedBool
                       (mkLocked p (pixmapOf (mkDesc wd ht (format (pixDesc (tex s)))) p)
                          (mkRect 0 0 wd ht) 0 true 0) = true).
    { unfold lockedBool, pixmapBool. cbn [pix pixmapOf data]. unfold p.
      rewrite (heapFits_brk_nonzero _ _ Hfit). reflexivity. }
    rewrite Hvalid. cbn [negb]. mrun. cbn [mem brk heapEnd blocks pix].
    match goal with
    | |- context [unlock ?b ?f ?st] =>
        destruct (unlock_effect st b f) as [fmt E];
          [ exact Hvalid | reflexivity | exact Hwr | ]
    end.
    cbv zeta in E. rewrite (loadFlags_makeMipmaps _ Hflag) in E.
    cbn [renderer tex] in E. rewrite E.
    match type of E with
    | _ = Done tt (set_queue (_ ++ [mkCommand _ (unlockCalls ?r ?nm ?b ?f ?mk)]) _) =>
        destruct (unlockCalls_filters r nm b f mk) as (Fimg & Ffree & _ & Fgen)
    end.
    do 4 eexists. split; [reflexivity|].
    cbn [tex queue heap set_queue set_boundTex2D set_tex set_heap blocks mem renderer].
    split; [reflexivity|]. cbn [awaitReply calls].
    split; [reflexivity|]. split; [reflexivity|]. split; [reflexivity|].
    split; [exact Fimg|]. split; [exact Ffree|].
    rewrite Fgen. fold wd ht. apply andb_true_iff.
  - change (negb (lockedBool emptyLockedBuffer)) with true. mrun. reflexivity.
Qed.

Lemma write_staged_failure (s : World) (level : Z) (pixmap : PixmapView) (destPos : WP)
    (flags : Z) :
  texName_ (tex s) <> 0 -> levels_ (tex s) <> 0 ->
  1 <= w (pixDesc (tex s)) -> 1 <= h (pixDesc (tex s)) -> 0 <= level ->
  px destPos + w (desc pixmap) <= levelDim (w (pixDesc (tex s))) level ->
  py destPos + h (desc pixmap) <= levelDim (h (pixDesc (tex s))) level ->
  bytesPerPixel (format (desc pixmap)) = bytesPerPixel (format (pixDesc (tex s))) ->
  hasUnpackRowLength (support (renderer s)) || negb (isPadded pixmap) = false ->
  0 <= w (desc pixmap) -> 0 <= h (desc pixmap) ->
  w (desc pixmap) * bytesPerPixel (format (desc pixmap)) * h (desc pixmap) <= INT_MAX ->
  heapFits (w (desc pixmap) * bytesPerPixel (format (desc pixmap)) * h (desc pixmap))
    (heap s) = false ->
  write level pixmap destPos flags s =
  Done tt (set_errLog (errLog s ++ ["failed allocating %u bytes for pixel buffer";
                                    "error getting buffer for writeAligned()"]) s).
Proof.
  intros Hname Hl Hw Hh Hlevel Hx Hy Hbpp Hstaged Hpw Hph Hfits Hfit.
  set (lockRect := rectOffset (rectOfSize (pixmapSize pixmap)) destPos).
  assert (Hxs : xSize lockRect = w (desc pixmap)) by (unfold xSize; cbn; lia).
  assert (Hys : ySize lockRect = h (desc pixmap)) by (unfold ySize; cbn; lia).
  assert (Hint : INT_MIN <= xSize lockRect * ySize lockRect <= INT_MAX)
    by (rewrite Hxs, Hys; apply pixmap_pixels_fit_int; assumption).
  assert (Hn : pixelBytes (format (pixDesc (tex s))) (xSize lockRect * ySize lockRect) =
               w (desc pixmap) * bytesPerPixel (format (desc pixmap)) * h (desc pixmap)).
  { unfold pixelBytes. rewrite Hxs, Hys, Hbpp. ring. }
  pose proof (lock_outcome s level lockRect 0 Hname Hl Hw Hh Hlevel) as Hlock.
  cbv zeta in Hlock. rewrite Hn, flagSet_zero, Hfit in Hlock.
  assert (Hx' : rx2 lockRect <= levelDim (w (pixDesc (tex s))) level) by (cbn; lia).
  assert (Hy' : ry2 lockRect <= levelDim (h (pixDesc (tex s))) level) by (cbn; lia).
  specialize (Hlock Hx' Hy' Hint).
  apply Z.eqb_neq in Hname. apply Z.leb_le in Hx, Hy. apply Z.eqb_eq in Hbpp.
  unfold write, writeAligned. mrun. rewrite Hname.
  rewrite size_levelDim by assumption. cbn [px py]. rewrite Hx.
  rewrite size_levelDim by assumption. cbn [px py]. rewrite Hy, Hbpp.
  rewrite write_checks_pass. cbn [negb].
  rewrite Hstaged. fold lockRect. rewrite Hlock.
  change (negb (lockedBool emptyLockedBuffer)) with true. mrun.
  rewrite <- app_assoc. reflexivity.
Qed.

(** X23: [loadImageSource] with a source that has a readable view (the
    push path) reports no error even when nothing was uploaded: if the view,
    of non-negative size and a byte count that is that of an [int], has to
    be staged and the host allocation fails, the failure is logged
    twice, no command is queued, and the returned code is still "no error";
    ENOMEM is returned on the pull path only. *)
Theorem X23_loadImageSource_push_hides_allocation_failure
    (s : World) (img : PixmapSource) (makeMipmaps : bool) :
  texName_ (tex s) <> 0 -> levels_ (tex s) <> 0 ->
  1 <= w (pixDesc (tex s)) -> 1 <= h (pixDesc (tex s)) ->
  pixmapBool (pixmapView img) = true ->
  0 <= w (desc (pixmapView img)) -> 0 <= h (desc (pixmapView img)) ->
  w (desc (pixmapView img)) <= w (pixDesc (tex s)) ->
  h (desc (pixmapView img)) <= h (pixDesc (tex s)) ->
  bytesPerPixel (format (desc (pixmapView img))) =
    bytesPerPixel (format (pixDesc (tex s))) ->
  hasUnpackRowLength (support (renderer s)) || negb (isPadded (pixmapView img)) = false ->
  w (desc (pixmapView img)) * bytesPerPixel (format (desc (pixmapView img)))
  * h (desc (pixmapView img)) <= INT_MAX ->
  heapFits (w (desc (pixmapView img)) * bytesPerPixel (format (desc (pixmapView img)))
            * h (desc (pixmapView img))) (heap s) = false ->
  exists s',
    loadImageSource img makeMipmaps s = Done noError s' /\
    queue s' = queue s /\ tex s' = tex s /\ heap s' = heap s /\
    errLog s' = errLog s ++ ["failed allocating %u bytes for pixel buffer";
                             "error getting buffer for writeAligned()"].
Proof.
  intros Hname Hl Hw Hh Hpush Hpw Hph Hx Hy Hbpp Hstaged Hfits Hfit.
  eexists. split.
  - unfold loadImageSource. rewrite Hpush. unfold bind.
    rewrite write_staged_failure; try assumption;
      rewrite ?levelDim_zero by assumption; cbn [px py]; try lia.
    reflexivity.
  - cbn [queue tex heap errLog set_errLog]. repeat split.
Qed.

(** *** Formatting: swizzle and sampler parameters *)

Lemma setSwizzleForFormatInGL_calls r fmt :
  forall s, setSwizzleForFormatInGL r fmt (boundTex2D s) s
            = Done tt (set_pending (pending s ++ swizzleCalls r (swizzleMaskFor fmt)) s).
Proof.
  intros s. unfold setSwizzleForFormatInGL, verifyCurrentTexture2D, swizzleCalls.
  destruct (useFixedFunctionPipeline (support r) || negb (hasTextureSwizzle (support r))).
  { mrun. rewrite app_nil_r. destruct s; reflexivity. }
  destruct (OPENGL_ES Config).
  - mrun.
    destruct (negb (DEBUG_BUILD Config)); mrun;
      rewrite ?Z.eqb_refl; cbn [negb]; mrun;
      rewrite <- ?app_assoc; destruct fmt; reflexivity.
  - mrun.
    destruct (negb (DEBUG_BUILD Config)); mrun;
      rewrite ?Z.eqb_refl; cbn [negb]; mrun; destruct fmt; reflexivity.
Qed.

Lemma setSamplerParamsInGL_calls r params :
  forall s, setSamplerParamsInGL r params GL_TEXTURE_2D s
            = Done tt (set_pending (pending s ++ samplerCalls r params) s).
Proof.
  intros s. unfold setSamplerParamsInGL, samplerCalls.
  destruct (hasSamplerObjects (support r) || (magFilter params =? 0)).
  - mrun. rewrite app_nil_r. destruct s; reflexivity.
  - reflexivity.
Qed.

Lemma swizzleCalls_params r mask :
  filter isParamCall (swizzleCalls r mask) = swizzleCalls r mask.
Proof.
  unfold swizzleCalls.
  destruct (useFixedFunctionPipeline (support r) || negb (hasTextureSwizzle (support r)));
    [reflexivity|].
  destruct (OPENGL_ES Config); [|reflexivity].
  generalize (combine [GL_TEXTURE_SWIZZLE_R; GL_TEXTURE_SWIZZLE_G;
                       GL_TEXTURE_SWIZZLE_B; GL_TEXTURE_SWIZZLE_A] mask).
  intros l. induction l as [|pc l IH]; [reflexivity|].
  cbn [map filter isParamCall]. rewrite IH. reflexivity.
Qed.

Lemma samplerCalls_params r params :
  filter isParamCall (samplerCalls r params) = samplerCalls r params.
Proof.
  unfold samplerCalls.
  destruct (hasSamplerObjects (support r) || (magFilter params =? 0)); reflexivity.
Qed.

Lemma texImageCalls_no_params (f g : Z -> Z) internalFormat fmt dataType (ls : list Z) :
  filter isParamCall
    (map (fun i => glTexImage2D GL_TEXTURE_2D i internalFormat (f i) (g i) fmt dataType) ls)
  = [].
Proof. induction ls as [|i ls IH]; [reflexivity|]. cbn. exact IH. Qed.

(** X24: the texture parameters [setFormat] sets. Its command sets the
    swizzle mask of the format (red,red,red,green for IA88, one,one,one,red
    for A8, the identity otherwise; per channel under OpenGL ES, as one
    vector otherwise; not at all on the fixed-function pipeline or without
    swizzle support), and after it the compatibility sampler's parameters,
    but only when the command makes a new handle: a reformat that keeps the
    handle leaves the sampler parameters alone whatever sampler is passed,
    and without a sampler none are set. The debug check of the bound
    texture never fires. *)
Theorem X24_setFormat_parameters
    (s : World) (d : PixmapDesc) (hint : Z) (cs : ColorSpace)
    (sampler : option SamplerParams) :
  1 <= w d -> 1 <= h d ->
  formatStorable (renderer s) (format d) = true ->
  let lvls :=
    if supportsMipmaps (textureSizeSupport (support (renderer s))) (w d) (h d)
    then if hint =? 0 then fls (to_unsigned (Z.lor (w d) (h d))) else hint
    else 1 in
  let renew :=
    hasImmutableTexStorage (support (renderer s)) || negb (lvls =? levels_ (tex s)) in
  to_int8 lvls <> 0 ->
  exists s' cmd,
    setFormat d hint cs sampler s = Done tt s' /\
    queue s' = queue s ++ [cmd] /\
    filter isParamCall (calls cmd) =
      swizzleCalls (renderer s) (swizzleMaskFor (format d)) ++
      match sampler with
      | Some params => if renew then samplerCalls (renderer s) params else []
      | None => []
      end.
Proof.
  intros Hw Hh Hfmt lvls renew Hlv.
  assert (Hw0 : (w d =? 0) = false) by (apply Z.eqb_neq; lia).
  assert (Hh0 : (h d =? 0) = false) by (apply Z.eqb_neq; lia).
  apply Z.eqb_neq in Hlv.
  assert (Hext : OPENGL_TEXTURE_TARGET_EXTERNAL Config &&
                 (GL_TEXTURE_2D =? GL_TEXTURE_EXTERNAL_OES) = false)
    by (destruct (OPENGL_TEXTURE_TARGET_EXTERNAL Config); reflexivity).
  pose proof (setSwizzleForFormatInGL_calls (renderer s) (format d)) as Eswz.
  pose proof (setSamplerParamsInGL_calls (renderer s)
                (match sampler with Some p => p | None => defaultSamplerParams end))
    as Esmp.
  pose proof (swizzleCalls_params (renderer s) (swizzleMaskFor (format d))) as Pswz.
  pose proof (samplerCalls_params (renderer s)
                (match sampler with Some p => p | None => defaultSamplerParams end))
    as Psmp.
  assert (Hnone : samplerCalls (renderer s)
                    (match sampler with Some p => p | None => defaultSamplerParams end) =
                  match sampler with
                  | Some params => samplerCalls (renderer s) params
                  | None => []
                  end).
  { destruct sampler; [reflexivity|]. unfold samplerCalls.
    cbn [defaultSamplerParams magFilter]. rewrite orb_true_r. reflexivity. }
  set (smp := samplerCalls (renderer s)
                (match sampler with Some p => p | None => defaultSamplerParams end)) in *.
  set (swz := swizzleCalls (renderer s) (swizzleMaskFor (format d))) in *.
  assert (Hgoal : forall b : bool,
            swz ++ (if b then smp else []) =
            swz ++ match sampler with
                   | Some params => if b then samplerCalls (renderer s) params else []
                   | None => []
                   end).
  { intros b. rewrite Hnone. destruct sampler, b; reflexivity. }
  unfold formatStorable in Hfmt. unfold renew. rewrite <- Hgoal.
  destruct (hasImmutableTexStorage (support (renderer s))) eqn:Himm; cbn [orb].
  - apply negb_true_iff in Hfmt.
    destruct (makeGLSizedInternalFormat_returns (renderer s) (format d)
                (ColorSpace_eqb (supportedColorSpace (renderer s) (format d) cs) SRGB) Hfmt)
      as [ifmt Eifmt].
    unfold setFormat. mrun. rewrite Hw0, Hh0. cbn [negb]. rewrite Himm.
    fold lvls. unfold makeGLTextureName. mrun.
    destruct (texName_ (tex s) =? 0); cbn [negb andb]; mrun;
      rewrite Eifmt; mrun; mstep_swizzle Eswz; rewrite Esmp; mrun;
      rewrite Hlv, Hext; cbn [negb];
      do 2 eexists; (split; [reflexivity|]);
      cbn [queue]; (split; [reflexivity|]); cbn [calls];
      rewrite !filter_app, Pswz, Psmp; reflexivity.
  - apply andb_prop in Hfmt. destruct Hfmt as [Hwr Hes].
    destruct (makeGLFormat_returns (renderer s) (format d) Hwr) as [fmt Efmt].
    destruct (makeGLInternalFormat_returns (renderer s) (format d) false Hwr Hes)
      as [ifmt Eifmt].
    pose proof (texImageCalls_no_params (levelDim (w d)) (levelDim (h d))
                  ifmt fmt (makeGLDataType (format d)) (iotaCount lvls)) as Pimg.
    assert (Elv : forall st,
      defineLevels ifmt fmt (makeGLDataType (format d)) (w d) (h d) (iotaCount lvls) st =
      Done tt (set_pending
                 (pending st ++
                  map (fun i => glTexImage2D GL_TEXTURE_2D i ifmt
                                  (levelDim (w d) i) (levelDim (h d) i) fmt
                                  (makeGLDataType (format d)))
                    (iotaCount lvls)) st)).
    { intros st.
      pose proof (defineLevels_emits ifmt fmt (makeGLDataType (format d)) (w d) (h d)
                    (Z.to_nat lvls) 0%nat st) as H.
      change (Z.of_nat 0) with 0 in H. rewrite !levelDim_zero in H by lia.
      apply H; lia. }
    unfold setFormat. mrun. rewrite Hw0, Hh0. cbn [negb]. rewrite Himm.
    fold lvls.
    destruct (negb (lvls =? levels_ (tex s))) eqn:Hremake.
    + unfold makeGLTextureName. mrun.
      destruct (texName_ (tex s) =? 0); cbn [negb andb]; mrun;
        rewrite Efmt, Eifmt, Elv; mrun; mstep_swizzle Eswz; rewrite Esmp; mrun;
        rewrite Hlv, Hext; cbn [negb];
        do 2 eexists; (split; [reflexivity|]);
        cbn [queue]; (split; [reflexivity|]); cbn [calls];
        rewrite !filter_app, Pswz, Psmp, Pimg; reflexivity.
    + rewrite Efmt, Eifmt, Elv; mrun. mstep_swizzle Eswz.
      rewrite Hlv, Hext; cbn [negb andb].
      do 2 eexists. (split; [reflexivity|]).
      cbn [queue]. (split; [reflexivity|]). cbn [calls].
      rewrite !filter_app, Pswz, Pimg. cbn [filter isParamCall app].
      rewrite !app_nil_r. reflexivity.
Qed.

End GLTextureCode.

(** ** The properties at concrete inputs *)

(** formatting (100,50,RGBA8888) with immutable storage and no level hint
    stores 7 levels *)
Lemma C1_witness :
  exists s',
    setFormat sampleConfig (mkDesc 100 50 PIXEL_RGBA8888) 0 LINEAR None
      (unformattedWorld (sampleRenderer true true true)) = Done tt s' /\
    levels_ (tex s') = 7.
Proof.
  destruct (C1_setFormat_full_chain_level_count sampleConfig
              (unformattedWorld (sampleRenderer true true true))
              (mkDesc 100 50 PIXEL_RGBA8888) LINEAR None)
    as (s' & E & El & _).
  - cbn. unfold INT_MAX. lia.
  - cbn. unfold INT_MAX. lia.
  - reflexivity.
  - reflexivity.
  - exists s'. split; [exact E | rewrite El; reflexivity].
Defined.

(** on a (100,50) texture, size(0) = (100,50) and size(6) = (1,1) *)
Lemma C2_witness :
  let s := formattedWorld (sampleRenderer true true true) (mkDesc 100 50 PIXEL_RGBA8888) 7 in
  size 0 s = Done (mkWP 100 50) s /\ size 6 s = Done (mkWP 1 1) s.
Proof.
  intros s.
  destruct (C2_size_halves_and_floors s) as (Hsize & _ & Hbottom).
  - cbn. lia.
  - cbn. lia.
  - cbn. lia.
  - split.
    + rewrite (Hsize 0) by lia. reflexivity.
    + apply Hbottom. vm_compute. discriminate.
Defined.

(** a padded pixmap written on a backend without unpack row length while the
    host heap is exhausted: the write returns, no buffer was obtained and no
    upload was queued *)
Lemma C3_counterexample :
  let s := starvedWorld (sampleRenderer true false true) (mkDesc 4 4 PIXEL_RGBA8888) 3 in
  hasUnpackRowLength (support (renderer s)) = false /\
  isPadded paddedPixmap = true /\
  exists s',
    write sampleConfig 1 2 1 0 paddedPixmap (mkWP 0 0) 0 s = Done tt s' /\
    queue s' = queue s /\ blocks (heap s') = blocks (heap s).
Proof.
  cbv zeta. split; [reflexivity|]. split; [reflexivity|].
  eexists. split; [lazy; reflexivity|]. split; reflexivity.
Qed.

(** the same write with room on the heap takes the staged path through a
    32-byte buffer at address 4096 *)
Lemma C3_witness :
  let s := formattedWorld (sampleRenderer true false true) (mkDesc 4 4 PIXEL_RGBA8888) 3 in
  exists s',
    write sampleConfig 1 2 1 0 paddedPixmap (mkWP 0 0) 0 s = Done tt s' /\
    stagedUpload 0 paddedPixmap (mkWP 0 0) 4096 s s'.
Proof.
  intros s.
  destruct (C3_write_direct_iff_row_length_or_unpadded sampleConfig 1 2 1 s 0
              paddedPixmap (mkWP 0 0) 0) as (s' & E & _ & Hstaged).
  - cbn. lia.
  - cbn. lia.
  - cbn. lia.
  - cbn. lia.
  - lia.
  - cbn. lia.
  - cbn. lia.
  - cbn. lia.
  - cbn. lia.
  - vm_compute. discriminate.
  - vm_compute. discriminate.
  - reflexivity.
  - reflexivity.
  - reflexivity.
  - vm_compute. discriminate.
  - change (forall y x, 0 <= y < 2 -> 0 <= x < 2 * 4 ->
                   ~ (4096 <= 64 + y * 16 + x < 4096 + 2 * 4 * 2)).
    lia.
  - exists s'. split; [exact E|].
    apply Hstaged. cbn. intros [H | H]; [discriminate | lia].
Defined.

(** a 100x60 texture on a backend that cannot mipmap such sizes *)
Lemma C4_witness :
  let s := formattedWorld (sampleRenderer false false false) (mkDesc 100 60 PIXEL_RGBA8888) 1 in
  generateMipmaps s = Done false s.
Proof.
  intros s. apply C4_generateMipmaps_ineligible.
  - cbn. lia.
  - right. right. split; [reflexivity | left; reflexivity].
Defined.

(** with immutable storage, a 4x4 texture formatted with one level still has
    one level after a successful [generateMipmaps], not 3 *)
Lemma C5_counterexample :
  exists s1 s2,
    setFormat sampleConfig (mkDesc 4 4 PIXEL_RGBA8888) 1 LINEAR None
      (unformattedWorld (sampleRenderer true true true)) = Done tt s1 /\
    generateMipmaps s1 = Done true s2 /\
    levels_ (tex s2) = 1 /\
    fullChainLevels 4 4 = 3.
Proof.
  eexists. eexists. split; [lazy; reflexivity|]. split; [lazy; reflexivity|].
  split; reflexivity.
Qed.

(** without immutable storage, a (100,50) texture formatted with one level
    has 7 after [generateMipmaps] *)
Lemma C5_witness :
  exists s',
    generateMipmaps
      (formattedWorld (sampleRenderer false true true) (mkDesc 100 50 PIXEL_RGBA8888) 1)
    = Done true s' /\
    levels_ (tex s') = 7.
Proof.
  eexists. split; [lazy; reflexivity|].
  eapply proj1.
  apply (C5_generateMipmaps_level_count
           (formattedWorld (sampleRenderer false true true) (mkDesc 100 50 PIXEL_RGBA8888) 1)).
  - cbn. unfold INT_MAX. lia.
  - cbn. unfold INT_MAX. lia.
  - reflexivity.
Defined.


(** on a texture that was never formatted, none of the four operations
    aborts *)
Lemma C7_counterexample :
  let s := unformattedWorld (sampleRenderer true true true) in
  texName_ (tex s) = 0 /\
  ~ aborts (generateMipmaps s) /\
  ~ aborts (write sampleConfig 1 2 1 0 paddedPixmap (mkWP 0 0) 0 s) /\
  ~ aborts (lock 1 0 (mkRect 0 0 1 1) 0 s) /\
  ~ aborts (bindTex sampleConfig s).
Proof.
  cbv zeta. split; [reflexivity|].
  repeat split; intros H; exact H.
Qed.

(** [generateMipmaps] on a texture that was never formatted logs and returns
    false *)
Lemma C7_witness :
  let s := unformattedWorld (sampleRenderer true true true) in
  generateMipmaps s =
  Done false (set_errLog ["called generateMipmaps() on uninitialized texture"] s).
Proof.
  intros s.
  apply (C7_unformatted_operations_return sampleConfig 1 2 1 s).
  reflexivity.
Defined.

(** first formatting of (100,50,RGBA8888) without immutable storage: a new
    name, seven glTexImage2D calls, and size(6) = (1,1) *)
Lemma C8_witness :
  exists s' cmd,
    setFormat sampleConfig (mkDesc 100 50 PIXEL_RGBA8888) 0 LINEAR None
      (unformattedWorld (sampleRenderer false true true)) = Done tt s' /\
    queue s' = [cmd] /\
    existsb isGenTextures (calls cmd) = true /\
    List.length (filter isTexImage2D (calls cmd)) = 7%nat /\
    size 6 s' = Done (mkWP 1 1) s'.
Proof.
  destruct (C8_setFormat_mutable_handle_and_level_calls sampleConfig
              (unformattedWorld (sampleRenderer false true true))
              (mkDesc 100 50 PIXEL_RGBA8888) 0 LINEAR None)
    as (s' & cmd & ifmt & fmt & dt & E & Eq & _ & Egen & _ & _ & _ & Elen & Esize).
  - reflexivity.
  - cbn. lia.
  - cbn. lia.
  - reflexivity.
  - vm_compute. split; discriminate.
  - exists s', cmd. split; [exact E|]. split; [exact Eq|].
    split; [apply Egen; vm_compute; discriminate|].
    split; [exact Elen|].
    rewrite (Esize 6) by lia. reflexivity.
Defined.

(** unlocking the empty buffer, even with the mipmap flag, changes nothing *)
Lemma C10_witness :
  let s := formattedWorld (sampleRenderer false true true) (mkDesc 100 50 PIXEL_RGBA8888) 7 in
  unlock sampleConfig 2 emptyLockedBuffer 2 s = Done tt s.
Proof.
  intros s. apply C10_unlock_empty_is_noop. reflexivity.
Defined.

(** ** The further properties at concrete inputs *)

(** a (100,50) texture with one level is still formatted after
    [generateMipmaps] *)
Lemma X2_witness :
  let s := formattedWorld (sampleRenderer false true true) (mkDesc 100 50 PIXEL_RGBA8888) 1 in
  exists s', generateMipmaps s = Done true s' /\ formatted s'.
Proof.
  intros s.
  assert (E : exists s', generateMipmaps s = Done true s') by (eexists; lazy; reflexivity).
  destruct E as [s' E].
  destruct (X2_formatted_is_kept sampleConfig 1 2 1 s s') as [Hf _].
  - unfold formatted. cbn. unfold INT_MAX. lia.
  - left. exists true. exact E.
  - exists s'. split; [exact E | exact Hf].
Defined.

(** locking level 2 of a (100,50) RGBA8888 texture gives the 25x12 level,
    1200 bytes *)
Lemma X3_witness :
  let s := formattedWorld (sampleRenderer false true true) (mkDesc 100 50 PIXEL_RGBA8888) 7 in
  exists buf s',
    lockLevel 1 2 0 s = Done buf s' /\
    srcDirtyRect buf = mkRect 0 0 25 12 /\ pixmapBytes (pix buf) = 1200.
Proof.
  intros s.
  destruct (X3_lock_whole_level 1 s 2 0) as (buf & s' & E & _ & _ & _ & H).
  - cbn. lia.
  - cbn. lia.
  - cbn. lia.
  - cbn. lia.
  - lia.
  - vm_compute. discriminate.
  - change (heapFits _ _) with true in H. cbv iota in H.
    destruct H as (_ & Hr & _ & _ & Hn & _).
    exists buf, s'. split; [exact E|]. split; [exact Hr | exact Hn].
Defined.

(** [size] on a texture that was never formatted fails its assertion *)
Lemma X4_witness :
  size 0 (unformattedWorld (sampleRenderer true true true)) = ContractViolation "levels_".
Proof.
  destruct (X4_unformatted_size_assertion sampleConfig 1 2 1 (fun _ m => m)
              (unformattedWorld (sampleRenderer true true true))) as [H _].
  - reflexivity.
  - apply H.
Defined.

(** clearing level 0 of a 4x4 RGBA8888 texture uploads and frees the 64-byte
    block at 4096 *)
Lemma X5_witness :
  let s := formattedWorld (sampleRenderer false true true) (mkDesc 4 4 PIXEL_RGBA8888) 3 in
  exists s' cmd,
    clear sampleConfig 2 1 0 s = Done tt s' /\ queue s' = [cmd] /\
    blocks (heap s') = [(4096, 64)] /\
    filter isStdFree (calls cmd) = [stdFree 4096].
Proof.
  intros s.
  pose proof (X5_clear_uploads_zeros sampleConfig 2 1 s 0) as H.
  cbv zeta in H. change (heapFits _ _) with true in H. cbv iota in H.
  destruct H as (s' & cmd & fmt & dt & E & _ & Eq & _ & Eb & _ & _ & Ef & _).
  - lia.
  - cbn. lia.
  - cbn. lia.
  - cbn. lia.
  - cbn. lia.
  - lia.
  - reflexivity.
  - vm_compute. discriminate.
  - exists s', cmd. split; [exact E|]. split; [exact Eq|]. split; [exact Eb | exact Ef].
Defined.

(** locking and unlocking a 4x2 rectangle: one command that frees the
    buffer *)
Lemma X6_witness :
  let s := formattedWorld (sampleRenderer false true true) (mkDesc 100 50 PIXEL_RGBA8888) 7 in
  exists buf s1 s2 cmd,
    lock 1 0 (mkRect 0 0 4 2) 0 s = Done buf s1 /\
    unlock sampleConfig 2 buf 0 s1 = Done tt s2 /\
    queue s2 = [cmd] /\
    filter isStdFree (calls cmd) = [stdFree (data (pix buf))].
Proof.
  intros s.
  destruct (X6_locked_buffer_freed_once_after_upload sampleConfig 2 1 s 0
              (mkRect 0 0 4 2) 0 0)
    as (buf & s1 & s2 & cmd & E1 & E2 & Eq & _ & _ & Ef & _).
  - cbn. lia.
  - cbn. lia.
  - cbn. lia.
  - cbn. lia.
  - lia.
  - cbn. lia.
  - cbn. lia.
  - vm_compute. discriminate.
  - vm_compute. discriminate.
  - reflexivity.
  - vm_compute. discriminate.
  - reflexivity.
  - exists buf, s1, s2, cmd.
    split; [exact E1|]. split; [exact E2|]. split; [exact Eq | exact Ef].
Defined.

(** unlocking with the mipmap flag on a (100,50) texture without immutable
    storage brings the level count to 7 *)
Lemma X7_witness :
  let s := formattedWorld (sampleRenderer false true true) (mkDesc 100 50 PIXEL_RGBA8888) 1 in
  exists s' cmd,
    unlock sampleConfig 2 sampleLockedBuffer 2 s = Done tt s' /\
    queue s' = [cmd] /\ levels_ (tex s') = 7.
Proof.
  intros s.
  destruct (X7_unlock_level_count sampleConfig 2 s sampleLockedBuffer 2)
    as (s' & cmd & E & Eq & _ & El).
  - reflexivity.
  - reflexivity.
  - reflexivity.
  - cbn. unfold INT_MAX. lia.
  - cbn. unfold INT_MAX. lia.
  - exists s', cmd. split; [exact E|]. split; [exact Eq | exact El].
Defined.

(** a buffer with rows of 16 bytes is uploaded with unpack alignment 8 and
    row length 0 *)
Lemma X8_witness :
  let s := formattedWorld (sampleRenderer false true true) (mkDesc 100 50 PIXEL_RGBA8888) 1 in
  exists s' cmd,
    unlock sampleConfig 2 sampleLockedBuffer 0 s = Done tt s' /\
    filter isPixelStore (calls cmd) =
      [glPixelStorei GL_UNPACK_ALIGNMENT 8; glPixelStorei GL_UNPACK_ROW_LENGTH 0].
Proof.
  intros s.
  destruct (X8_unlock_unpack_state sampleConfig 2 s sampleLockedBuffer 0)
    as (s' & cmd & align & E & _ & Ep & Ea & _).
  - reflexivity.
  - reflexivity.
  - reflexivity.
  - exists s', cmd. split; [exact E|]. rewrite Ep, Ea. reflexivity.
Defined.

(** a caller-owned buffer at address 64 is uploaded and not freed *)
Lemma X9_witness :
  let s := formattedWorld (sampleRenderer false true true) (mkDesc 4 4 PIXEL_RGBA8888) 1 in
  exists buf s1 s2 cmd,
    lockedBuffer 1 (fun _ m => m) 64 16 0 s = Done buf s1 /\
    unlock sampleConfig 2 buf 0 s1 = Done tt s2 /\
    queue s2 = [cmd] /\
    filter isStdFree (calls cmd) = [].
Proof.
  intros s.
  destruct (X9_lockedBuffer_is_not_freed sampleConfig 2 1 (fun _ m => m) s 64 16 0 0)
    as (buf & s1 & s2 & cmd & fmt & dt & E1 & _ & _ & _ & _ & _ & E2 & Eq & Ef & _).
  - cbn. lia.
  - cbn. lia.
  - cbn. lia.
  - lia.
  - reflexivity.
  - exists buf, s1, s2, cmd.
    split; [exact E1|]. split; [exact E2|]. split; [exact Eq | exact Ef].
Defined.

(** a 100x60 texture on a backend that cannot mipmap such sizes gets one
    level whatever the hint *)
Lemma X10_witness :
  exists s',
    setFormat sampleConfig (mkDesc 100 60 PIXEL_RGBA8888) 5 LINEAR None
      (unformattedWorld (sampleRenderer false true false)) = Done tt s' /\
    levels_ (tex s') = 1.
Proof.
  destruct (X10_setFormat_ineligible_single_level sampleConfig
              (unformattedWorld (sampleRenderer false true false))
              (mkDesc 100 60 PIXEL_RGBA8888) 5 LINEAR None)
    as (s' & cmd & ifmt & E & El & _).
  - cbn. lia.
  - cbn. lia.
  - reflexivity.
  - reflexivity.
  - exists s'. split; [exact E | exact El].
Defined.

(** a hint of 3 levels for a (100,50) texture is kept, and level 6 is 1x1 *)
Lemma X11_witness :
  exists s',
    setFormat sampleConfig (mkDesc 100 50 PIXEL_RGBA8888) 3 LINEAR None
      (unformattedWorld (sampleRenderer true true true)) = Done tt s' /\
    levels_ (tex s') = 3 /\ size 6 s' = Done (mkWP 1 1) s'.
Proof.
  destruct (X11_setFormat_level_hint_kept sampleConfig
              (unformattedWorld (sampleRenderer true true true))
              (mkDesc 100 50 PIXEL_RGBA8888) 3 LINEAR None)
    as (s' & cmd & ifmt & E & El & _ & _ & Esize).
  - cbn. lia.
  - cbn. lia.
  - reflexivity.
  - reflexivity.
  - lia.
  - exists s'. split; [exact E|]. split; [exact El|].
    apply Esize. vm_compute. discriminate.
Defined.

(** RGB888 has no sized internal format: formatting it with immutable
    storage aborts *)
Lemma X12_witness :
  aborts (setFormat sampleConfig (mkDesc 4 4 PIXEL_RGB888) 0 LINEAR None
            (unformattedWorld (sampleRenderer true true true))).
Proof.
  apply (X12_setFormat_aborts_iff_format_unmapped sampleConfig
           (unformattedWorld (sampleRenderer true true true))
           (mkDesc 4 4 PIXEL_RGB888) 0 LINEAR None).
  - cbn. lia.
  - cbn. lia.
  - vm_compute. discriminate.
  - cbn. intros H. repeat (destruct H as [H | H]; [discriminate H|]). exact H.
Defined.

(** reformatting a 7-level (100,50) texture to the same level count on
    mutable storage keeps handle 1 and is not awaited *)
Lemma X13_witness :
  let s := formattedWorld (sampleRenderer false true true) (mkDesc 100 50 PIXEL_RGBA8888) 7 in
  exists s' cmd,
    setFormat sampleConfig (mkDesc 100 50 PIXEL_RGBA8888) 0 LINEAR None s = Done tt s' /\
    queue s' = [cmd] /\ awaitReply cmd = false /\ texName_ (tex s') = 1.
Proof.
  intros s.
  destruct (X13_setFormat_handle_replacement sampleConfig s
              (mkDesc 100 50 PIXEL_RGBA8888) 0 LINEAR None)
    as (s' & cmd & E & Eq & Ea & En & _).
  - cbn. lia.
  - cbn. lia.
  - reflexivity.
  - vm_compute. discriminate.
  - exists s', cmd. split; [exact E|]. split; [exact Eq|]. split; [exact Ea | exact En].
Defined.

(** creating a (100,50) texture that will generate its mipmaps: one level
    after [init], seven after [generateMipmaps] *)
Lemma X14_witness :
  exists s1 s2,
    init sampleConfig (mkTextureConfig (mkDesc 100 50 PIXEL_RGBA8888) 0 LINEAR None true)
      (unformattedWorld (sampleRenderer false true true)) = Done tt s1 /\
    levels_ (tex s1) = 1 /\
    generateMipmaps s1 = Done true s2 /\ levels_ (tex s2) = 7.
Proof.
  destruct (X14_init_then_generateMipmaps sampleConfig
              (unformattedWorld (sampleRenderer false true true))
              (mkTextureConfig (mkDesc 100 50 PIXEL_RGBA8888) 0 LINEAR None true))
    as (s1 & s2 & cmd & ifmt & fmt & dt & E1 & El1 & _ & _ & _ & E2 & _ & El2).
  - reflexivity.
  - reflexivity.
  - reflexivity.
  - reflexivity.
  - cbn. lia.
  - cbn. unfold INT_MAX. lia.
  - cbn. unfold INT_MAX. lia.
  - reflexivity.
  - reflexivity.
  - exists s1, s2. split; [exact E1|]. split; [exact El1|]. split; [exact E2 | exact El2].
Defined.

(** the first formatting of a texture makes it formatted *)
Lemma X15_witness :
  exists s',
    setFormat sampleConfig (mkDesc 100 50 PIXEL_RGBA8888) 0 LINEAR None
      (unformattedWorld (sampleRenderer true true true)) = Done tt s' /\
    formatted s'.
Proof.
  destruct (X15_setFormat_establishes_formatted sampleConfig
              (unformattedWorld (sampleRenderer true true true))
              (mkDesc 100 50 PIXEL_RGBA8888) 0 LINEAR None)
    as (s' & E & Hf & _).
  - cbn. lia.
  - right. reflexivity.
  - left. reflexivity.
  - cbn. unfold INT_MAX. lia.
  - cbn. unfold INT_MAX. lia.
  - lia.
  - reflexivity.
  - exists s'. split; [exact E | exact Hf].
Defined.

(** a synchronous direct write of the padded pixmap is awaited and frees
    nothing *)
Lemma X16_witness :
  let s := formattedWorld (sampleRenderer false true true) (mkDesc 4 4 PIXEL_RGBA8888) 3 in
  exists s' cmd,
    write sampleConfig 1 2 1 0 paddedPixmap (mkWP 0 0) 0 s = Done tt s' /\
    queue s' = [cmd] /\ awaitReply cmd = true /\
    filter isStdFree (calls cmd) = [] /\
    filter isPixelStore (calls cmd) =
      [glPixelStorei GL_UNPACK_ALIGNMENT 8; glPixelStorei GL_UNPACK_ROW_LENGTH 4].
Proof.
  intros s.
  destruct (X16_direct_write_command sampleConfig 1 2 1 s 0 paddedPixmap (mkWP 0 0) 0)
    as (s' & cmd & fmt & dt & E & Eq & Ea & _ & Ef & Ep & _).
  - cbn. lia.
  - cbn. lia.
  - cbn. lia.
  - cbn. lia.
  - lia.
  - vm_compute. discriminate.
  - vm_compute. discriminate.
  - reflexivity.
  - reflexivity.
  - reflexivity.
  - exists s', cmd. split; [exact E|]. split; [exact Eq|]. split; [exact Ea|].
    split; [exact Ef | exact Ep].
Defined.

(** the same write on a backend without unpack row length is staged through
    the block at 4096: never awaited, rows of 8 bytes, the block freed *)
Lemma X17_witness :
  let s := formattedWorld (sampleRenderer false false true) (mkDesc 4 4 PIXEL_RGBA8888) 3 in
  exists s' cmd,
    write sampleConfig 1 2 1 0 paddedPixmap (mkWP 0 0) 0 s = Done tt s' /\
    queue s' = [cmd] /\ awaitReply cmd = false /\
    filter isStdFree (calls cmd) = [stdFree 4096] /\
    filter isPixelStore (calls cmd) = [glPixelStorei GL_UNPACK_ALIGNMENT 8].
Proof.
  intros s.
  destruct (X17_staged_write_command sampleConfig 1 2 1 s 0 paddedPixmap (mkWP 0 0) 0)
    as (s' & cmd & fmt & dt & E & Eq & Ea & _ & Ef & Ep & _).
  - cbn. lia.
  - cbn. lia.
  - cbn. lia.
  - cbn. lia.
  - lia.
  - cbn. lia.
  - cbn. lia.
  - cbn. lia.
  - cbn. lia.
  - vm_compute. discriminate.
  - vm_compute. discriminate.
  - reflexivity.
  - reflexivity.
  - reflexivity.
  - vm_compute. discriminate.
  - reflexivity.
  - exists s', cmd. split; [exact E|]. split; [exact Eq|]. split; [exact Ea|].
    split; [exact Ef | exact Ep].
Defined.

(** a write with the mipmap flag into a one-level (100,50) texture without
    immutable storage leaves 7 levels *)
Lemma X18_witness :
  let s := formattedWorld (sampleRenderer false true true) (mkDesc 100 50 PIXEL_RGBA8888) 1 in
  exists s' cmd,
    write sampleConfig 1 2 1 0 paddedPixmap (mkWP 0 0) 2 s = Done tt s' /\
    queue s' = [cmd] /\
    In (glGenerateMipmap GL_TEXTURE_2D) (calls cmd) /\
    levels_ (tex s') = 7.
Proof.
  intros s.
  destruct (X18_write_level_count sampleConfig 1 2 1 s 0 paddedPixmap (mkWP 0 0) 2)
    as (s' & cmd & E & Eq & Eg & El).
  - cbn. lia.
  - cbn. lia.
  - cbn. unfold INT_MAX. lia.
  - cbn. unfold INT_MAX. lia.
  - lia.
  - cbn. lia.
  - cbn. lia.
  - cbn. lia.
  - cbn. lia.
  - vm_compute. discriminate.
  - vm_compute. discriminate.
  - reflexivity.
  - reflexivity.
  - reflexivity.
  - left. reflexivity.
  - exists s', cmd. split; [exact E|]. split; [exact Eq|].
    split; [apply Eg; reflexivity | exact El].
Defined.

(** on a 4x4 texture, a 2x2 pixmap written at x = 3 fails the width
    assertion, and one at address 64 asserted to be 128-byte aligned reaches
    [bug_unreachable] *)
Lemma X19_witness :
  let s := formattedWorld (sampleRenderer false true true) (mkDesc 4 4 PIXEL_RGBA8888) 3 in
  writeAligned sampleConfig 1 2 1 0 paddedPixmap (mkWP 3 0) 0 0 s =
    ContractViolation "destPos.x + pixmap.w() <= size(level).x" /\
  writeAligned sampleConfig 1 2 1 0 paddedPixmap (mkWP 0 0) 128 0 s =
    BugUnreachable "expected data from address %p to be aligned to %u bytes".
Proof.
  intros s. split.
  - destruct (X19_writeAligned_guards sampleConfig 1 2 1 s 0 paddedPixmap (mkWP 3 0) 0 0)
      as (Hx & _).
    + cbn. lia.
    + cbn. lia.
    + cbn. lia.
    + cbn. lia.
    + lia.
    + unfold INT_MIN, INT_MAX. cbn. lia.
    + unfold INT_MIN, INT_MAX. cbn. lia.
    + apply Hx. vm_compute. intros H. apply H. reflexivity.
  - destruct (X19_writeAligned_guards sampleConfig 1 2 1 s 0 paddedPixmap (mkWP 0 0) 128 0)
      as (_ & _ & _ & Ha).
    + cbn. lia.
    + cbn. lia.
    + cbn. lia.
    + cbn. lia.
    + lia.
    + unfold INT_MIN, INT_MAX. cbn. lia.
    + unfold INT_MIN, INT_MAX. cbn. lia.
    + apply Ha.
      * vm_compute. discriminate.
      * vm_compute. discriminate.
      * reflexivity.
      * lia.
      * vm_compute. discriminate.
Defined.

(** an asserted alignment of 64 for the pixmap at address 64 is passed to
    the device as it is *)
Lemma X20_witness :
  let s := formattedWorld (sampleRenderer false true true) (mkDesc 4 4 PIXEL_RGBA8888) 3 in
  exists s' cmd,
    writeAligned sampleConfig 1 2 1 0 paddedPixmap (mkWP 0 0) 64 0 s = Done tt s' /\
    queue s' = [cmd] /\
    filter isPixelStore (calls cmd) =
      [glPixelStorei GL_UNPACK_ALIGNMENT 64; glPixelStorei GL_UNPACK_ROW_LENGTH 4].
Proof.
  intros s.
  destruct (X20_writeAligned_alignment sampleConfig 1 2 1 s 0 paddedPixmap (mkWP 0 0) 64 0)
    as (_ & s' & cmd & E & Eq & Ep & _).
  - cbn. lia.
  - cbn. lia.
  - cbn. lia.
  - cbn. lia.
  - lia.
  - vm_compute. discriminate.
  - vm_compute. discriminate.
  - reflexivity.
  - reflexivity.
  - reflexivity.
  - unfold INT_MAX. lia.
  - reflexivity.
  - exists s', cmd. split; [exact E|]. split; [exact Eq | exact Ep].
Defined.

(** after [generateMipmaps] a (100,50) texture has its first 1x1 level at
    index 6 *)
Lemma X21_witness :
  let s := formattedWorld (sampleRenderer false true true) (mkDesc 100 50 PIXEL_RGBA8888) 1 in
  exists s',
    generateMipmaps s = Done true s' /\
    size 6 s' = Done (mkWP 1 1) s' /\ size 5 s' <> Done (mkWP 1 1) s'.
Proof.
  intros s.
  destruct (X21_generated_chain_ends_at_1x1 s) as (s' & E & Hiff).
  - cbn. lia.
  - reflexivity.
  - cbn. unfold INT_MAX. lia.
  - cbn. unfold INT_MAX. lia.
  - reflexivity.
  - assert (El : levels_ (tex s') = 7).
    { lazy in E. injection E as <-. reflexivity. }
    exists s'. split; [exact E|]. split.
    + apply (Hiff 6); lia.
    + intros H. apply (Hiff 5) in H; lia.
Defined.

(** an image source without a view, loaded into a 4x4 RGBA8888 texture: with
    room on the heap the 64-byte block at 4096 is uploaded and freed; with
    the heap exhausted the result is ENOMEM *)
Lemma X22_witness :
  let img := mkPixmapSource (mkPixmap (mkDesc 4 4 PIXEL_RGBA8888) 0 0) (fun _ m => m) in
  (exists s' cmd,
     loadImageSource sampleConfig 1 2 1 img false
       (formattedWorld (sampleRenderer false true true) (mkDesc 4 4 PIXEL_RGBA8888) 3)
     = Done noError s' /\
     queue s' = [cmd] /\ filter isStdFree (calls cmd) = [stdFree 4096]) /\
  (exists s',
     loadImageSource sampleConfig 1 2 1 img false
       (starvedWorld (sampleRenderer false true true) (mkDesc 4 4 PIXEL_RGBA8888) 3)
     = Done ENOMEM s' /\ queue s' = []).
Proof.
  intros img. split.
  - pose proof (X22_loadImageSource_pull sampleConfig 1 2 1
                  (formattedWorld (sampleRenderer false true true)
                     (mkDesc 4 4 PIXEL_RGBA8888) 3) img false) as H.
    cbv zeta in H. change (heapFits _ _) with true in H. cbv iota in H.
    destruct H as (s' & cmd & fmt & dt & E & Eq & _ & _ & _ & _ & Ef & _).
    + lia.
    + cbn. lia.
    + cbn. lia.
    + cbn. lia.
    + cbn. lia.
    + reflexivity.
    + reflexivity.
    + vm_compute. discriminate.
    + exists s', cmd. split; [exact E|]. split; [exact Eq | exact Ef].
  - pose proof (X22_loadImageSource_pull sampleConfig 1 2 1
                  (starvedWorld (sampleRenderer false true true)
                     (mkDesc 4 4 PIXEL_RGBA8888) 3) img false) as H.
    cbv zeta in H. change (heapFits _ _) with false in H. cbv iota in H.
    eexists. split.
    + apply H.
      * lia.
      * cbn. lia.
      * cbn. lia.
      * cbn. lia.
      * cbn. lia.
      * reflexivity.
      * reflexivity.
      * vm_compute. discriminate.
    + reflexivity.
Defined.

(** an image source with a padded view that has to be staged while the heap
    is exhausted: nothing is queued and the result is still "no error" *)
Lemma X23_witness :
  let s := starvedWorld (sampleRenderer false false true) (mkDesc 4 4 PIXEL_RGBA8888) 3 in
  exists s',
    loadImageSource sampleConfig 1 2 1 (mkPixmapSource paddedPixmap (fun _ m => m)) false s
    = Done noError s' /\
    queue s' = [] /\
    errLog s' = ["failed allocating %u bytes for pixel buffer";
                 "error getting buffer for writeAligned()"].
Proof.
  intros s.
  destruct (X23_loadImageSource_push_hides_allocation_failure sampleConfig 1 2 1 s
              (mkPixmapSource paddedPixmap (fun _ m => m)) false)
    as (s' & E & Eq & _ & _ & Ee).
  - cbn. lia.
  - cbn. lia.
  - cbn. lia.
  - cbn. lia.
  - reflexivity.
  - cbn. lia.
  - cbn. lia.
  - cbn. lia.
  - cbn. lia.
  - reflexivity.
  - reflexivity.
  - vm_compute. discriminate.
  - reflexivity.
  - exists s'. split; [exact E|]. split; [exact Eq | exact Ee].
Defined.

(** formatting an A8 texture under OpenGL ES with a compatibility sampler on
    a new handle: the four swizzle calls one, one, one, red, then the
    sampler's parameters *)
Lemma X24_witness :
  let params := mkSamplerParams 9729 9729 33071 33071 in
  exists s' cmd,
    setFormat sampleConfig (mkDesc 4 4 PIXEL_A8) 0 LINEAR (Some params)
      (unformattedWorld (sampleRenderer true true true)) = Done tt s' /\
    queue s' = [cmd] /\
    filter isParamCall (calls cmd) =
      [glTexParameteri GL_TEXTURE_2D GL_TEXTURE_SWIZZLE_R GL_ONE;
       glTexParameteri GL_TEXTURE_2D GL_TEXTURE_SWIZZLE_G GL_ONE;
       glTexParameteri GL_TEXTURE_2D GL_TEXTURE_SWIZZLE_B GL_ONE;
       glTexParameteri GL_TEXTURE_2D GL_TEXTURE_SWIZZLE_A GL_RED;
       setTexParamsInGL GL_TEXTURE_2D params].
Proof.
  intros params.
  destruct (X24_setFormat_parameters sampleConfig
              (unformattedWorld (sampleRenderer true true true))
              (mkDesc 4 4 PIXEL_A8) 0 LINEAR (Some params))
    as (s' & cmd & E & Eq & Ep).
  - cbn. lia.
  - cbn. lia.
  - reflexivity.
  - vm_compute. discriminate.
  - exists s', cmd. split; [exact E|]. split; [exact Eq | exact Ep].
Defined.
